(** * Dokkan-K-B: the multi-source aggregation engine

    A shallow embedding of [lib/data-manager.js] (class [DataManager]), of
    [lib/wiki-updater.js] (the module-level [config] and class [WikiUpdater])
    and of the cached handlers of [server.js], followed by the properties of
    the prioritized fetch, the parser engine, the freshness re-ranking and
    the cache-aware batch update.

    Conventions of the embedding.
    - A JavaScript value is a [Value]; a plain object is a finite map of its
      own properties, and reading a property it does not own goes on to
      [Object.prototype].  The objects whose key order the code observes
      ([config.wikiSources], [config.dataTypes], the [freshness] table) are
      association lists in insertion order.
    - [async] methods are computations in a state-and-exception monad over
      [World]; [await] is sequencing; a rejected promise is [Throw].
    - [Date.now()] is the field [clock] of the world; it advances while a
      request is in flight and while a rate-limit delay is awaited.
    - The two source adapters are an oracle [Upstream]; every call made to
      them is appended to the ghost field [calls].
    - The file system is an oracle too: every path says what reading,
      writing and unlinking it does.
    - Finite numbers are exact rationals: the rounding of IEEE doubles is
      not modelled, [NaN] is. *)

From Stdlib Require Import ZArith QArith Lqa DecimalString.
From stdpp Require Import gmap strings list sorting.

Set Warnings "-register-all,-clear-no-such-hyp".
Set Default Proof Using "Type*".
Local Open Scope Z_scope.

(** ** JavaScript values *)

Module Js.

Inductive Num := NaN | Fin (q : Q).

(** [VNative name] is the member [name] of [Object.prototype]: one of its
    functions, or, under the name [__proto__], the prototype itself. *)
Inductive Value :=
| VUndefined
| VNull
| VBool (b : bool)
| VNum (n : Num)
| VStr (s : string)
| VDate (t : Num)                       (* a Date instance and its time value *)
| VArr (elems : list Value)
| VObj (fields : gmap string Value)
| VNative (name : string).

(** The own properties of a plain object. *)
Abbreviation Item := (gmap string Value).

Record Error := mkError { message : string }.

Inductive Result (A : Type) :=
| Ok (a : A)
| Throw (e : Error).
Arguments Ok {A} a.
Arguments Throw {A} e.

Definition and_then {A B : Type} (r : Result A) (k : A -> Result B) : Result B :=
  match r with
  | Ok a => k a
  | Throw e => Throw e
  end.

(** [l.map(f)] for a callback that may throw: the first exception ends the
    traversal. *)
Fixpoint mapM {A B : Type} (f : A -> Result B) (l : list A) : Result (list B) :=
  match l with
  | [] => Ok []
  | x :: rest =>
      and_then (f x) (fun y => and_then (mapM f rest) (fun ys => Ok (y :: ys)))
  end.

Definition num_of_Z (z : Z) : Num := Fin (inject_Z z).

Definition nadd (a b : Num) : Num :=
  match a, b with
  | Fin x, Fin y => Fin (x + y)
  | _, _ => NaN
  end.

Definition nsub (a b : Num) : Num :=
  match a, b with
  | Fin x, Fin y => Fin (x - y)
  | _, _ => NaN
  end.

Definition nmul (a b : Num) : Num :=
  match a, b with
  | Fin x, Fin y => Fin (x * y)
  | _, _ => NaN
  end.

(** [a / b] for a divisor that is a positive count or constant. *)
Definition ndiv (a b : Num) : Num :=
  match a, b with
  | Fin x, Fin y => if Qeq_bool y 0 then NaN else Fin (x / y)
  | _, _ => NaN
  end.

(** [a >= 0]: false on NaN. *)
Definition nge0 (a : Num) : bool :=
  match a with
  | Fin x => Qle_bool 0 x
  | NaN => false
  end.

(** [a > 0]: false on NaN. *)
Definition ngt0 (a : Num) : bool :=
  match a with
  | Fin x => Qle_bool 0 x && negb (Qeq_bool x 0)
  | NaN => false
  end.

(** [v === undefined] *)
Definition isUndefined (v : Value) : bool :=
  match v with
  | VUndefined => true
  | _ => false
  end.

(** ToBoolean: what [!v], [v || w] and [if (v)] look at. *)
Definition truthy (v : Value) : bool :=
  match v with
  | VUndefined | VNull => false
  | VBool b => b
  | VNum NaN => false
  | VNum (Fin q) => negb (Qeq_bool q 0)
  | VStr s => negb (String.eqb s "")
  | VDate _ | VArr _ | VObj _ | VNative _ => true
  end.

(** The functions of [Object.prototype], each with its [length]. *)
Definition prototypeFunctions : list (string * Z) :=
  [ ("constructor", 1); ("__defineGetter__", 2); ("__defineSetter__", 2);
    ("hasOwnProperty", 1); ("__lookupGetter__", 1); ("__lookupSetter__", 1);
    ("isPrototypeOf", 1); ("propertyIsEnumerable", 1); ("toString", 0);
    ("valueOf", 0); ("toLocaleString", 0) ].

(** Whether plain objects inherit a member of this name. *)
Definition inherited (name : string) : bool :=
  bool_decide (name ∈ prototypeFunctions.*1) || String.eqb name "__proto__".

(** [Object.prototype[name]], which is what [o[name]] gives for a plain
    object, or a dictionary, [o] that has no own property [name]. *)
Definition Object_prototype (name : string) : Value :=
  if inherited name then VNative name else VUndefined.

(** [item[field]] on a plain object. *)
Definition prop (item : Item) (field : string) : Value :=
  match item !! field with
  | Some v => v
  | None => Object_prototype field
  end.

(** [native.length]: the arity of a function, nothing for the prototype. *)
Definition nativeLength (name : string) : Value :=
  match list_find (fun entry => entry.1 = name) prototypeFunctions with
  | Some (_, (_, arity)) => VNum (num_of_Z arity)
  | None => VUndefined
  end.

(** [a || b] *)
Definition or_else (a b : Value) : Value := if truthy a then a else b.

(** What is left to the runtime: number and date parsing of strings,
    [String(v)], [trim] and [toISOString]; the properties of the values that
    are not plain objects (arrays, Dates, strings, numbers, functions) and
    what a call of a built-in function returns; [path.join] and the layout
    of the cache directory. *)
Class Builtins := {
  toStr : Value -> string;
  trim : string -> string;
  str_parseInt : string -> Num;
  str_parseFloat : string -> Num;
  Date_parse : string -> Num;
  toISOString : Num -> string;
  (* [v[name]] for a [v] that is neither a plain object, [null] nor
     [undefined] *)
  hostGet : Value -> string -> Value;
  (* [v[name] = x] for an array, a Date or a built-in, and [o.__proto__ = x]
     for a plain object without own [__proto__]: the object afterwards *)
  hostSet : Value -> string -> Value -> Result Value;
  (* [Object.keys(v)] for such a [v] *)
  hostKeys : Value -> list string;
  (* [calculateFreshnessScore(data)] from [data.filter(...)] on, when
     [data.filter] is a built-in function *)
  hostScore : Value -> Result Num;
  (* [JSON.parse(JSON.stringify(o))] when [o.toJSON] is a built-in function *)
  hostJSON : Value -> option Value;
  (* [path.join(this.cachePath, `${key}.json`)] *)
  filepath : string -> string;
  (* whether a path is an entry of the cache directory, as [readdir] lists
     them *)
  inCacheDir : string -> bool
}.

Section WithBuiltins.
Context {js : Builtins}.

(** [parseFloat(v)]: a finite number is read back from its own text. *)
Definition parseFloat (v : Value) : Num :=
  match v with
  | VNum n => n
  | _ => str_parseFloat (toStr v)
  end.

Definition parseInt (v : Value) : Num := str_parseInt (toStr v).

(** TimeClip: drop the fraction, reject what is out of a Date's range. *)
Definition timeClip (n : Num) : Num :=
  match n with
  | NaN => NaN
  | Fin q =>
      let t := Z.quot (Qnum q) (Zpos (Qden q)) in
      if Z.leb (Z.abs t) 8640000000000000 then num_of_Z t else NaN
  end.

(** The time value of [new Date(v)], i.e. [new Date(v).getTime()]. *)
Definition new_Date (v : Value) : Num :=
  match v with
  | VDate t => t
  | VUndefined => NaN
  | VNull => num_of_Z 0
  | VBool b => num_of_Z (if b then 1 else 0)
  | VNum n => timeClip n
  | VStr s => Date_parse s
  | VArr _ | VObj _ | VNative _ => Date_parse (toStr v)
  end.

(** [isNaN(n)] *)
Definition isNaN (n : Num) : bool :=
  match n with
  | NaN => true
  | Fin _ => false
  end.

(** [typeof v], as far as the name is needed in an error message. *)
Definition kind (v : Value) : string :=
  match v with
  | VBool _ => "boolean"
  | VNum _ => "number"
  | VStr _ => "string"
  | VUndefined => "undefined"
  | _ => "object"
  end.

(** [v[name]]: [null] and [undefined] have no properties. *)
Definition getProp (v : Value) (name : string) : Result Value :=
  match v with
  | VUndefined | VNull =>
      Throw (mkError ("Cannot read properties of " +:+ toStr v
                      +:+ " (reading '" +:+ name +:+ "')"))
  | VObj fields => Ok (prop fields name)
  | _ => Ok (hostGet v name)
  end.

(** [v[name] = x] in strict mode (the body of a class is strict): a
    primitive cannot be given a property. *)
Definition setProp (v : Value) (name : string) (x : Value) : Result Value :=
  match v with
  | VUndefined | VNull =>
      Throw (mkError ("Cannot set properties of " +:+ toStr v
                      +:+ " (setting '" +:+ name +:+ "')"))
  | VBool _ | VNum _ | VStr _ =>
      Throw (mkError ("Cannot create property '" +:+ name +:+ "' on "
                      +:+ kind v +:+ " '" +:+ toStr v +:+ "'"))
  | VObj fields =>
      if String.eqb name "__proto__" && bool_decide (fields !! name = None)
      then hostSet v name x
      else Ok (VObj (<[name := x]> fields))
  | _ => hostSet v name x
  end.

(** [Object.keys(v)] *)
Definition Object_keys (v : Value) : Result (list string) :=
  match v with
  | VUndefined | VNull =>
      Throw (mkError "Cannot convert undefined or null to object")
  | VObj fields => Ok (map_to_list fields).*1
  | VBool _ | VNum _ => Ok []
  | _ => Ok (hostKeys v)
  end.

(** What [JSON.parse(JSON.stringify(v))] gives back for [v], [None] when
    [JSON.stringify] leaves the value out: a Date comes back as its ISO
    string (an invalid one as [null]), [NaN] as [null], a property that
    holds [undefined] or a function does not come back. *)
Fixpoint jsonify (v : Value) : option Value :=
  match v with
  | VUndefined => None
  | VNull | VBool _ | VStr _ => Some v
  | VNum n => Some (if isNaN n then VNull else v)
  | VDate t => Some (if isNaN t then VNull else VStr (toISOString t))
  | VArr elems => Some (VArr ((fun x => default VNull (jsonify x)) <$> elems))
  | VObj fields =>
      match fields !! "toJSON" with
      | Some (VNative name) =>
          if String.eqb name "__proto__" then Some (VObj (omap jsonify fields))
          else hostJSON v
      | _ => Some (VObj (omap jsonify fields))
      end
  | VNative name => if String.eqb name "__proto__" then Some (VObj ∅) else None
  end.

(** An element of an array, through JSON. *)
Definition jsonElement (v : Value) : Value := default VNull (jsonify v).

End WithBuiltins.

(** [for (const x of l) ...] and [l.forEach(...)] over an accumulator. *)
Fixpoint forEach {A S : Type} (body : A -> S -> S) (l : list A) (s : S) : S :=
  match l with
  | [] => s
  | x :: rest => forEach body rest (body x s)
  end.

(** Insertion-ordered dictionaries: [o[k]] and [o[k] = v]. *)
Fixpoint assoc_get {V : Type} (k : string) (o : list (string * V)) : option V :=
  match o with
  | [] => None
  | (k', v) :: rest => if String.eqb k' k then Some v else assoc_get k rest
  end.

Fixpoint assoc_set {V : Type} (k : string) (v : V) (o : list (string * V))
  : list (string * V) :=
  match o with
  | [] => [(k, v)]
  | (k', v') :: rest =>
      if String.eqb k' k then (k', v) :: rest else (k', v') :: assoc_set k v rest
  end.

(** [Object.keys(o)] *)
Definition keys {V : Type} (o : list (string * V)) : list string := o.*1.

End Js.

Import Js.

(** ** lib/data-manager.js *)

Module DataManager.

(** What the updater stores under a data type's key. *)
Record CacheEntry := mkEntry {
  data : list Value;
  timestamp : Z;
  source : string
}.

(** What [JSON.parse] makes of a cache file. *)
Inductive Cached :=
| CNull
| CEntry (e : CacheEntry).

(** The text of a file, up to what [JSON.parse] does with it: [Garbage] is
    any text it rejects with a SyntaxError. *)
Inductive Content :=
| Garbage
| Json (v : Cached).

(** What [writeFile] does to a path: it stores the text, it fails and
    leaves the path as it was, or it fails after it has truncated the
    file. *)
Inductive Write := Stored | Refused | Damaged.

(** A path of the file system, by what the three accesses do to it.
    Reading rejects when there is no [content]: the path is a directory,
    access is denied, the device fails. *)
Record File := mkFile {
  content : option Content;
  unlinkable : bool;
  onWrite : Write
}.

(** The file system: whether [readdir] of the cache directory resolves, the
    paths that exist, and for a path that does not exist the file that
    [writeFile] would make of it. *)
Record Store := mkStore {
  listable : bool;
  nodes : gmap string File;
  created : string -> File
}.

Definition with_nodes (f : gmap string File -> gmap string File) (fs : Store)
  : Store :=
  mkStore (listable fs) (f (nodes fs)) (created fs).

Definition with_content (c : Content) (f : File) : File :=
  mkFile (Some c) (unlinkable f) (onWrite f).

(** [fs.readFile(path, 'utf8')] *)
Definition readFile (fs : Store) (path : string) : Result Content :=
  match nodes fs !! path with
  | None => Throw (mkError "ENOENT: no such file or directory")
  | Some f =>
      match content f with
      | Some c => Ok c
      | None => Throw (mkError "EIO: i/o error")
      end
  end.

(** [fs.writeFile(path, text)]: the outcome and the file system afterwards. *)
Definition writeFile (fs : Store) (path : string) (c : Content)
  : Result unit * Store :=
  let f := default (created fs path) (nodes fs !! path) in
  match onWrite f with
  | Stored => (Ok tt, with_nodes (fun m => <[path := with_content c f]> m) fs)
  | Refused => (Throw (mkError "EACCES: permission denied"), fs)
  | Damaged =>
      (Throw (mkError "ENOSPC: no space left on device"),
       with_nodes (fun m => <[path := with_content Garbage f]> m) fs)
  end.

Definition JSON_parse (c : Content) : Result Cached :=
  match c with
  | Garbage => Throw (mkError "SyntaxError: Unexpected token in JSON")
  | Json v => Ok v
  end.

(** [try { ... } catch { ... }] on results. *)
Definition try_catch {A : Type} (body : Result A) (handler : Error -> Result A)
  : Result A :=
  match body with
  | Ok a => Ok a
  | Throw e => handler e
  end.

Section WithBuiltins.
Context {js : Builtins}.

(** [JSON.stringify(entry, null, 2)], as the text reads back: the records
    of [data] come back as [jsonify] gives them. *)
Definition JSON_stringify (e : CacheEntry) : Content :=
  Json (CEntry (mkEntry (jsonElement <$> data e) (timestamp e) (source e))).

Definition cacheData (fs : Store) (key : string) (e : CacheEntry)
  : Result unit * Store :=
  writeFile fs (filepath key) (JSON_stringify e).

Definition getCachedData (fs : Store) (key : string) : Result Cached :=
  try_catch
    (and_then (readFile fs (filepath key)) JSON_parse)
    (fun _ => Ok CNull).

(** Whether [clearCache] removes the node at a path: the path is listed
    and [unlink] succeeds on it. *)
Definition removed (path : string) (f : File) : bool :=
  inCacheDir path && unlinkable f.

(** Whether the [unlink] of a path is attempted and fails. *)
Definition resists (path : string) (f : File) : bool :=
  inCacheDir path && negb (unlinkable f).

(** [clearCache]: [readdir] lists the directory, then [Promise.all] starts
    the [unlink] of every entry; the call rejects when [readdir] or an
    [unlink] fails.  The store returned is the file system once every
    [unlink] that was started has settled: the entries that can be unlinked
    are gone whether or not another [unlink] fails. *)
Definition clearCache (fs : Store) : Result unit * Store :=
  if listable fs then
    (match map_to_list (filter (fun pf => resists pf.1 pf.2 = true) (nodes fs)) with
     | [] => Ok tt
     | _ => Throw (mkError "EPERM: operation not permitted, unlink")
     end,
     with_nodes (filter (fun pf => removed pf.1 pf.2 = false)) fs)
  else (Throw (mkError "ENOENT: no such file or directory, scandir"), fs).

End WithBuiltins.

End DataManager.

(** ** lib/wiki-updater.js *)

Module WikiUpdater.
Import DataManager.

(** *** The adapters and the world they are called in *)

Inductive Adapter := fandomAPI | dokkanScraper.

Inductive Request :=
| getLatestCards
| getEvents
| getEZAs
| getDokkanEvents
| getStoryEvents
| getMissions
| getItems
| getGenericData (dataType : string)
| getSample (dataType : string) (n : nat)
| getAvailableDataTypes.

Definition Call : Type := Adapter * Request.

(** What a fetch resolves to: any value. *)
Abbreviation Raw := Value.

Record Reply := mkReply {
  outcome : Result Raw;
  elapsed : nat                 (* milliseconds the request was in flight *)
}.

Record Upstream := mkUpstream {
  respond : Call -> Reply;
  availableDataTypes : Adapter -> Result (list string)
}.

Record SourceConfig := mkSource {
  baseUrl : string;
  priority : Z;
  rateLimitMs : Z
}.

(** A field transformation: [value => ...], which may read the current
    time ([new Date()]) and may throw. *)
Abbreviation Transform := (Z -> Value -> Result Value).

Record Parser := mkParser {
  requiredFields : list string;
  transformations : gmap string Transform
}.

(** [config.parsers]: the key [default] is there from the start and no
    code path removes a key, so it is kept apart from the other keys.  The
    keys are own properties: [parsers_get] does not look at what the object
    inherits. *)
Record Parsers := mkParsers {
  default_parser : Parser;
  named : gmap string Parser
}.

Definition parsers_get (ps : Parsers) (dataType : string) : option Parser :=
  if String.eqb dataType "default" then Some (default_parser ps)
  else named ps !! dataType.

Definition parsers_set (dataType : string) (p : Parser) (ps : Parsers) : Parsers :=
  if String.eqb dataType "default" then mkParsers p (named ps)
  else mkParsers (default_parser ps) (<[dataType := p]> (named ps)).

Record World := mkWorld {
  clock : Z;                                     (* Date.now() *)
  calls : list Call;                             (* ghost: adapter calls so far *)
  files : Store;                                 (* this.dataManager *)
  lastRequestTime : gmap string Z;               (* this.lastRequestTime *)
  sourcePriorities : gmap string (list string);  (* this.sourcePriorities *)
  wikiSources : list (string * SourceConfig);    (* config.wikiSources *)
  dataTypes : list (string * Z);                 (* config.dataTypes: cacheTtl *)
  parsers : Parsers                              (* config.parsers *)
}.

Definition with_clock (f : Z -> Z) (w : World) : World :=
  mkWorld (f (clock w)) (calls w) (files w) (lastRequestTime w)
          (sourcePriorities w) (wikiSources w) (dataTypes w) (parsers w).

Definition with_calls (f : list Call -> list Call) (w : World) : World :=
  mkWorld (clock w) (f (calls w)) (files w) (lastRequestTime w)
          (sourcePriorities w) (wikiSources w) (dataTypes w) (parsers w).

Definition with_files (f : Store -> Store) (w : World) : World :=
  mkWorld (clock w) (calls w) (f (files w)) (lastRequestTime w)
          (sourcePriorities w) (wikiSources w) (dataTypes w) (parsers w).

Definition with_lastRequestTime (f : gmap string Z -> gmap string Z) (w : World)
  : World :=
  mkWorld (clock w) (calls w) (files w) (f (lastRequestTime w))
          (sourcePriorities w) (wikiSources w) (dataTypes w) (parsers w).

Definition with_sourcePriorities
  (f : gmap string (list string) -> gmap string (list string)) (w : World) : World :=
  mkWorld (clock w) (calls w) (files w) (lastRequestTime w)
          (f (sourcePriorities w)) (wikiSources w) (dataTypes w) (parsers w).

Definition with_dataTypes (f : list (string * Z) -> list (string * Z)) (w : World)
  : World :=
  mkWorld (clock w) (calls w) (files w) (lastRequestTime w)
          (sourcePriorities w) (wikiSources w) (f (dataTypes w)) (parsers w).

Definition with_parsers (f : Parsers -> Parsers) (w : World) : World :=
  mkWorld (clock w) (calls w) (files w) (lastRequestTime w)
          (sourcePriorities w) (wikiSources w) (dataTypes w) (f (parsers w)).

(** *** The monad of [async] methods *)

Definition M (A : Type) : Type := World -> Result A * World.

Definition ret {A : Type} (a : A) : M A := fun w => (Ok a, w).

Definition throw {A : Type} (e : Error) : M A := fun w => (Throw e, w).

Definition bind {A B : Type} (m : M A) (k : A -> M B) : M B :=
  fun w =>
    match m w with
    | (Ok a, w') => k a w'
    | (Throw e, w') => (Throw e, w')
    end.

Notation "x <- m ;; k" := (bind m (fun x => k))
  (at level 100, m at next level, right associativity).
Notation "m ;; k" := (bind m (fun _ => k))
  (at level 100, right associativity).

(** [try { body } catch (error) { handler }]; what [body] did to the world
    before it threw stays done. *)
Definition try_catch {A : Type} (body : M A) (handler : Error -> M A) : M A :=
  fun w =>
    match body w with
    | (Ok a, w') => (Ok a, w')
    | (Throw e, w') => handler e w'
    end.

(** The outcome of a [try] body as a value, for loops that [continue] or
    [return] out of it. *)
Definition attempt {A : Type} (body : M A) : M (Result A) :=
  fun w => let '(r, w') := body w in (Ok r, w').

Definition get : M World := fun w => (Ok w, w).

Definition modify (f : World -> World) : M unit := fun w => (Ok tt, f w).

Definition lift {A : Type} (r : Result A) : M A := fun w => (r, w).

Definition Date_now : M Z := fun w => (Ok (clock w), w).

(** [await new Promise(resolve => setTimeout(resolve, delay))] *)
Definition sleep (delay : Z) : M unit := modify (with_clock (fun t => t + delay)).

(** [for (const x of l) { body }] *)
Fixpoint for_of {A : Type} (l : list A) (body : A -> M unit) : M unit :=
  match l with
  | [] => ret tt
  | x :: rest => body x ;; for_of rest body
  end.

(** A [for ... of] loop that updates a local variable. *)
Fixpoint for_acc {A S : Type} (l : list A) (body : A -> S -> M S) (s : S) : M S :=
  match l with
  | [] => ret s
  | x :: rest => s' <- body x s ;; for_acc rest body s'
  end.

Section WithEnvironment.
Context (up : Upstream) {js : Builtins}.

(** One call to an adapter method. *)
Definition invoke (c : Call) : M Raw :=
  fun w =>
    let r := respond up c in
    (outcome r,
     with_calls (fun cs => cs ++ [c])
       (with_clock (fun t => t + Z.of_nat (elapsed r)) w)).

(** [source === 'fandom' ? this.fandomAPI : this.dokkanScraper] *)
Definition adapterFor (source : string) : Adapter :=
  if String.eqb source "fandom" then fandomAPI else dokkanScraper.

(** The fetch callbacks of the class: the same method on whichever
    adapter serves the source. *)
Definition via (req : Request) : string -> Call :=
  fun source => (adapterFor source, req).

(** *** respectRateLimit *)

Definition respectRateLimit (source : string) : M unit :=
  w <- get ;;
  match assoc_get source (wikiSources w) with
  | None => ret tt
  | Some sourceConfig =>
      let lastRequest := default 0 (lastRequestTime w !! source) in
      let elapsed := clock w - lastRequest in
      let delay := rateLimitMs sourceConfig - elapsed in
      if 0 <? delay then sleep delay else ret tt
  end.

(** *** parseData and getDefaultValueForField *)

Definition getDefaultValueForField (now : Z) (field : string) : Value :=
  let defaults : gmap string Value :=
    list_to_map
      [ ("id", VStr "0");
        ("name", VStr "Unknown");
        ("title", VStr "Unknown");
        ("description", VStr "");
        ("startDate", VDate (num_of_Z now));
        ("endDate", VDate (num_of_Z now));
        ("type", VStr "Unknown");
        ("rarity", VStr "N");
        ("card_id", VStr "0");
        ("atk", VNum (num_of_Z 0));
        ("def", VNum (num_of_Z 0));
        ("hp", VNum (num_of_Z 0));
        ("stages", VArr []);
        ("missions", VArr []);
        ("items", VArr []) ] in
  if negb (isUndefined (prop defaults field)) then prop defaults field
  else VStr "".

(** One step of the loop over [parserConfig.requiredFields]; neither the
    read nor the assignment is inside a [try]. *)
Definition fillField (now : Z) (field : string) (item : Value) : Result Value :=
  and_then (getProp item field) (fun value =>
    if isUndefined value
    then setProp item field (getDefaultValueForField now field)
    else Ok item).

(** The loop over [parserConfig.requiredFields]. *)
Definition fillRequired (now : Z) (required : list string) (item : Value)
  : Result Value :=
  forEach (fun field acc => and_then acc (fillField now field)) required (Ok item).

(** One step of the loop over [Object.entries(parserConfig.transformations)]:
    the test reads the field outside the [try], the call of the
    transformation and the assignment are inside. *)
Definition applyTransform (now : Z) (field : string) (transform : Transform)
  (item : Value) : Result Value :=
  and_then (getProp item field) (fun value =>
    if negb (isUndefined value) then
      match and_then (transform now value) (setProp item field) with
      | Ok item' => Ok item'
      | Throw _ => Ok item
      end
    else Ok item).

Definition applyTransformations (now : Z) (ts : gmap string Transform)
  (item : Value) : Result Value :=
  map_fold (fun field transform acc =>
              and_then acc (applyTransform now field transform))
           (Ok item) ts.

(** The callback of [dataArray.map]. *)
Definition parseItem (now : Z) (parserConfig : Parser) (item : Value)
  : Result Value :=
  and_then (fillRequired now (requiredFields parserConfig) item)
           (applyTransformations now (transformations parserConfig)).

(** [Array.isArray(rawData) ? rawData : [rawData]] *)
Definition dataArray (rawData : Value) : list Value :=
  match rawData with
  | VArr items => items
  | _ => [rawData]
  end.

(** [config.parsers[dataType] || config.parsers.default]: for a name that
    [config.parsers] inherits, the parser configuration is a built-in, which
    has neither [requiredFields] nor [transformations]. *)
Definition parserConfigFor (ps : Parsers) (dataType : string) : Parser :=
  match parsers_get ps dataType with
  | Some p => p
  | None => if inherited dataType then mkParser [] ∅ else default_parser ps
  end.

Definition parseData (dataType : string) (rawData : Value) (source : string)
  : M (list Value) :=
  w <- get ;;
  let parserConfig := parserConfigFor (parsers w) dataType in
  lift (mapM (parseItem (clock w) parserConfig) (dataArray rawData)).

(** *** getDataFromPrioritizedSources *)

(** The parsed array with its two extra properties. *)
Record Parsed := mkParsed {
  items : list Value;
  source : string;
  fetchTime : Z
}.

(** [!rawData || (Array.isArray(rawData) && rawData.length === 0)] *)
Definition noData (rawData : Raw) : bool :=
  negb (truthy rawData)
  || match rawData with
     | VArr [] => true
     | _ => false
     end.

(** The body of the [try] block for one source: [None] is [continue]. *)
Definition fetchFrom (dataType : string) (fetchFn : string -> Call)
  (source : string) : M (option Parsed) :=
  respectRateLimit source ;;
  rawData <- invoke (fetchFn source) ;;
  now <- Date_now ;;
  modify (with_lastRequestTime (fun m => <[source := now]> m)) ;;
  if noData rawData then ret None
  else
    parsedData <- parseData dataType rawData source ;;
    fetchTime <- Date_now ;;
    ret (Some (mkParsed parsedData source fetchTime)).

Definition exhausted (dataType : string) (lastError : option Error) : Error :=
  match lastError with
  | Some e =>
      mkError ("Failed to fetch " +:+ dataType +:+ " from all sources: "
               +:+ message e)
  | None => mkError ("Failed to fetch " +:+ dataType +:+ " from all sources")
  end.

(** The [for (const source of priorities)] loop and what follows it. *)
Fixpoint trySources (dataType : string) (fetchFn : string -> Call)
  (priorities : list string) (lastError : option Error) : M Parsed :=
  match priorities with
  | [] => throw (exhausted dataType lastError)
  | source :: rest =>
      r <- attempt (fetchFrom dataType fetchFn source) ;;
      match r with
      | Ok (Some parsedData) => ret parsedData
      | Ok None => trySources dataType fetchFn rest lastError
      | Throw error => trySources dataType fetchFn rest (Some error)
      end
  end.

(** [!priorities || priorities.length === 0] for what [this.sourcePriorities]
    inherits under a name it does not own. *)
Definition noPriorities (inheritedMember : Value) : bool :=
  match inheritedMember with
  | VNative name =>
      match nativeLength name with
      | VNum (Fin q) => Qeq_bool q 0
      | _ => false
      end
  | _ => true
  end.

Definition getDataFromPrioritizedSources (dataType : string)
  (fetchFn : string -> Call) : M Parsed :=
  w <- get ;;
  match sourcePriorities w !! dataType with
  | Some [] =>
      throw (mkError ("No source priorities defined for data type: "
                      +:+ dataType))
  | Some priorities => trySources dataType fetchFn priorities None
  | None =>
      if noPriorities (Object_prototype dataType)
      then throw (mkError ("No source priorities defined for data type: "
                           +:+ dataType))
      else throw (mkError "priorities is not iterable")
  end.

Definition getLatestCardsFromBestSource : M Parsed :=
  getDataFromPrioritizedSources "cards" (via getLatestCards).
Definition getEventsFromBestSource : M Parsed :=
  getDataFromPrioritizedSources "events" (via getEvents).
Definition getEZAsFromBestSource : M Parsed :=
  getDataFromPrioritizedSources "ezas" (via getEZAs).
Definition getDokkanEventsFromBestSource : M Parsed :=
  getDataFromPrioritizedSources "dokkanEvents" (via getDokkanEvents).
Definition getStoryEventsFromBestSource : M Parsed :=
  getDataFromPrioritizedSources "storyEvents" (via getStoryEvents).
Definition getMissionsFromBestSource : M Parsed :=
  getDataFromPrioritizedSources "missions" (via getMissions).
Definition getItemsFromBestSource : M Parsed :=
  getDataFromPrioritizedSources "items" (via getItems).
Definition getGenericDataFromBestSource (dataType : string) : M Parsed :=
  getDataFromPrioritizedSources dataType (via (getGenericData dataType)).

(** *** learnParserForNewDataType *)

Inductive FieldType := tnumber | tboolean | tdate | tarray | tstring | tobject.

(** The chain of [typeof] / [instanceof] tests on a value that is not
    [undefined]. *)
Definition inferType (value : Value) : FieldType :=
  match value with
  | VNum _ => tnumber
  | VBool _ => tboolean
  | VDate _ => tdate
  | VArr _ => tarray
  | VStr s => if negb (isNaN (Date_parse s)) then tdate else tstring
  | VObj _ => tobject
  | VNative name => if String.eqb name "__proto__" then tobject else tstring
  | VNull | VUndefined => tstring
  end.

(** [typeof value === 'object' && value !== null] *)
Definition isObject (value : Value) : bool :=
  match value with
  | VObj _ | VArr _ | VDate _ => true
  | VNative name => String.eqb name "__proto__"
  | _ => false
  end.

(** The [switch (type)] that builds one transformation per field. *)
Definition transformationFor (type : FieldType) : Transform :=
  fun now value =>
    match type with
    | tnumber =>
        let num := parseFloat value in
        Ok (VNum (if isNaN num then num_of_Z 0 else num))
    | tboolean => Ok (VBool (truthy value))
    | tdate =>
        let date := new_Date value in
        Ok (VDate (if isNaN date then num_of_Z now else date))
    | tarray =>
        Ok (match value with VArr _ => value | _ => VArr [] end)
    | tobject => Ok (if isObject value then value else VObj ∅)
    | tstring => Ok (VStr (toStr (or_else value (VStr ""))))
    end.

(** First pass: [allFields], a [Set], from [Object.keys] of every sample. *)
Definition collectFields (sampleData : list Value) : Result (gset string) :=
  and_then (mapM Object_keys sampleData)
           (fun keyLists => Ok (list_to_set (concat keyLists))).

(** [o[k] = v] on a dictionary of numbers or strings: an assignment to
    [__proto__] is taken by the setter of [Object.prototype], which ignores
    such a value. *)
Definition dict_set {V : Type} (k : string) (v : V) (o : gmap string V)
  : gmap string V :=
  if String.eqb k "__proto__" then o else <[k := v]> o.

(** [commonFields[field] = 0] for every field. *)
Definition initCounts (allFields : gset string) : gmap string nat :=
  forEach (fun field commonFields => dict_set field 0%nat commonFields)
          (elements allFields) ∅.

(** Second pass, one field of one item: count it if [item[field]] is not
    [undefined] and, unless [fieldTypes[field]] is truthy, infer its
    type. *)
Definition countField (item : Value) (field : string)
  (st : Result (gmap string nat * gmap string FieldType))
  : Result (gmap string nat * gmap string FieldType) :=
  and_then st (fun '(commonFields, fieldTypes) =>
    and_then (getProp item field) (fun value =>
      if negb (isUndefined value) then
        Ok (alter S field commonFields,
            match fieldTypes !! field with
            | Some _ => fieldTypes
            | None =>
                if inherited field then fieldTypes
                else <[field := inferType value]> fieldTypes
            end)
      else Ok (commonFields, fieldTypes))).

Definition countFields (allFields : gset string) (sampleData : list Value)
  : Result (gmap string nat * gmap string FieldType) :=
  forEach
    (fun item st => forEach (countField item) (elements allFields) st)
    sampleData (Ok (initCounts allFields, ∅)).

(** [count >= sampleData.length * 0.75] *)
Definition frequent (total count : nat) : bool :=
  Qle_bool (inject_Z (Z.of_nat total) * (75 # 100)) (inject_Z (Z.of_nat count)).

Definition learnParserForNewDataType (dataType : string)
  (sampleData : list Value) : M Parser :=
  w <- get ;;
  match sampleData with
  | [] => ret (default_parser (parsers w))
  | _ =>
      allFields <- lift (collectFields sampleData) ;;
      counted <- lift (countFields allFields sampleData) ;;
      let '(commonFields, fieldTypes) := counted in
      let requiredFields :=
        (filter (fun entry => frequent (length sampleData) entry.2)
                (map_to_list commonFields)).*1 in
      let transformations := transformationFor <$> fieldTypes in
      let newParser := mkParser requiredFields transformations in
      modify (with_parsers (parsers_set dataType newParser)) ;;
      ret newParser
  end.

(** *** discoverAndCreateParsers *)

(** [[...new Set(l)]]: first occurrences, in order. *)
Definition unique (l : list string) : list string :=
  forEach (fun x seen => if bool_decide (x ∈ seen) then seen else seen ++ [x])
          l [].

(** [adapter.getAvailableDataTypes().catch(() => [])] *)
Definition availableTypesOrNone (a : Adapter) : M (list string) :=
  modify (with_calls (fun cs => cs ++ [(a, getAvailableDataTypes)])) ;;
  match availableDataTypes up a with
  | Ok types => ret types
  | Throw _ => ret []
  end.

Definition learnNewType (type : string) : M unit :=
  try_catch
    (sampleData <- getDataFromPrioritizedSources type (via (getSample type 10)) ;;
     learnParserForNewDataType type (items sampleData) ;;
     w <- get ;;
     match assoc_get type (dataTypes w) with
     | None =>
         if inherited type then ret tt
         else modify (with_dataTypes (assoc_set type 3600000))
     | Some _ => ret tt
     end)
    (fun _ => ret tt).

Definition discoverAndCreateParsers : M (list string) :=
  try_catch
    (fandomTypes <- availableTypesOrNone fandomAPI ;;
     dokkanInfoTypes <- availableTypesOrNone dokkanScraper ;;
     let allTypes := unique (fandomTypes ++ dokkanInfoTypes) in
     w <- get ;;
     let newTypes :=
       filter (fun type => parsers_get (parsers w) type = None
                           /\ inherited type = false) allTypes in
     for_of newTypes learnNewType ;;
     ret newTypes)
    (fun _ => ret []).

(** *** calculateFreshnessScore and updateSourcePriorities *)

Definition sum (l : list Num) : Num := foldl nadd (num_of_Z 0) l.

Definition count_of {A : Type} (l : list A) : Num :=
  num_of_Z (Z.of_nat (length l)).

(** [item.updatedAt || item.lastModified] *)
Definition updateStamp (item : Value) : Result Value :=
  and_then (getProp item "updatedAt") (fun updatedAt =>
    if truthy updatedAt then Ok updatedAt else getProp item "lastModified").

(** The score of a non-empty array: each of the three passes reads a
    property, or the keys, of every element. *)
Definition scoreOfItems (data : list Value) : Result Num :=
  let score := num_of_Z 0 in
  and_then (mapM updateStamp data) (fun stamps =>
  let timestamps := new_Date <$> filter (fun stamp => truthy stamp = true) stamps in
  let score :=
    if bool_decide (0 < length timestamps)%nat then
      let avgTimestamp := ndiv (sum timestamps) (count_of timestamps) in
      nadd score (ndiv avgTimestamp (num_of_Z 1000000))
    else score in
  and_then (mapM (fun item => getProp item "version") data) (fun found =>
  let versions := parseFloat <$> filter (fun version => truthy version = true) found in
  let score :=
    if bool_decide (0 < length versions)%nat then
      let avgVersion := ndiv (sum versions) (count_of versions) in
      nadd score (nmul avgVersion (num_of_Z 1000))
    else score in
  and_then (mapM Object_keys data) (fun keyLists =>
  let completeness :=
    ndiv (sum (count_of <$> keyLists)) (count_of data) in
  Ok (nadd score (nmul completeness (num_of_Z 10)))))).

(** [data.length === 0] for a [data] that is not an array. *)
Definition lengthIsZero (data : Value) : bool :=
  match data with
  | VObj fields =>
      match prop fields "length" with
      | VNum (Fin q) => Qeq_bool q 0
      | _ => false
      end
  | VNative name =>
      match nativeLength name with
      | VNum (Fin q) => Qeq_bool q 0
      | _ => false
      end
  | _ => false
  end.

Definition calculateFreshnessScore (data : Raw) : Result Num :=
  if negb (truthy data) then Ok (num_of_Z 0)
  else
    match data with
    | VArr [] => Ok (num_of_Z 0)
    | VArr items => scoreOfItems items
    | _ =>
        if lengthIsZero data then Ok (num_of_Z 0)
        else
          (* [data.filter] is a property of the record: no string, number,
             Date or built-in has one *)
          match data with
          | VObj fields =>
              match prop fields "filter" with
              | VNative name =>
                  if String.eqb name "__proto__"
                  then Throw (mkError "data.filter is not a function")
                  else hostScore data
              | _ => Throw (mkError "data.filter is not a function")
              end
          | _ => Throw (mkError "data.filter is not a function")
          end
    end.

(** [Array.prototype.sort(compare)]: a stable sort; [compare a b > 0]
    puts [a] after [b]. *)
Fixpoint sort_insert {A : Type} (compare : A -> A -> Num) (a : A) (l : list A)
  : list A :=
  match l with
  | [] => [a]
  | b :: rest =>
      if ngt0 (compare a b) then b :: sort_insert compare a rest
      else a :: b :: rest
  end.

Definition Array_sort {A : Type} (compare : A -> A -> Num) (l : list A) : list A :=
  foldr (sort_insert compare) [] l.

(** The inner [try]/[catch]: the score of one source's sample. *)
Definition sampleFreshness (dataType source : string) : M Num :=
  try_catch
    (respectRateLimit source ;;
     sampleData <- invoke (adapterFor source, getSample dataType 5) ;;
     now <- Date_now ;;
     modify (with_lastRequestTime (fun m => <[source := now]> m)) ;;
     lift (calculateFreshnessScore sampleData))
    (fun _ => ret (num_of_Z (-1))).

Definition byDescendingScore (a b : string * Num) : Num := nsub b.2 a.2.

Definition rankSources (freshness : list (string * Num)) : list string :=
  (Array_sort byDescendingScore
     (filter (fun entry => nge0 entry.2 = true) freshness)).*1.

(** The body of the loop over [Object.keys(config.dataTypes)]. *)
Definition updatePrioritiesFor (dataType : string) : M unit :=
  try_catch
    (w <- get ;;
     freshness <-
       for_acc (keys (wikiSources w))
         (fun source freshness =>
            score <- sampleFreshness dataType source ;;
            ret (assoc_set source score freshness))
         [] ;;
     let newPriorities := rankSources freshness in
     if bool_decide (0 < length newPriorities)%nat
     then modify (with_sourcePriorities (fun m => <[dataType := newPriorities]> m))
     else ret tt)
    (fun _ => ret tt).

Definition updateSourcePriorities : M unit :=
  w <- get ;;
  for_of (keys (dataTypes w)) updatePrioritiesFor.

(** *** updateFromWiki *)

Record TypeResult := mkTypeResult {
  count : nat;
  fromCache : bool;
  result_source : option string;
  error : option string
}.

Record UpdateResult := mkUpdateResult {
  success : bool;
  result_message : string;
  results : option (gmap string TypeResult)
}.

(** The [switch (dataType)]. *)
Definition fetchFresh (dataType : string) : M Parsed :=
  if String.eqb dataType "cards" then getLatestCardsFromBestSource
  else if String.eqb dataType "events" then getEventsFromBestSource
  else if String.eqb dataType "ezas" then getEZAsFromBestSource
  else if String.eqb dataType "dokkanEvents" then getDokkanEventsFromBestSource
  else if String.eqb dataType "storyEvents" then getStoryEventsFromBestSource
  else if String.eqb dataType "missions" then getMissionsFromBestSource
  else if String.eqb dataType "items" then getItemsFromBestSource
  else getGenericDataFromBestSource dataType.

(** [config.dataTypes[dataType]?.cacheTtl || 3600000] *)
Definition cacheTtlOf (w : World) (dataType : string) : Z :=
  match assoc_get dataType (dataTypes w) with
  | Some cacheTtl => if cacheTtl =? 0 then 3600000 else cacheTtl
  | None => 3600000
  end.

(** [cachedData && Date.now() - cachedData.timestamp < cacheTtl]: the
    entry, when the test passes. *)
Definition stillValid (cachedData : Cached) (now cacheTtl : Z)
  : option CacheEntry :=
  match cachedData with
  | CNull => None
  | CEntry e => if now - timestamp e <? cacheTtl then Some e else None
  end.

(** [await this.dataManager.cacheData(key, entry)] *)
Definition store (key : string) (entry : CacheEntry) : M unit :=
  fun w =>
    let '(r, fs) := cacheData (files w) key entry in
    (r, with_files (fun _ => fs) w).

(** [data.source || 'unknown'] *)
Definition sourceOrUnknown (data : Parsed) : string :=
  if String.eqb (source data) "" then "unknown" else source data.

(** The end of the loop body: cache and report the fresh data. *)
Definition storeFresh (dataType : string) (fresh : Parsed)
  (results : gmap string TypeResult) : M (gmap string TypeResult) :=
  if bool_decide (0 < length (items fresh))%nat then
    now <- Date_now ;;
    store dataType (mkEntry (items fresh) now (sourceOrUnknown fresh)) ;;
    ret (<[dataType :=
             mkTypeResult (length (items fresh)) false
                          (Some (sourceOrUnknown fresh)) None]> results)
  else
    ret (<[dataType := mkTypeResult 0 false None (Some "No data found")]> results).

(** The body of the loop over [typesToUpdate]. *)
Definition updateType (dataType : string) (results : gmap string TypeResult)
  : M (gmap string TypeResult) :=
  w <- get ;;
  cachedData <- lift (getCachedData (files w) dataType) ;;
  let cacheTtl := cacheTtlOf w dataType in
  now <- Date_now ;;
  match stillValid cachedData now cacheTtl with
  | Some e =>
      ret (<[dataType := mkTypeResult (length (data e)) true None None]> results)
  | None =>
      fresh <- fetchFresh dataType ;;
      storeFresh dataType fresh results
  end.

Definition updateFromWiki (types : option (list string)) : M UpdateResult :=
  try_catch
    (discoverAndCreateParsers ;;
     w <- get ;;
     let typesToUpdate := default (keys (dataTypes w)) types in
     results <- for_acc typesToUpdate updateType ∅ ;;
     ret (mkUpdateResult true "Wiki data updated successfully" (Some results)))
    (fun error => ret (mkUpdateResult false (message error) None)).

(** *** The module-level [config] and the constructor *)

Definition config_wikiSources : list (string * SourceConfig) :=
  [ ("fandom", mkSource "https://dbz-dokkanbattle.fandom.com" 1 1000);
    ("dokkanInfo", mkSource "https://dokkaninfo.com" 2 1500) ].

Definition config_dataTypes : list (string * Z) :=
  [ ("cards", 3600000); ("events", 1800000); ("ezas", 3600000);
    ("dokkanEvents", 3600000); ("storyEvents", 3600000);
    ("missions", 3600000); ("items", 7200000) ].

(** [parseInt(value) || 0] *)
Definition parseIntOr0 : Transform :=
  fun _ value =>
    let n := parseInt value in
    Ok (VNum (if truthy (VNum n) then n else num_of_Z 0)).

Definition asDate : Transform := fun _ value => Ok (VDate (new_Date value)).

Definition config_parsers : Parsers :=
  mkParsers
    (mkParser [] ∅)
    (list_to_map
       [ ("cards",
          mkParser ["name"; "id"; "type"; "rarity"]
            (list_to_map
               [ ("name", (fun _ value => Ok (VStr (trim (toStr value)))) : Transform);
                 ("id", (fun _ value => Ok (VStr (toStr value))) : Transform);
                 ("atk", parseIntOr0);
                 ("def", parseIntOr0);
                 ("hp", parseIntOr0) ]));
         ("events",
          mkParser ["title"; "startDate"; "endDate"]
            (list_to_map [ ("startDate", asDate); ("endDate", asDate) ]));
         ("ezas",
          mkParser ["name"; "card_id"]
            (list_to_map
               [ ("stages",
                  (fun _ value =>
                     Ok (match value with VArr _ => value | _ => VArr [] end))
                  : Transform) ])) ]).

(** [new WikiUpdater(dataManager, fandomAPI, dokkanScraper)], at a given
    time and over a given cache directory. *)
Definition new_WikiUpdater (now : Z) (fs : Store) : World :=
  mkWorld now [] fs
    (list_to_map [ ("fandom", 0); ("dokkanInfo", 0) ])
    (list_to_map
       [ ("cards", ["fandom"; "dokkanInfo"]);
         ("events", ["dokkanInfo"; "fandom"]);
         ("ezas", ["fandom"; "dokkanInfo"]);
         ("dokkanEvents", ["dokkanInfo"; "fandom"]);
         ("storyEvents", ["fandom"; "dokkanInfo"]);
         ("missions", ["dokkanInfo"; "fandom"]);
         ("items", ["fandom"; "dokkanInfo"]) ])
    config_wikiSources config_dataTypes config_parsers.

End WithEnvironment.

End WikiUpdater.

(** ** server.js: the handlers that read through the cache *)

Module Server.
Import DataManager WikiUpdater.

Section Handlers.
Context (up : Upstream) {js : Builtins}.

(** The body the cached handlers share: serve the entry stored under [key]
    while it is younger than [ttl], else fetch, store [{data, timestamp}]
    and return the fresh records.  The handlers store no [source]: the field
    of the entry is left empty (no code reads it back). *)
Definition cachedOr (key : string) (ttl : Z) (fetch : M Parsed) : M (list Value) :=
  w <- get ;;
  cachedData <- lift (getCachedData (files w) key) ;;
  now <- Date_now ;;
  match stillValid cachedData now ttl with
  | Some e => ret (data e)
  | None =>
      fresh <- fetch ;;
      now <- Date_now ;;
      store key (mkEntry (items fresh) now "") ;;
      ret (items fresh)
  end.

Definition getLatestCards : M (list Value) :=
  cachedOr "cards" 3600000 (getLatestCardsFromBestSource up).
Definition getEvents : M (list Value) :=
  cachedOr "events" 3600000 (getEventsFromBestSource up).
Definition getEZAs : M (list Value) :=
  cachedOr "ezas" 3600000 (getEZAsFromBestSource up).
Definition getDokkanEvents : M (list Value) :=
  cachedOr "dokkanEvents" 3600000 (getDokkanEventsFromBestSource up).
Definition getStoryEvents : M (list Value) :=
  cachedOr "storyEvents" 3600000 (getStoryEventsFromBestSource up).
Definition getMissions : M (list Value) :=
  cachedOr "missions" 3600000 (getMissionsFromBestSource up).
Definition getItems : M (list Value) :=
  cachedOr "items" 7200000 (getItemsFromBestSource up).

(** [clearCache: async () => { await dataManager.clearCache(); ... }] *)
Definition clearCache : M unit :=
  fun w =>
    let '(r, fs) := DataManager.clearCache (files w) in
    (r, with_files (fun _ => fs) w).

End Handlers.

End Server.

Import DataManager WikiUpdater.

(** * Concrete runtimes, adapters and worlds *)

Module Examples.

(** A small runtime: [String(v)] of strings, booleans, [null], [undefined]
    and integers; [parseInt] and [parseFloat] of decimal integers; no text
    is a date. *)
Definition demo_toStr (v : Value) : string :=
  match v with
  | VStr s => s
  | VUndefined => "undefined"
  | VNull => "null"
  | VBool b => if b then "true" else "false"
  | VNum (Fin q) =>
      NilZero.string_of_int (Z.to_int (Z.quot (Qnum q) (Zpos (Qden q))))
  | VNum NaN => "NaN"
  | VDate _ => "Invalid Date"
  | VArr _ => ""
  | VObj _ => "[object Object]"
  | VNative _ => "function () { [native code] }"
  end.

Fixpoint demo_digits (s : string) (acc : option Z) : option Z :=
  match s with
  | EmptyString => acc
  | String c rest =>
      let d := Z.of_N (Ascii.N_of_ascii c) - 48 in
      if (0 <=? d) && (d <=? 9)
      then demo_digits rest (Some (10 * default 0 acc + d))
      else None
  end.

Definition demo_parse (s : string) : Num :=
  match demo_digits s None with
  | Some z => num_of_Z z
  | None => NaN
  end.

(** The values that are not plain objects have no properties and take
    none; the files of the cache directory are the paths under [cache/]. *)
#[export] Instance demoBuiltins : Builtins := {|
  toStr := demo_toStr;
  trim := fun s => s;
  str_parseInt := demo_parse;
  str_parseFloat := demo_parse;
  Date_parse := fun _ => NaN;
  toISOString := fun t => "date:" +:+ demo_toStr (VNum t);
  hostGet := fun _ _ => VUndefined;
  hostSet := fun v _ _ => Ok v;
  hostKeys := fun _ => [];
  hostScore := fun _ => Throw (mkError "data.filter(...).map is not a function");
  hostJSON := fun _ => None;
  filepath := fun key => "cache/" +:+ key +:+ ".json";
  inCacheDir := fun path => String.prefix "cache/" path
|}.

(** A file system in which every access succeeds, with an empty cache
    directory. *)
Definition emptyDisk : Store :=
  mkStore true ∅ (fun _ => mkFile None true Stored).

(** A readable file that holds an entry. *)
Definition fileOf (e : CacheEntry) : File :=
  mkFile (Some (Json (CEntry e))) true Stored.

Definition failing : Transform := fun _ _ => Throw (mkError "cannot transform").

(** A parser that requires [name] and [id] and whose only transformation
    always throws. *)
Definition strictParser : Parser :=
  mkParser ["name"; "id"] {[ "name" := failing ]}.

Definition goku : Item := {[ "name" := VStr "Goku"; "power" := VNum (num_of_Z 9001) ]}.

(** Fandom answers every request with an error after 40 ms; DokkanInfo
    delivers one record after 60 ms. *)
Definition fandomDown : Upstream :=
  mkUpstream
    (fun c =>
       match c.1 with
       | fandomAPI => mkReply (Throw (mkError "Fandom API error: 503")) 40
       | dokkanScraper => mkReply (Ok (VArr [VObj goku])) 60
       end)
    (fun _ => Ok []).

(** Fandom throws and DokkanInfo has nothing, whatever is asked. *)
Definition nothingAnywhere : Upstream :=
  mkUpstream
    (fun c =>
       match c.1 with
       | fandomAPI => mkReply (Throw (mkError "Fandom API error: 503")) 40
       | dokkanScraper => mkReply (Ok (VArr [])) 60
       end)
    (fun _ => Ok []).

(** A freshly constructed updater, five seconds after the epoch, over an
    empty cache directory. *)
Definition freshWorld : World := new_WikiUpdater 5000 emptyDisk.

(** Four samples: [name] is in three of them, [nick] in one. *)
Definition roster : list Value :=
  [ VObj {[ "name" := VStr "Goku" ]};
    VObj {[ "name" := VStr "Vegeta" ]};
    VObj {[ "name" := VStr "Gohan"; "nick" := VStr "Great Saiyaman" ]};
    VObj {[ "power" := VNum (num_of_Z 5) ]} ].



(** Four samples: [constructor] is a field of the first only, [a] of the
    other three. *)
Definition protoSamples : list Value :=
  [ VObj {[ "constructor" := VNum (num_of_Z 5) ]};
    VObj {[ "a" := VNum (num_of_Z 1) ]};
    VObj {[ "a" := VNum (num_of_Z 2) ]};
    VObj {[ "a" := VNum (num_of_Z 3) ]} ].

(** Fandom is down and DokkanInfo delivers one event, with a start date and
    no end date. *)
Definition datedEvents : Upstream :=
  mkUpstream
    (fun c =>
       match c.1 with
       | fandomAPI => mkReply (Throw (mkError "Fandom API error: 503")) 40
       | dokkanScraper =>
           mkReply (Ok (VArr [ VObj {[ "title" := VStr "Goku's Birthday";
                                       "startDate" := VNum (num_of_Z 86400000) ]} ]))
                   60
       end)
    (fun _ => Ok []).

(** Every request to either adapter throws. *)
Definition unreachable : Upstream :=
  mkUpstream (fun _ => mkReply (Throw (mkError "HTTP error: 503")) 40)
             (fun _ => Throw (mkError "HTTP error: 503")).

(** Both adapters answer every request with an empty array, except that
    Fandom's sample of the cards is one record of version -1. *)
Definition staleFandom : Upstream :=
  mkUpstream
    (fun c =>
       match c with
       | (fandomAPI, getSample dataType _) =>
           if String.eqb dataType "cards"
           then mkReply (Ok (VArr [ VObj {[ "version" := VNum (num_of_Z (-1)) ]} ])) 40
           else mkReply (Ok (VArr [])) 40
       | _ => mkReply (Ok (VArr [])) 60
       end)
    (fun _ => Ok []).

(** No adapter can deliver the latest cards; for anything else Fandom
    throws and DokkanInfo delivers one record. *)
Definition cardsDown : Upstream :=
  mkUpstream
    (fun c =>
       match c with
       | (_, getLatestCards) => mkReply (Throw (mkError "HTTP error: 503")) 40
       | (fandomAPI, _) => mkReply (Throw (mkError "Fandom API error: 503")) 40
       | (dokkanScraper, _) => mkReply (Ok (VArr [VObj goku])) 60
       end)
    (fun _ => Ok []).

(** The updater at time 5000, when DokkanInfo last answered at 4800. *)
Definition busyWorld : World :=
  with_lastRequestTime (fun m => <["dokkanInfo" := 4800]> m) (new_WikiUpdater 5000 emptyDisk).

(** Both adapters list the new type [banners] and deliver one record for
    whatever is asked. *)
Definition bannersEverywhere : Upstream :=
  mkUpstream (fun _ => mkReply (Ok (VArr [VObj goku])) 40)
             (fun _ => Ok ["banners"]).

(** DokkanInfo wraps its samples in a single record instead of an array;
    everything else is one record in an array. *)
Definition wrappedSamples : Upstream :=
  mkUpstream
    (fun c =>
       match c with
       | (dokkanScraper, getSample _ _) => mkReply (Ok (VObj goku)) 60
       | _ => mkReply (Ok (VArr [VObj goku])) 40
       end)
    (fun _ => Ok []).

(** The updater at time 2501000 over a cache that holds the events stored
    at time 1000. *)
Definition agedEvents : World :=
  new_WikiUpdater 2501000
    (with_nodes
       (fun _ => {[ "cache/events.json"
                    := fileOf (mkEntry [VObj goku] 1000 "dokkanInfo") ]})
       emptyDisk).

Definition strictWorld : World :=
  with_parsers (parsers_set "heroes" strictParser) (new_WikiUpdater 5000 emptyDisk).

(** The updater at time 6001000 over a cache that holds the items stored
    at time 1000. *)
Definition agedItems : World :=
  new_WikiUpdater 6001000
    (with_nodes
       (fun _ => {[ "cache/items.json"
                    := fileOf (mkEntry [VObj goku] 1000 "dokkanInfo") ]})
       emptyDisk).

Definition birthday : list Value := [ VObj {[ "title" := VStr "Goku's Birthday" ]} ].

Definition pride : list Value := [ VObj {[ "title" := VStr "Vegeta's Pride" ]} ].

(** The updater at time 1000000 over a cache that holds these events,
    stored at time 1000. *)
Definition cachedEvents (payload : list Value) : World :=
  new_WikiUpdater 1000000
    (with_nodes
       (fun _ => {[ "cache/events.json"
                    := fileOf (mkEntry payload 1000 "dokkanInfo") ]})
       emptyDisk).

End Examples.

(** * The vocabulary of the properties *)

(** A cached handler of the server: the key it caches under, the age below
    which it serves the cached entry, the adapter method it fetches with,
    and the handler itself. *)
Record Endpoint := mkEndpoint {
  cacheKey : string;
  maxAge : Z;
  method : Request;
  handle : M (list Value)
}.

Section Vocabulary.
Context (up : Upstream) {js : Builtins}.

(** The world in which the reply of a call is received, after a wait [d]. *)
Definition received (c : Call) (d : Z) (w : World) : World :=
  with_calls (fun cs => cs ++ [c])
    (with_clock (fun t => t + Z.of_nat (elapsed (respond up c)))
       (with_clock (fun t => t + d) w)).

(** The world after the reply has been stamped in [lastRequestTime]. *)
Definition stamped (source : string) (c : Call) (d : Z) (w : World) : World :=
  with_lastRequestTime (fun m => <[source := clock (received c d w)]> m)
    (received c d w).

(** A result that holds nothing: a falsy value or an empty array. *)
Definition nothing (rawData : Value) : Prop :=
  truthy rawData = false \/ rawData = VArr [].

(** A source is passed over when its fetch throws or delivers nothing. *)
Definition passedOver (fetchFn : string -> Call) (source : string) : Prop :=
  forall rawData,
    outcome (respond up (fetchFn source)) = Ok rawData -> nothing rawData.

(** What [parseData] makes of a batch, at a given time and with a given
    table of parsers. *)
Definition parsed (ps : Parsers) (now : Z) (dataType : string) (rawData : Value)
  : Result (list Value) :=
  mapM (parseItem now (parserConfigFor ps dataType)) (dataArray rawData).

(** A source the prioritized fetch goes past: its fetch throws, or delivers
    nothing, or delivers what [parseData] throws on. *)
Definition unusable (ps : Parsers) (dataType : string) (fetchFn : string -> Call)
  (source : string) : Prop :=
  forall rawData,
    outcome (respond up (fetchFn source)) = Ok rawData ->
    nothing rawData \/ forall now, exists e, parsed ps now dataType rawData = Throw e.

(** What the loop over the required fields leaves of the own properties of
    a plain object. *)
Definition filled (now : Z) (required : list string) (item : Item) : Item :=
  forEach
    (fun field item =>
       if isUndefined (prop item field)
       then <[field := getDefaultValueForField now field]> item
       else item)
    required item.

(** What one transformation leaves of them. *)
Definition transformed (now : Z) (field : string) (transform : Transform)
  (item : Item) : Item :=
  if negb (isUndefined (prop item field)) then
    match transform now (prop item field) with
    | Ok v => <[field := v]> item
    | Throw _ => item
    end
  else item.

(** Whether a sample is a plain object with an own property of this name. *)
Definition owns (field : string) (sample : Value) : bool :=
  match sample with
  | VObj item => bool_decide (is_Some (item !! field))
  | _ => false
  end.

(** The errors thrown by the fetches of a list of sources, in order. *)
Definition thrown (fetchFn : string -> Call) (sources : list string) : list Error :=
  omap (fun source =>
          match outcome (respond up (fetchFn source)) with
          | Throw e => Some e
          | Ok _ => None
          end)
       sources.

(** The last error seen so far, after some more have been thrown. *)
Definition latest (lastError : option Error) (errors : list Error) : option Error :=
  match last errors with
  | Some e => Some e
  | None => lastError
  end.

(** The score a source gets for a data type: -1 when its sample fetch
    throws (or when scoring the sample throws). *)
Definition sampled (dataType source : string) : Num :=
  match outcome (respond up (adapterFor source, getSample dataType 5)) with
  | Throw _ => num_of_Z (-1)
  | Ok sampleData =>
      match calculateFreshnessScore sampleData with
      | Ok score => score
      | Throw _ => num_of_Z (-1)
      end
  end.

(** The new priority list computed for a data type from the configured
    sources. *)
Definition ranked (sources : list string) (dataType : string) : list string :=
  rankSources (forEach (fun s acc => assoc_set s (sampled dataType s) acc) sources []).

(** The time at which the request to a source is sent: now, or the end of
    the source's rate-limit delay. *)
Definition sentAt (w : World) (source : string) : Z :=
  match assoc_get source (wikiSources w) with
  | Some sourceConfig =>
      Z.max (clock w)
            (default 0 (lastRequestTime w !! source) + rateLimitMs sourceConfig)
  | None => clock w
  end.

(** What a prioritized fetch leaves alone. *)
Definition untouched (w w' : World) : Prop :=
  sourcePriorities w' = sourcePriorities w
  /\ parsers w' = parsers w
  /\ files w' = files w
  /\ dataTypes w' = dataTypes w
  /\ wikiSources w' = wikiSources w.

(** Sampling touches the clock, the call log and [lastRequestTime] only. *)
Definition sameSetup (w w' : World) : Prop :=
  sourcePriorities w' = sourcePriorities w
  /\ wikiSources w' = wikiSources w
  /\ dataTypes w' = dataTypes w.

(** The handlers of the server that go through the cache. *)
Definition cachedHandlers : list Endpoint :=
  [ mkEndpoint "cards" 3600000 getLatestCards (Server.getLatestCards up);
    mkEndpoint "events" 3600000 getEvents (Server.getEvents up);
    mkEndpoint "ezas" 3600000 getEZAs (Server.getEZAs up);
    mkEndpoint "dokkanEvents" 3600000 getDokkanEvents (Server.getDokkanEvents up);
    mkEndpoint "storyEvents" 3600000 getStoryEvents (Server.getStoryEvents up);
    mkEndpoint "missions" 3600000 getMissions (Server.getMissions up);
    mkEndpoint "items" 7200000 getItems (Server.getItems up) ].

End Vocabulary.

Section Scores.
Context (f : string -> Num).

(** The comparator of [updateSourcePriorities], on the sources themselves. *)
Definition descending (a b : string) : Num := nsub (f b) (f a).

(** A score that passes the filter [score >= 0]. *)
Definition usable (s : string) : Prop := nge0 (f s) = true.

#[global] Instance usable_dec (s : string) : Decision (usable s).
Proof. unfold usable. apply _. Defined.

End Scores.

(** * Properties *)

(** ** The cache store *)

(** C10: [getCachedData] never throws, whatever the key and the state of the
    cache directory.  It resolves to the parsed entry when the file is there,
    readable and valid JSON, and to [null] in every other case (no such file,
    a read that fails, text that [JSON.parse] rejects); [updateFromWiki]
    takes a [null] for a cache miss. *)
Theorem getCachedData_never_throws `{js : Builtins} (fs : Store) (key : string) :
  getCachedData fs key
  = Ok (match nodes fs !! filepath key with
        | Some f =>
            match content f with
            | Some (Json v) => v
            | Some Garbage | None => CNull
            end
        | None => CNull
        end)
  /\ (forall now cacheTtl : Z, stillValid CNull now cacheTtl = None).
Proof.
  split; [| reflexivity].
  unfold getCachedData, readFile.
  destruct (nodes fs !! filepath key) as [[[[| v] |] u o] |]; reflexivity.
Qed.

(** ** The parser engine *)

Section Parsing.
Context {js : Builtins}.

Lemma getDefaultValueForField_defined (now : Z) (field : string) :
  isUndefined (getDefaultValueForField now field) = false.
Proof.
  unfold getDefaultValueForField.
  destruct (isUndefined (prop _ field)) eqn:E; simpl; [reflexivity | exact E].
Qed.

Lemma prop_insert_eq (item : Item) (field : string) (v : Value) :
  prop (<[field := v]> item) field = v.
Proof. unfold prop. by rewrite lookup_insert_eq. Qed.

Lemma prop_insert_ne (item : Item) (field f : string) (v : Value) :
  field <> f -> prop (<[field := v]> item) f = prop item f.
Proof. intros Hne. unfold prop. by rewrite lookup_insert_ne. Qed.

(** A property that reads as [undefined] is not one the object inherits:
    the object owns it, or nothing has it. *)
Lemma undefined_not_inherited (item : Item) (field : string) :
  isUndefined (prop item field) = true ->
  item !! field = None -> inherited field = false.
Proof.
  unfold prop, Object_prototype. intros Hu Hnone. rewrite Hnone in Hu.
  by destruct (inherited field).
Qed.

(** An assignment to a plain object adds an own property, unless it is
    taken by the setter of [__proto__]. *)
Lemma setProp_obj (item : Item) (field : string) (x : Value) :
  field <> "__proto__" \/ is_Some (item !! field) ->
  setProp (VObj item) field x = Ok (VObj (<[field := x]> item)).
Proof.
  intros H. unfold setProp.
  destruct (String.eqb field "__proto__") eqn:E; [| done].
  apply String.eqb_eq in E. destruct H as [H | [v Hv]]; [done |].
  by rewrite bool_decide_eq_false_2 by (rewrite Hv; done).
Qed.

Lemma fillField_obj (now : Z) (field : string) (item : Item) :
  fillField now field (VObj item)
  = Ok (VObj (if isUndefined (prop item field)
              then <[field := getDefaultValueForField now field]> item
              else item)).
Proof.
  unfold fillField. cbn [getProp and_then].
  destruct (isUndefined (prop item field)) eqn:Hu; [| done].
  apply setProp_obj.
  destruct (item !! field) as [v |] eqn:Hown; [eauto |].
  left. intros ->.
  by pose proof (undefined_not_inherited item "__proto__" Hu Hown).
Qed.

(** On a plain object the loop over the required fields does not throw. *)
Lemma fillRequired_obj (now : Z) (required : list string) (item : Item) :
  fillRequired now required (VObj item) = Ok (VObj (filled now required item)).
Proof.
  unfold fillRequired, filled.
  revert item. induction required as [| field rest IH]; intros item; [done |].
  cbn [forEach and_then]. rewrite fillField_obj. apply IH.
Qed.

(** What the loop over the required fields leaves under each key. *)
Lemma filled_lookup (now : Z) (required : list string) (item : Item)
  (f : string) :
  filled now required item !! f
  = if bool_decide (f ∈ required) && isUndefined (prop item f)
    then Some (getDefaultValueForField now f)
    else item !! f.
Proof.
  unfold filled.
  revert item. induction required as [| field rest IH]; intros item; simpl.
  - reflexivity.
  - rewrite IH. clear IH.
    destruct (decide (field = f)) as [-> | Hne].
    + rewrite (bool_decide_eq_true_2 (f ∈ f :: rest)) by apply list_elem_of_here.
      destruct (isUndefined (prop item f)) eqn:Eu; simpl.
      * rewrite prop_insert_eq, getDefaultValueForField_defined.
        rewrite andb_false_r. by rewrite lookup_insert_eq.
      * rewrite Eu. by rewrite andb_false_r.
    + assert (bool_decide (f ∈ field :: rest) = bool_decide (f ∈ rest)) as ->.
      { apply bool_decide_ext. rewrite elem_of_cons.
        split; [intros [-> | Hin]; [congruence | exact Hin] | auto]. }
      destruct (isUndefined (prop item field)); [| reflexivity].
      rewrite prop_insert_ne by done. by rewrite lookup_insert_ne.
Qed.

Lemma applyTransform_obj (now : Z) (field : string) (t : Transform) (item : Item) :
  field <> "__proto__" ->
  applyTransform now field t (VObj item) = Ok (VObj (transformed now field t item)).
Proof.
  intros Hfield. unfold applyTransform, transformed. cbn [getProp and_then].
  destruct (negb (isUndefined (prop item field))); [| done].
  destruct (t now (prop item field)) as [v | e]; [| done].
  cbn [and_then]. by rewrite setProp_obj by auto.
Qed.

(** On a plain object the loop over the transformations does not throw;
    under each key it leaves what the transformation registered for the
    key, if any, makes of the value the object had under it. *)
Lemma applyTransformations_obj (now : Z) (ts : gmap string Transform)
  (item : Item) :
  ts !! "__proto__" = None ->
  exists item' : Item,
    applyTransformations now ts (VObj item) = Ok (VObj item')
    /\ forall f,
         item' !! f = match ts !! f with
                      | Some t => transformed now f t item !! f
                      | None => item !! f
                      end.
Proof.
  unfold applyTransformations.
  apply (map_fold_weak_ind
           (fun (acc : Result Value) (m : gmap string Transform) =>
              m !! "__proto__" = None ->
              exists item' : Item,
                acc = Ok (VObj item')
                /\ forall f,
                     item' !! f = match m !! f with
                                  | Some t => transformed now f t item !! f
                                  | None => item !! f
                                  end)).
  - intros _. exists item. split; [done |]. intros f. by rewrite lookup_empty.
  - intros i t m acc Hfresh IH Hproto.
    assert (Hi : i <> "__proto__").
    { intros ->. by rewrite lookup_insert_eq in Hproto. }
    rewrite lookup_insert_ne in Hproto by done.
    destruct (IH Hproto) as (item1 & -> & Hitem1).
    cbn [and_then]. rewrite applyTransform_obj by done.
    eexists. split; [reflexivity |]. intros f.
    destruct (decide (i = f)) as [-> | Hne].
    + rewrite lookup_insert_eq. pose proof (Hitem1 f) as H1. rewrite Hfresh in H1.
      unfold transformed, prop. rewrite H1.
      destruct (negb _); [| done].
      destruct (t now _); [by rewrite !lookup_insert_eq | done].
    + rewrite lookup_insert_ne by done. rewrite <- Hitem1.
      unfold transformed.
      destruct (negb _); [| done].
      destruct (t now _); [by rewrite lookup_insert_ne | done].
Qed.

(** A plain object goes through [parseData] without an exception. *)
Lemma parseItem_obj (now : Z) (p : Parser) (item : Item) :
  transformations p !! "__proto__" = None ->
  exists item' : Item,
    parseItem now p (VObj item) = Ok (VObj item')
    /\ forall f,
         item' !! f
         = let before := filled now (requiredFields p) item in
           match transformations p !! f with
           | Some t => transformed now f t before !! f
           | None => before !! f
           end.
Proof.
  intros Hproto. unfold parseItem. rewrite fillRequired_obj. cbn [and_then].
  by apply applyTransformations_obj.
Qed.

Lemma transformed_is_Some (now : Z) (f : string) (t : Transform) (item : Item) :
  is_Some (item !! f) -> is_Some (transformed now f t item !! f).
Proof.
  intros H. unfold transformed.
  destruct (negb _); [| done].
  destruct (t now _); [| done].
  rewrite lookup_insert_eq. eauto.
Qed.

(** [null] and [undefined] go through only when the parser reads no field
    of them. *)
Lemma parseItem_nullish (now : Z) (p : Parser) (item : Value) (field : string) :
  item = VNull \/ item = VUndefined ->
  field ∈ requiredFields p ->
  exists e, parseItem now p item = Throw e.
Proof.
  intros Hitem Hfield. unfold parseItem, fillRequired.
  assert (Hthrown : forall l e, forEach (fun field acc => and_then acc (fillField now field))
                                  l (Throw e) = Throw e).
  { induction l as [| x l IH]; intros e; [done | apply IH]. }
  destruct (requiredFields p) as [| first rest]; [by apply elem_of_nil in Hfield |].
  cbn [forEach and_then].
  destruct Hitem as [-> | ->]; cbn [fillField getProp and_then];
    rewrite Hthrown; eauto.
Qed.

Lemma mapM_length {A B : Type} (f : A -> Result B) (l : list A) (out : list B) :
  mapM f l = Ok out -> length out = length l.
Proof.
  revert out. induction l as [| x l IH]; intros out; simpl.
  - by intros [= <-].
  - destruct (f x) as [y | e]; [| done]. simpl.
    destruct (mapM f l) as [ys | e]; [| done]. simpl.
    intros [= <-]. simpl. f_equal. by apply IH.
Qed.

Lemma mapM_lookup {A B : Type} (f : A -> Result B) (l : list A) (out : list B)
  (i : nat) (x : A) :
  mapM f l = Ok out -> l !! i = Some x ->
  exists y, f x = Ok y /\ out !! i = Some y.
Proof.
  revert out i. induction l as [| x0 l IH]; intros out i; simpl; [done |].
  destruct (f x0) as [y0 | e] eqn:E0; [| done]. simpl.
  destruct (mapM f l) as [ys | e]; [| done]. simpl.
  intros [= <-]. destruct i as [| i]; simpl.
  - intros [= <-]. eauto.
  - intros Hi. by apply (IH ys i).
Qed.

Lemma mapM_Ok {A B : Type} (f : A -> Result B) (l : list A) :
  Forall (fun x => exists y, f x = Ok y) l -> exists out, mapM f l = Ok out.
Proof.
  induction 1 as [| x l [y Hy] _ [ys Hys]]; simpl; [eauto |].
  rewrite Hy, Hys. simpl. eauto.
Qed.

Lemma mapM_Throw {A B : Type} (f : A -> Result B) (l : list A) (x : A) :
  x ∈ l -> (exists e, f x = Throw e) -> exists e, mapM f l = Throw e.
Proof.
  intros Hin [e He]. induction l as [| x0 l IH]; [by apply elem_of_nil in Hin |].
  simpl. apply elem_of_cons in Hin as [<- | Hin].
  - rewrite He. simpl. eauto.
  - destruct (f x0) as [y0 | e0]; simpl; [| eauto].
    destruct (IH Hin) as [e1 ->]. simpl. eauto.
Qed.

End Parsing.

(** C5 fails on the code, on a batch that holds a record which is [null].
    The first record alone is parsed: it gets the defaults of the required
    fields it lacks.  With [null] behind it, reading the first required
    field of [null] throws outside every [try] of [parseData], and the
    exception takes the whole batch with it, the good record included. *)
Theorem null_record_fails_the_batch :
  let w := Examples.freshWorld in
  (exists item' : Item,
     (parseData (js := Examples.demoBuiltins) "cards"
        (VArr [VObj Examples.goku]) "fandom" w).1
     = Ok [VObj item']
     /\ item' !! "name" = Some (VStr "Goku")
     /\ item' !! "rarity" = Some (VStr "N"))
  /\ (parseData (js := Examples.demoBuiltins) "cards"
        (VArr [VObj Examples.goku; VNull]) "fandom" w).1
     = Throw (mkError "Cannot read properties of null (reading 'name')").
Proof.
  split; [| vm_compute; reflexivity].
  eexists. split; [vm_compute; reflexivity |].
  split; vm_compute; reflexivity.
Qed.

(** ** The prioritized fetch *)

Section Fetching.
Context (up : Upstream) {js : Builtins}.

Lemma with_clock_0 (w : World) : with_clock (fun t => t + 0) w = w.
Proof. destruct w. unfold with_clock. simpl. by rewrite Z.add_0_r. Qed.

(** Waiting for the rate limit only moves the clock. *)
Lemma respectRateLimit_run (source : string) (w : World) :
  exists d : Z, respectRateLimit source w = (Ok tt, with_clock (fun t => t + d) w).
Proof.
  unfold respectRateLimit, bind, get.
  destruct (assoc_get source (wikiSources w)) as [sourceConfig |].
  - destruct (0 <? _).
    + eexists. reflexivity.
    + exists 0. by rewrite with_clock_0.
  - exists 0. by rewrite with_clock_0.
Qed.

(** The test of the fetch loop is the test for nothing. *)
Lemma noData_nothing (rawData : Value) : noData rawData = true <-> nothing rawData.
Proof.
  unfold noData, nothing. rewrite orb_true_iff, negb_true_iff. split.
  - intros [H | H]; [by left | right].
    destruct rawData as [| | | | | | [| x l] | |]; done.
  - intros [H | ->]; [by left | by right].
Qed.

(** One pass through the [try] block, by the outcome of the fetch. *)
Lemma fetchFrom_run (dataType : string) (fetchFn : string -> Call)
  (source : string) (w : World) :
  exists d : Z,
    fetchFrom up dataType fetchFn source w
    = match outcome (respond up (fetchFn source)) with
      | Throw e => (Throw e, received up (fetchFn source) d w)
      | Ok rawData =>
          let w' := stamped up source (fetchFn source) d w in
          if noData rawData then (Ok None, w')
          else
            match parsed (parsers w) (clock w') dataType rawData with
            | Ok parsedData => (Ok (Some (mkParsed parsedData source (clock w'))), w')
            | Throw e => (Throw e, w')
            end
      end.
Proof.
  destruct (respectRateLimit_run source w) as [d Hwait].
  exists d. unfold fetchFrom, bind at 1. rewrite Hwait.
  unfold bind, invoke, Date_now, modify, parseData, get, ret, lift.
  fold (received up (fetchFn source) d w).
  destruct (outcome (respond up (fetchFn source))) as [rawData | e]; [| reflexivity].
  fold (stamped up source (fetchFn source) d w). cbv zeta.
  destruct (noData rawData); [reflexivity |].
  unfold parsed, bind.
  change (parsers (stamped up source (fetchFn source) d w)) with (parsers w).
  by destruct (mapM _ _).
Qed.

(** The loop walks over a prefix of sources it cannot use, calling each
    once and in order, and leaving the configuration and the priorities
    alone; when they all threw in the fetch or delivered nothing, the error
    it remembers is the last one a fetch threw. *)
Lemma trySources_skip (dataType : string) (fetchFn : string -> Call)
  (skipped rest : list string) :
  forall (lastError : option Error) (w : World),
  Forall (unusable up (parsers w) dataType fetchFn) skipped ->
  exists (w' : World) (lastError' : option Error),
    trySources up dataType fetchFn (skipped ++ rest) lastError w
    = trySources up dataType fetchFn rest lastError' w'
    /\ calls w' = calls w ++ (fetchFn <$> skipped)
    /\ parsers w' = parsers w
    /\ sourcePriorities w' = sourcePriorities w
    /\ files w' = files w
    /\ (Forall (passedOver up fetchFn) skipped ->
        lastError' = latest lastError (thrown up fetchFn skipped)).
Proof.
  induction skipped as [| source skipped IH]; intros lastError w Hall.
  - exists w, lastError. simpl. rewrite app_nil_r. auto 10.
  - apply Forall_cons in Hall as [Hsource Hall].
    destruct (fetchFrom_run dataType fetchFn source w) as [d Hrun].
    cbn [app trySources]. unfold bind at 1, attempt. rewrite Hrun.
    unfold thrown. cbn [omap list_omap]. fold (thrown up fetchFn skipped).
    unfold unusable in Hsource.
    destruct (outcome (respond up (fetchFn source))) as [rawData | e] eqn:Hout.
    + cbv zeta. specialize (Hsource rawData eq_refl).
      destruct (noData rawData) eqn:Hno.
      * destruct (IH lastError (stamped up source (fetchFn source) d w) Hall)
          as (w' & lastError' & Heq & Hcalls & Hp & Hsp & Hf & Hlast).
        exists w', lastError'. rewrite Heq. repeat split; try assumption.
        -- rewrite Hcalls. simpl. by rewrite <- app_assoc.
        -- intros Hpassed. apply Forall_cons in Hpassed as [_ Hpassed]. auto.
      * destruct Hsource as [Hnothing | Hparse].
        { apply noData_nothing in Hnothing. congruence. }
        destruct (Hparse (clock (stamped up source (fetchFn source) d w)))
          as [e ->].
        destruct (IH (Some e) (stamped up source (fetchFn source) d w) Hall)
          as (w' & lastError' & Heq & Hcalls & Hp & Hsp & Hf & Hlast).
        exists w', lastError'. rewrite Heq. repeat split; try assumption.
        -- rewrite Hcalls. simpl. by rewrite <- app_assoc.
        -- intros Hpassed. apply Forall_cons in Hpassed as [Hpassed _].
           specialize (Hpassed rawData Hout). apply noData_nothing in Hpassed.
           congruence.
    + destruct (IH (Some e) (received up (fetchFn source) d w) Hall)
        as (w' & lastError' & Heq & Hcalls & Hp & Hsp & Hf & Hlast).
      exists w', lastError'. rewrite Heq. repeat split; try assumption.
      * rewrite Hcalls. simpl. by rewrite <- app_assoc.
      * intros Hpassed. apply Forall_cons in Hpassed as [_ Hpassed].
        rewrite (Hlast Hpassed). unfold latest. rewrite last_cons.
        destruct (last (thrown up fetchFn skipped)); reflexivity.
Qed.

(** A source that is passed over cannot be used. *)
Lemma passedOver_unusable (ps : Parsers) (dataType : string)
  (fetchFn : string -> Call) (source : string) :
  passedOver up fetchFn source -> unusable up ps dataType fetchFn source.
Proof. intros H rawData Hout. left. by apply H. Qed.

End Fetching.




(** C2 fails on the code.  The cards are fetched at time 5000 with Fandom
    down: the attempt on Fandom ends at 5040 with an error, the attempt on
    DokkanInfo returns at 5100.  Afterwards [lastRequestTime.dokkanInfo] is
    5100, but [lastRequestTime.fandom] still holds the 0 it was constructed
    with, not the time after the attempt: the next request to Fandom is not
    held back by the rate limit the stamp is kept for. *)
Theorem lastRequestTime_not_set_on_throw :
  let w := Examples.freshWorld in
  let attempted := (fetchFrom (js := Examples.demoBuiltins) Examples.fandomDown
                      "cards" (via getLatestCards) "fandom" w).2 in
  let w' := (getDataFromPrioritizedSources (js := Examples.demoBuiltins)
               Examples.fandomDown "cards" (via getLatestCards) w).2 in
  calls attempted = [(fandomAPI, getLatestCards)]
  /\ clock attempted = 5040
  /\ calls w' = [(fandomAPI, getLatestCards); (dokkanScraper, getLatestCards)]
  /\ lastRequestTime w' !! "dokkanInfo" = Some 5100
  /\ lastRequestTime w' !! "fandom" = Some 0
  /\ lastRequestTime w' !! "fandom" <> Some 5040
  /\ clock (respectRateLimit "fandom" w').2 = clock w'.
Proof.
  vm_compute. repeat split. discriminate.
Qed.

(** C4: when every source of a non-empty priority list throws or delivers
    no data, [getDataFromPrioritizedSources] throws, after one call per
    source; the message of the error ends with the message of the last
    error that a fetch threw, when there is one. *)
Theorem all_sources_exhausted (up : Upstream) `{js : Builtins} (w : World)
  (dataType : string) (fetchFn : string -> Call) (priorities : list string) :
  sourcePriorities w !! dataType = Some priorities ->
  priorities <> [] ->
  Forall (passedOver up fetchFn) priorities ->
  exists w' : World,
    getDataFromPrioritizedSources up dataType fetchFn w
    = (Throw
         (mkError
            match last (thrown up fetchFn priorities) with
            | Some e =>
                "Failed to fetch " +:+ dataType +:+ " from all sources: "
                +:+ message e
            | None => "Failed to fetch " +:+ dataType +:+ " from all sources"
            end),
       w')
    /\ calls w' = calls w ++ (fetchFn <$> priorities).
Proof.
  intros Hprio Hne Hall.
  unfold getDataFromPrioritizedSources, bind, get. rewrite Hprio. clear Hprio.
  destruct priorities as [| s0 l0] eqn:Hlist; [done |].
  rewrite <- Hlist in *. clear Hlist s0 l0 Hne.
  destruct (trySources_skip up dataType fetchFn priorities [] None w)
    as (w' & lastError & Hskip & Hcalls & _ & _ & _ & Hlast).
  { eapply Forall_impl; [exact Hall |]. intros s. apply passedOver_unusable. }
  rewrite app_nil_r in Hskip. rewrite Hskip, (Hlast Hall).
  exists w'. split; [| exact Hcalls].
  cbn [trySources]. unfold throw, exhausted, latest.
  destruct (last (thrown up fetchFn priorities)); reflexivity.
Qed.

(** Fandom throws and DokkanInfo returns an empty array: the fetch of the
    cards fails and reports Fandom's error. *)
Lemma all_sources_exhausted_witness :
  exists w' : World,
    getDataFromPrioritizedSources (js := Examples.demoBuiltins)
      Examples.nothingAnywhere "cards" (via getLatestCards) Examples.freshWorld
    = (Throw (mkError "Failed to fetch cards from all sources: Fandom API error: 503"),
       w')
    /\ calls w' = [(fandomAPI, getLatestCards); (dokkanScraper, getLatestCards)].
Proof.
  destruct (all_sources_exhausted (js := Examples.demoBuiltins)
              Examples.nothingAnywhere Examples.freshWorld
              "cards" (via getLatestCards) ["fandom"; "dokkanInfo"])
    as (w' & Hrun & Hcalls).
  - vm_compute. reflexivity.
  - discriminate.
  - apply Forall_cons_2; [| apply Forall_cons_2; [| apply Forall_nil_2]];
      intros rawData H; vm_compute in H; [discriminate H |].
    injection H as <-. by right.
  - exists w'. split; [| exact Hcalls]. exact Hrun.
Defined.

(** ** Learning a parser *)

(** C8 fails on the code, on a field whose name plain objects
    inherit.  Of the four samples only the first has a field
    [constructor]; but [item['constructor']] is not [undefined] on any
    object, so the second pass counts the field in all four samples and it
    becomes required, with a presence of one in four.  The field [a], in
    three samples of four, is required as the claim says. *)
Theorem inherited_name_becomes_required :
  let samples := Examples.protoSamples in
  length samples = 4%nat
  /\ length (filter (fun sample => owns "constructor" sample = true) samples) = 1%nat
  /\ length (filter (fun sample => owns "a" sample = true) samples) = 3%nat
  /\ match (learnParserForNewDataType (js := Examples.demoBuiltins)
              "heroes" samples Examples.freshWorld).1 with
     | Ok newParser =>
         "constructor" ∈ requiredFields newParser /\ "a" ∈ requiredFields newParser
     | Throw _ => False
     end.
Proof.
  assert (Hrequired :
    match (learnParserForNewDataType (js := Examples.demoBuiltins)
             "heroes" Examples.protoSamples Examples.freshWorld).1 with
    | Ok newParser => requiredFields newParser
    | Throw _ => []
    end = ["constructor"; "a"]) by (vm_compute; reflexivity).
  split; [reflexivity |]. split; [vm_compute; reflexivity |].
  split; [vm_compute; reflexivity |].
  destruct (learnParserForNewDataType _ _ _).1 as [newParser | e];
    [| discriminate Hrequired].
  rewrite Hrequired. split; [apply list_elem_of_here |].
  apply list_elem_of_further, list_elem_of_here.
Qed.

(** ** Sorting by descending score *)

Section Sorting.
Context (f : string -> Num).

Lemma sort_insert_perm (a : string) (l : list string) :
  sort_insert (descending f) a l ≡ₚ a :: l.
Proof.
  induction l as [| b rest IH]; simpl; [done |].
  destruct (ngt0 ((descending f) a b)); [| done].
  rewrite IH. apply Permutation_swap.
Qed.

Lemma Array_sort_perm (l : list string) : Array_sort (descending f) l ≡ₚ l.
Proof.
  induction l as [| a rest IH]; simpl; [done |].
  rewrite sort_insert_perm. by rewrite IH.
Qed.

(** Sorting the table of scores is sorting the sources. *)
Lemma sort_insert_entries (a : string) (l : list string) :
  sort_insert byDescendingScore (a, f a) ((fun s => (s, f s)) <$> l)
  = (fun s => (s, f s)) <$> sort_insert (descending f) a l.
Proof.
  induction l as [| b rest IH]; [done |].
  rewrite fmap_cons. cbn [sort_insert].
  change (byDescendingScore (a, f a) (b, f b)) with ((descending f) a b).
  destruct (ngt0 ((descending f) a b)); [| by rewrite !fmap_cons].
  by rewrite fmap_cons, IH.
Qed.

Lemma Array_sort_entries (l : list string) :
  Array_sort byDescendingScore ((fun s => (s, f s)) <$> l)
  = (fun s => (s, f s)) <$> Array_sort (descending f) l.
Proof.
  induction l as [| a rest IH]; [done |].
  rewrite fmap_cons. unfold Array_sort in *. cbn [foldr].
  rewrite IH. apply sort_insert_entries.
Qed.

Lemma filter_entries (l : list string) :
  filter (fun entry : string * Num => nge0 entry.2 = true) ((fun s => (s, f s)) <$> l)
  = (fun s => (s, f s)) <$> filter (usable f) l.
Proof.
  induction l as [| a rest IH]; [done |].
  rewrite fmap_cons, !filter_cons, IH. unfold usable. cbn [snd].
  destruct (decide (nge0 (f a) = true)); by rewrite ?fmap_cons.
Qed.

Lemma assoc_set_fresh (k : string) (v : Num) (o : list (string * Num)) :
  k ∉ keys o -> assoc_set k v o = o ++ [(k, v)].
Proof.
  induction o as [| [k' v'] rest IH]; simpl; [done |].
  intros Hfresh. apply not_elem_of_cons in Hfresh as [Hne Hfresh].
  rewrite (proj2 (String.eqb_neq k' k)) by congruence.
  by rewrite IH.
Qed.

(** Filling the [freshness] object source by source lists the sources in
    the order they were sampled, when no source occurs twice. *)
Lemma freshness_table (l : list string) (acc : list (string * Num)) :
  NoDup (keys acc ++ l) ->
  forEach (fun s acc => assoc_set s (f s) acc) l acc
  = acc ++ ((fun s => (s, f s)) <$> l).
Proof.
  revert acc. induction l as [| a rest IH]; intros acc Hnd; simpl.
  - by rewrite app_nil_r.
  - apply NoDup_app in Hnd as (Hacc & Hdisj & Hl).
    apply NoDup_cons in Hl as [Ha Hrest].
    rewrite assoc_set_fresh.
    + rewrite IH; [by rewrite <- app_assoc |].
      unfold keys. rewrite fmap_app. simpl.
      apply NoDup_app. split; [| split; [| done]].
      * apply NoDup_app. split; [done |]. split; [| apply NoDup_singleton].
        intros x Hx Hx'. apply list_elem_of_singleton in Hx' as ->.
        apply (Hdisj a Hx). apply list_elem_of_here.
      * intros x Hx Hx'. apply elem_of_app in Hx as [Hx | Hx].
        -- apply (Hdisj x Hx). by apply list_elem_of_further.
        -- apply list_elem_of_singleton in Hx as ->. done.
    + intros Hin. apply (Hdisj a Hin). apply list_elem_of_here.
Qed.

Lemma rankSources_table (l : list string) :
  NoDup l ->
  rankSources (forEach (fun s acc => assoc_set s (f s) acc) l [])
  = Array_sort (descending f) (filter (usable f) l).
Proof.
  intros Hnd. rewrite freshness_table by done. simpl.
  unfold rankSources. rewrite filter_entries, Array_sort_entries.
  rewrite <- list_fmap_compose. apply list_fmap_id.
Qed.

End Sorting.

(** ** Re-ranking the sources *)

Section Ranking.
Context (up : Upstream) {js : Builtins}.

Lemma sampleFreshness_run (dataType source : string) (w : World) :
  exists w' : World,
    sampleFreshness up dataType source w = (Ok (sampled up dataType source), w')
    /\ sameSetup w w'.
Proof.
  destruct (respectRateLimit_run source w) as [d Hwait].
  unfold sampleFreshness, try_catch, bind at 1. rewrite Hwait.
  unfold bind, invoke, Date_now, modify, lift, ret, sampled.
  destruct (outcome (respond up (adapterFor source, getSample dataType 5)))
    as [sampleData | e].
  - destruct (calculateFreshnessScore sampleData) as [score | e];
      eexists; (split; [reflexivity | by repeat split]).
  - eexists. split; [reflexivity | by repeat split].
Qed.

Lemma freshness_loop (dataType : string) (sources : list string) :
  forall (acc : list (string * Num)) (w : World),
  exists w' : World,
    for_acc sources
      (fun source freshness =>
         score <- sampleFreshness up dataType source ;;
         ret (assoc_set source score freshness))
      acc w
    = (Ok (forEach (fun s acc => assoc_set s (sampled up dataType s) acc) sources acc),
       w')
    /\ sameSetup w w'.
Proof.
  induction sources as [| source rest IH]; intros acc w.
  - exists w. by repeat split.
  - destruct (sampleFreshness_run dataType source w) as (w1 & Hrun & H1 & H2 & H3).
    destruct (IH (assoc_set source (sampled up dataType source) acc) w1)
      as (w' & Hloop & H1' & H2' & H3').
    exists w'. split.
    + cbn [for_acc forEach]. unfold bind at 1. unfold bind at 1.
      rewrite Hrun. unfold ret at 1. exact Hloop.
    + repeat split; congruence.
Qed.

Lemma updatePrioritiesFor_run (dataType : string) (w : World) :
  exists w' : World,
    updatePrioritiesFor up dataType w = (Ok tt, w')
    /\ wikiSources w' = wikiSources w
    /\ dataTypes w' = dataTypes w
    /\ sourcePriorities w'
       = match ranked up (keys (wikiSources w)) dataType with
         | [] => sourcePriorities w
         | newPriorities => <[dataType := newPriorities]> (sourcePriorities w)
         end.
Proof.
  destruct (freshness_loop dataType (keys (wikiSources w)) [] w)
    as (w1 & Hloop & H1 & H2 & H3).
  unfold updatePrioritiesFor, try_catch, bind at 1, get.
  unfold bind at 1. rewrite Hloop.
  fold (ranked up (keys (wikiSources w)) dataType).
  destruct (ranked up (keys (wikiSources w)) dataType) as [| s l]; simpl.
  - exists w1. auto.
  - eexists. split; [reflexivity |]. simpl. rewrite H1. auto.
Qed.

(** The loop over the data types: each listed type gets its new list,
    unless that list is empty; nothing else changes in the priorities. *)
Lemma updatePriorities_loop (types : list string) :
  forall w : World,
  exists w' : World,
    for_of types (updatePrioritiesFor up) w = (Ok tt, w')
    /\ wikiSources w' = wikiSources w
    /\ forall dataType,
         sourcePriorities w' !! dataType
         = if bool_decide (dataType ∈ types) then
             match ranked up (keys (wikiSources w)) dataType with
             | [] => sourcePriorities w !! dataType
             | newPriorities => Some newPriorities
             end
           else sourcePriorities w !! dataType.
Proof.
  induction types as [| type rest IH]; intros w.
  - exists w. repeat split.
  - destruct (updatePrioritiesFor_run type w) as (w1 & Hrun & Hsrc & _ & Hprio).
    destruct (IH w1) as (w' & Hloop & Hsrc' & Hprio').
    exists w'. split; [| split].
    + cbn [for_of]. unfold bind. by rewrite Hrun.
    + congruence.
    + intros dataType. rewrite Hprio', Hsrc, Hprio. clear Hprio' Hprio.
      assert (Hstep :
        (match ranked up (keys (wikiSources w)) type with
         | [] => sourcePriorities w
         | newPriorities => <[type := newPriorities]> (sourcePriorities w)
         end) !! dataType
        = if bool_decide (dataType = type) then
            match ranked up (keys (wikiSources w)) dataType with
            | [] => sourcePriorities w !! dataType
            | newPriorities => Some newPriorities
            end
          else sourcePriorities w !! dataType).
      { destruct (decide (dataType = type)) as [-> | Hne].
        - rewrite bool_decide_eq_true_2 by done.
          destruct (ranked up _ type); [done | by rewrite lookup_insert_eq].
        - rewrite bool_decide_eq_false_2 by done.
          destruct (ranked up _ type); [done | by rewrite lookup_insert_ne]. }
      rewrite Hstep. clear Hstep.
      destruct (decide (dataType = type)) as [-> | Hne].
      * rewrite (bool_decide_eq_true_2 (type = type)) by done.
        rewrite (bool_decide_eq_true_2 (type ∈ type :: rest))
          by apply list_elem_of_here.
        destruct (bool_decide (type ∈ rest)); [| done].
        by destruct (ranked up _ type).
      * rewrite (bool_decide_eq_false_2 (dataType = type)) by done.
        rewrite (bool_decide_ext (dataType ∈ type :: rest) (dataType ∈ rest));
          [done |].
        rewrite elem_of_cons. tauto.
Qed.

End Ranking.

Section RankingFacts.
Context (up : Upstream) {js : Builtins}.

Lemma table_scores (dataType : string) (P : string * Num -> Prop)
  (sources : list string) (acc : list (string * Num)) :
  Forall P acc ->
  (forall s, s ∈ sources -> P (s, sampled up dataType s)) ->
  Forall P (forEach (fun s acc => assoc_set s (sampled up dataType s) acc) sources acc).
Proof.
  revert acc. induction sources as [| s rest IH]; intros acc Hacc Hs; [done |].
  cbn [forEach]. apply IH.
  - assert (Hnew : P (s, sampled up dataType s)) by (apply Hs, list_elem_of_here).
    clear IH Hs. induction Hacc as [| [k v] o Hkv Ho IHo]; simpl.
    + by constructor.
    + destruct (String.eqb k s) eqn:E.
      * apply String.eqb_eq in E as ->. by constructor.
      * by constructor.
  - intros s' Hin. by apply Hs, list_elem_of_further.
Qed.

(** When no configured source gets a usable score, no new list is made. *)
Lemma ranked_nil (sources : list string) (dataType : string) :
  (forall s, s ∈ sources -> nge0 (sampled up dataType s) = false) ->
  ranked up sources dataType = [].
Proof.
  intros Hall. unfold ranked, rankSources.
  assert (Hnone : Forall (fun entry : string * Num => nge0 entry.2 = false)
            (forEach (fun s acc => assoc_set s (sampled up dataType s) acc) sources [])).
  { apply table_scores; [constructor | exact Hall]. }
  induction Hnone as [| entry o Hentry Ho IH]; [done |].
  rewrite filter_cons. destruct (decide (nge0 entry.2 = true)); [congruence | exact IH].
Qed.

End RankingFacts.

(** C6 fails on the code, for the updater as it is constructed.  Fandom's
    sample of the cards is fetched without any error and is scored without
    any error, at -990 (one record of version -1 and one field); yet Fandom
    is not among "the remaining sources" that are sorted: its score does not
    pass the filter that is there to drop the sources that failed, and the
    new priority list of the cards is DokkanInfo alone. *)
Theorem nonfailing_source_is_dropped :
  let w := Examples.freshWorld in
  let w' := (updateSourcePriorities (js := Examples.demoBuiltins)
               Examples.staleFandom w).2 in
  let sample := VArr [ VObj {[ "version" := VNum (num_of_Z (-1)) ]} ] in
  outcome (respond Examples.staleFandom (adapterFor "fandom", getSample "cards" 5))
  = Ok sample
  /\ (exists q : Q,
        calculateFreshnessScore (js := Examples.demoBuiltins) sample = Ok (Fin q)
        /\ (q == -990)%Q)
  /\ sourcePriorities w !! "cards" = Some ["fandom"; "dokkanInfo"]
  /\ sourcePriorities w' !! "cards" = Some ["dokkanInfo"].
Proof.
  split; [reflexivity |]. split.
  { eexists. split; [vm_compute; reflexivity | vm_compute; reflexivity]. }
  split; vm_compute; reflexivity.
Qed.

(** C9: [updateSourcePriorities] never makes a priority list empty: after
    it, the list of a data type is the one it had, or a non-empty one; and
    when the sample fetch of every configured source throws for the type,
    the list is the one it had. *)
Theorem priorities_never_emptied (up : Upstream) `{js : Builtins} (w : World)
  (dataType : string) :
  exists w' : World,
    updateSourcePriorities up w = (Ok tt, w')
    /\ (sourcePriorities w' !! dataType = sourcePriorities w !! dataType
        \/ exists newPriorities,
             newPriorities <> []
             /\ sourcePriorities w' !! dataType = Some newPriorities)
    /\ ((forall source, source ∈ keys (wikiSources w) ->
           exists e,
             outcome (respond up (adapterFor source, getSample dataType 5)) = Throw e) ->
        sourcePriorities w' !! dataType = sourcePriorities w !! dataType).
Proof.
  destruct (updatePriorities_loop up (keys (dataTypes w)) w)
    as (w' & Hrun & _ & Hprio).
  exists w'. split; [exact Hrun |]. rewrite Hprio. split.
  - destruct (bool_decide _); [| by left].
    destruct (ranked up (keys (wikiSources w)) dataType) as [| s l]; [by left |].
    right. by exists (s :: l).
  - intros Hthrow. destruct (bool_decide _); [| done].
    rewrite ranked_nil; [done |].
    intros s Hs. destruct (Hthrow s Hs) as [e He].
    unfold sampled. by rewrite He.
Qed.

(** Both adapters are unreachable: the cards keep their priority list. *)
Lemma priorities_never_emptied_witness :
  exists w' : World,
    updateSourcePriorities (js := Examples.demoBuiltins)
      Examples.unreachable Examples.freshWorld = (Ok tt, w')
    /\ sourcePriorities w' !! "cards" = Some ["fandom"; "dokkanInfo"].
Proof.
  destruct (priorities_never_emptied (js := Examples.demoBuiltins)
              Examples.unreachable Examples.freshWorld "cards")
    as (w' & Hrun & _ & Hkeep).
  exists w'. split; [exact Hrun |].
  rewrite Hkeep; [vm_compute; reflexivity |].
  intros source _. eexists. reflexivity.
Defined.

(** ** The cache-aware update *)

Section Updating.
Context (up : Upstream) {js : Builtins}.

(** A prioritized fetch that returns has called an adapter, and has left
    the cache and the configured TTLs alone. *)
Lemma trySources_returns (dataType : string) (fetchFn : string -> Call)
  (priorities : list string) :
  forall (lastError : option Error) (w w' : World) (parsedData : Parsed),
    trySources up dataType fetchFn priorities lastError w = (Ok parsedData, w') ->
    (length (calls w) < length (calls w'))%nat
    /\ files w' = files w /\ dataTypes w' = dataTypes w.
Proof.
  induction priorities as [| source rest IH]; intros lastError w w' parsedData Hrun.
  - discriminate Hrun.
  - cbn [trySources] in Hrun. unfold bind at 1, attempt in Hrun.
    destruct (fetchFrom_run up dataType fetchFn source w) as [d Hfetch].
    rewrite Hfetch in Hrun. clear Hfetch.
    destruct (outcome (respond up (fetchFn source))) as [rawData | e].
    + cbv zeta in Hrun.
      assert (Hcases :
        (exists lastError',
           trySources up dataType fetchFn rest lastError'
             (stamped up source (fetchFn source) d w) = (Ok parsedData, w'))
        \/ w' = stamped up source (fetchFn source) d w).
      { destruct (noData rawData); [by left; eexists |].
        destruct (parsed _ _ _ _); [| by left; eexists].
        right. by injection Hrun as _ <-. }
      clear Hrun. destruct Hcases as [[lastError' Hrun] | ->].
      * apply IH in Hrun as (Hcalls & Hfiles & Htypes).
        unfold stamped, received in *. simpl in *.
        rewrite length_app in Hcalls. simpl in Hcalls.
        repeat split; [lia | done | done].
      * unfold stamped, received. simpl.
        rewrite length_app. simpl. repeat split. lia.
    + apply IH in Hrun as (Hcalls & Hfiles & Htypes).
      unfold received in *. simpl in *.
      rewrite length_app in Hcalls. simpl in Hcalls.
      repeat split; [lia | done | done].
Qed.

Lemma getDataFromPrioritizedSources_returns (dataType : string)
  (fetchFn : string -> Call) (w w' : World) (parsedData : Parsed) :
  getDataFromPrioritizedSources up dataType fetchFn w = (Ok parsedData, w') ->
  (length (calls w) < length (calls w'))%nat
  /\ files w' = files w /\ dataTypes w' = dataTypes w.
Proof.
  unfold getDataFromPrioritizedSources, bind, get.
  destruct (sourcePriorities w !! dataType) as [[| s l] |]; try discriminate.
  - apply trySources_returns.
  - by destruct (noPriorities _).
Qed.

Lemma fetchFresh_returns (dataType : string) (w w' : World) (fresh : Parsed) :
  fetchFresh up dataType w = (Ok fresh, w') ->
  (length (calls w) < length (calls w'))%nat
  /\ files w' = files w /\ dataTypes w' = dataTypes w.
Proof.
  unfold fetchFresh.
  repeat (destruct (String.eqb dataType _);
          [apply getDataFromPrioritizedSources_returns |]).
  apply getDataFromPrioritizedSources_returns.
Qed.

(** The TTL of a type that [config.dataTypes] configures with one. *)
Lemma cacheTtlOf_configured (w : World) (dataType : string) (cacheTtl : Z) :
  assoc_get dataType (dataTypes w) = Some cacheTtl ->
  cacheTtl <> 0 ->
  cacheTtlOf w dataType = cacheTtl.
Proof.
  intros Hconf Hne. unfold cacheTtlOf. rewrite Hconf.
  destruct (Z.eqb_spec cacheTtl 0); done.
Qed.

(** A valid cache entry is reported without touching anything. *)
Lemma updateType_hit (w : World) (dataType : string)
  (results : gmap string TypeResult) (e : CacheEntry) :
  getCachedData (files w) dataType = Ok (CEntry e) ->
  clock w - timestamp e < cacheTtlOf w dataType ->
  updateType up dataType results w
  = (Ok (<[dataType := mkTypeResult (length (data e)) true None None]> results), w).
Proof.
  intros Hcached Hfresh.
  unfold updateType, bind, get, lift, Date_now. rewrite Hcached.
  unfold stillValid. apply Z.ltb_lt in Hfresh. by rewrite Hfresh.
Qed.

(** What [cacheData] has stored reads back as the entry that
    [JSON.stringify] wrote. *)
Lemma cacheData_stored (fs fs' : Store) (key : string) (e : CacheEntry) :
  cacheData fs key e = (Ok tt, fs') ->
  getCachedData fs' key
  = Ok (CEntry (mkEntry (jsonElement <$> data e) (timestamp e)
                        (DataManager.source e))).
Proof.
  unfold cacheData, writeFile.
  destruct (onWrite _); [| discriminate | discriminate].
  intros H. injection H as <-.
  unfold getCachedData, readFile, with_nodes. simpl.
  by rewrite lookup_insert_eq.
Qed.

(** An update that reports fresh data has called an adapter and has cached
    the data under the time at which it ends. *)
Lemma updateType_fetched (w w1 : World) (dataType : string)
  (results results1 : gmap string TypeResult) (r : TypeResult) :
  updateType up dataType results w = (Ok results1, w1) ->
  results1 !! dataType = Some r ->
  fromCache r = false ->
  error r = None ->
  (length (calls w) < length (calls w1))%nat
  /\ dataTypes w1 = dataTypes w
  /\ exists e,
       getCachedData (files w1) dataType = Ok (CEntry e)
       /\ timestamp e = clock w1
       /\ length (data e) = count r.
Proof.
  intros Hrun Hr Hfrom Herr.
  unfold updateType, bind at 1, get in Hrun.
  unfold bind at 1, lift in Hrun.
  destruct (getCachedData (files w) dataType) as [cachedData | e0]; [| discriminate].
  unfold bind at 1, Date_now in Hrun.
  destruct (stillValid cachedData (clock w) (cacheTtlOf w dataType)) as [e |].
  { injection Hrun as <- <-. rewrite lookup_insert_eq in Hr.
    injection Hr as <-. discriminate Hfrom. }
  unfold bind at 1 in Hrun.
  destruct (fetchFresh up dataType w) as [[fresh | e0] wf] eqn:Hfetch; [| discriminate].
  apply fetchFresh_returns in Hfetch as (Hcalls & Hfiles & Htypes).
  unfold storeFresh in Hrun.
  destruct (bool_decide (0 < length (items fresh))%nat).
  - unfold bind, Date_now, store, ret in Hrun.
    destruct (cacheData (files wf) dataType _) as [[[] | e0] fs'] eqn:Hstore;
      [| discriminate].
    injection Hrun as <- <-. rewrite lookup_insert_eq in Hr. injection Hr as <-.
    split; [exact Hcalls |]. split; [exact Htypes |].
    apply cacheData_stored in Hstore. eexists. split; [exact Hstore |].
    simpl. by rewrite length_fmap.
  - injection Hrun as <- <-. rewrite lookup_insert_eq in Hr.
    injection Hr as <-. discriminate Herr.
Qed.

(** An entry as old as the TTL, or older, is not used: an update that
    returns has called an adapter and reports the type as not from the
    cache. *)
Lemma updateType_expired (w w1 : World) (dataType : string)
  (results results1 : gmap string TypeResult) (e : CacheEntry) :
  getCachedData (files w) dataType = Ok (CEntry e) ->
  cacheTtlOf w dataType <= clock w - timestamp e ->
  updateType up dataType results w = (Ok results1, w1) ->
  (length (calls w) < length (calls w1))%nat
  /\ exists r, results1 !! dataType = Some r /\ fromCache r = false.
Proof.
  intros Hcached Hold Hrun.
  unfold updateType, bind at 1, get in Hrun.
  unfold bind at 1, lift in Hrun. rewrite Hcached in Hrun.
  unfold bind at 1, Date_now in Hrun. unfold stillValid in Hrun.
  apply Z.ltb_ge in Hold. rewrite Hold in Hrun.
  unfold bind at 1 in Hrun.
  destruct (fetchFresh up dataType w) as [[fresh | e0] wf] eqn:Hfetch; [| discriminate].
  apply fetchFresh_returns in Hfetch as (Hcalls & _ & _).
  unfold storeFresh in Hrun.
  destruct (bool_decide (0 < length (items fresh))%nat).
  - unfold bind, Date_now, store, ret in Hrun.
    destruct (cacheData (files wf) dataType _) as [[[] | e0] fs'];
      [| discriminate].
    injection Hrun as <- <-. split; [exact Hcalls |].
    eexists. by rewrite lookup_insert_eq.
  - injection Hrun as <- <-. split; [exact Hcalls |].
    eexists. by rewrite lookup_insert_eq.
Qed.

End Updating.

(** C7, as stated, fails on what is returned: the update reports how many
    records the cached payload has, not the payload.  Two caches that hold
    different events, stored at the same time by the same source, give the
    same result of [updateFromWiki]: nothing of the payload but its length
    is in it. *)
Lemma cached_payload_is_not_returned :
  let run payload :=
    (updateFromWiki (js := Examples.demoBuiltins) Examples.unreachable
       (Some ["events"]) (Examples.cachedEvents payload)).1 in
  Examples.birthday <> Examples.pride
  /\ getCachedData (js := Examples.demoBuiltins)
       (files (Examples.cachedEvents Examples.birthday)) "events"
     = Ok (CEntry (mkEntry Examples.birthday 1000 "dokkanInfo"))
  /\ getCachedData (js := Examples.demoBuiltins)
       (files (Examples.cachedEvents Examples.pride)) "events"
     = Ok (CEntry (mkEntry Examples.pride 1000 "dokkanInfo"))
  /\ run Examples.birthday
     = Ok (mkUpdateResult true "Wiki data updated successfully"
             (Some (<["events" := mkTypeResult 1 true None None]> ∅)))
  /\ run Examples.pride = run Examples.birthday.
Proof.
  split; [discriminate |]. vm_compute. repeat split.
Qed.

(** C7, amended: the update of one data type is idempotent within the TTL
    window of the type, the [cacheTtl] that [config.dataTypes] gives it.  If
    the cache holds an entry for the type and [now - timestamp] is below
    that TTL, the update leaves the world as it is, no adapter is called,
    and the type is reported with the number of records of the cached
    payload and [fromCache = true]; if [now - timestamp] is not below it,
    an update that returns has called an adapter and does not report the
    type as from the cache.  Hence, when an update of the type has fetched
    (and so called an adapter at least once), any update of it that starts
    less than the TTL after the first one ended calls no adapter and reports
    the same count from the cache. *)
Theorem idempotent_within_ttl (up : Upstream) `{js : Builtins} (dataType : string)
  (cacheTtl : Z) :
  cacheTtl <> 0 ->
  (forall (w : World) (results : gmap string TypeResult) (e : CacheEntry),
     assoc_get dataType (dataTypes w) = Some cacheTtl ->
     getCachedData (files w) dataType = Ok (CEntry e) ->
     clock w - timestamp e < cacheTtl ->
     updateType up dataType results w
     = (Ok (<[dataType := mkTypeResult (length (data e)) true None None]> results), w))
  /\ (forall (w w1 : World) (results results1 : gmap string TypeResult)
        (e : CacheEntry),
        assoc_get dataType (dataTypes w) = Some cacheTtl ->
        getCachedData (files w) dataType = Ok (CEntry e) ->
        cacheTtl <= clock w - timestamp e ->
        updateType up dataType results w = (Ok results1, w1) ->
        (length (calls w) < length (calls w1))%nat
        /\ exists r, results1 !! dataType = Some r /\ fromCache r = false)
  /\ (forall (w w1 : World) (results results1 results2 : gmap string TypeResult)
        (r : TypeResult) (later : Z),
        assoc_get dataType (dataTypes w) = Some cacheTtl ->
        updateType up dataType results w = (Ok results1, w1) ->
        results1 !! dataType = Some r ->
        fromCache r = false ->
        error r = None ->
        later < cacheTtl ->
        let w2 := with_clock (fun t => t + later) w1 in
        (length (calls w) < length (calls w1))%nat
        /\ updateType up dataType results2 w2
           = (Ok (<[dataType := mkTypeResult (count r) true None None]> results2), w2)).
Proof.
  intros Hne. split; [| split].
  - intros w results e Hconf Hcached Hfresh. apply updateType_hit; [exact Hcached |].
    by rewrite (cacheTtlOf_configured w dataType cacheTtl).
  - intros w w1 results results1 e Hconf Hcached Hold.
    apply updateType_expired with (e := e); [exact Hcached |].
    by rewrite (cacheTtlOf_configured w dataType cacheTtl).
  - intros w w1 results results1 results2 r later Hconf Hrun Hr Hfrom Herr Hlater w2.
    destruct (updateType_fetched up w w1 dataType results results1 r Hrun Hr Hfrom Herr)
      as (Hcalls & Htypes & e & Hcached & Hstamp & Hcount).
    split; [exact Hcalls |].
    rewrite <- Hcount. apply updateType_hit; [exact Hcached |].
    rewrite (cacheTtlOf_configured w2 dataType cacheTtl);
      [| unfold w2; simpl; by rewrite Htypes | exact Hne].
    unfold w2. simpl. rewrite Hstamp. lia.
Qed.

(** The items have a TTL of two hours and the events one of 30 minutes.
    Items stored at time 1000 are served from the cache 100 minutes later,
    without a call.  Events stored at time 1000 are not used 41 minutes
    later: they are fetched again, from DokkanInfo; asked for once more 29
    minutes after that update ended, they come from the cache. *)
Lemma idempotent_within_ttl_witness :
  updateType (js := Examples.demoBuiltins) Examples.fandomDown "items" ∅
    Examples.agedItems
  = (Ok (<["items" := mkTypeResult 1 true None None]> ∅), Examples.agedItems)
  /\ exists (results1 : gmap string TypeResult) (w1 : World),
       updateType (js := Examples.demoBuiltins) Examples.fandomDown "events" ∅
         Examples.agedEvents
       = (Ok results1, w1)
       /\ (length (calls Examples.agedEvents) < length (calls w1))%nat
       /\ (exists r, results1 !! "events" = Some r /\ fromCache r = false)
       /\ let w2 := with_clock (fun t => t + 1740000) w1 in
          updateType (js := Examples.demoBuiltins) Examples.fandomDown "events" ∅ w2
          = (Ok (<["events" := mkTypeResult 1 true None None]> ∅), w2).
Proof.
  split.
  - destruct (idempotent_within_ttl (js := Examples.demoBuiltins)
                Examples.fandomDown "items" 7200000) as [Hhit _]; [lia |].
    apply (Hhit Examples.agedItems ∅
             (mkEntry [VObj Examples.goku] 1000 "dokkanInfo"));
      [reflexivity | reflexivity | vm_compute; reflexivity].
  - destruct (idempotent_within_ttl (js := Examples.demoBuiltins)
                Examples.fandomDown "events" 1800000) as (_ & Hold & Htwice); [lia |].
    assert (Hr : match (updateType (js := Examples.demoBuiltins) Examples.fandomDown
                          "events" ∅ Examples.agedEvents).1 with
                 | Ok results1 => results1 !! "events"
                 | Throw _ => None
                 end = Some (mkTypeResult 1 false (Some "dokkanInfo") None)).
    { vm_compute. reflexivity. }
    destruct (updateType (js := Examples.demoBuiltins) Examples.fandomDown
                "events" ∅ Examples.agedEvents)
      as [[results1 | e] w1] eqn:Hfirst; [| discriminate Hr].
    simpl in Hr.
    exists results1, w1. split; [reflexivity |].
    destruct (Hold Examples.agedEvents w1 ∅ results1
                (mkEntry [VObj Examples.goku] 1000 "dokkanInfo"))
      as [Hcalls Hfresh];
      [reflexivity | reflexivity | vm_compute; discriminate | exact Hfirst |].
    split; [exact Hcalls |]. split; [exact Hfresh |].
    exact (proj2 (Htwice Examples.agedEvents w1 ∅ results1 ∅ _ 1740000
                    eq_refl Hfirst Hr eq_refl eq_refl ltac:(lia))).
Defined.

(** C3 fails on the code: the cards cannot be fetched, and the update of
    cards and events returns [success = false] with the error of the cards
    and no per-type results; after the two discovery calls and the two
    attempts for the cards no adapter is called: the events, which alone
    update fine, are never asked for. *)
Theorem batch_aborts_on_first_failure :
  let run types :=
    updateFromWiki (js := Examples.demoBuiltins) Examples.cardsDown (Some types)
      Examples.freshWorld in
  (run ["cards"; "events"]).1
  = Ok (mkUpdateResult false
          "Failed to fetch cards from all sources: HTTP error: 503" None)
  /\ calls (run ["cards"; "events"]).2
     = [ (fandomAPI, getAvailableDataTypes); (dokkanScraper, getAvailableDataTypes);
         (fandomAPI, getLatestCards); (dokkanScraper, getLatestCards) ]
  /\ (run ["events"]).1
     = Ok (mkUpdateResult true "Wiki data updated successfully"
             (Some (<["events" := mkTypeResult 1 false (Some "dokkanInfo") None]> ∅))).
Proof.
  vm_compute. repeat split.
Qed.

(** * Further properties *)

(** ** The cache store *)



Section ClearingFacts.
Context {js : Builtins}.

(** When [clearCache] resolves. *)
Lemma clearCache_resolves (fs : Store) :
  (DataManager.clearCache fs).1 = Ok tt
  <-> listable fs = true
      /\ forall path f, nodes fs !! path = Some f ->
                        inCacheDir path = true -> unlinkable f = true.
Proof.
  unfold DataManager.clearCache. destruct (listable fs); cbn [fst].
  - destruct (map_to_list _) as [| [path f] rest] eqn:E.
    + apply map_to_list_empty_iff in E. split; [| done].
      intros _. split; [done |]. intros path f Hnode Hin.
      destruct (unlinkable f) eqn:Hunlink; [done | exfalso].
      assert (filter (fun pf : string * File => resists pf.1 pf.2 = true)
                     (nodes fs) !! path = Some f) as Hfound.
      { apply map_lookup_filter_Some. split; [exact Hnode |].
        unfold resists. simpl. by rewrite Hin, Hunlink. }
      rewrite E in Hfound. by rewrite lookup_empty in Hfound.
    + split; [discriminate |]. intros [_ Hall]. exfalso.
      assert ((path, f) ∈ map_to_list
                (filter (fun pf : string * File => resists pf.1 pf.2 = true)
                        (nodes fs))) as Hin.
      { rewrite E. apply list_elem_of_here. }
      apply elem_of_map_to_list, map_lookup_filter_Some in Hin as [Hnode Hres].
      unfold resists in Hres. simpl in Hres.
      apply andb_true_iff in Hres as [Hin Hres].
      rewrite (Hall path f Hnode Hin) in Hres. discriminate Hres.
  - split; [discriminate |]. by intros [? _].
Qed.

(** What [clearCache] leaves: when it has resolved, a miss under every key
    of the directory; in any case, the paths outside the directory. *)
Lemma clearCache_misses (fs : Store) :
  ((DataManager.clearCache fs).1 = Ok tt ->
   forall key, inCacheDir (filepath key) = true ->
               getCachedData (DataManager.clearCache fs).2 key = Ok CNull)
  /\ (forall path, inCacheDir path = false ->
                   nodes (DataManager.clearCache fs).2 !! path = nodes fs !! path).
Proof.
  split.
  - intros Hok key Hin. apply clearCache_resolves in Hok as [Hlist Hall].
    unfold DataManager.clearCache. rewrite Hlist. cbn [snd].
    unfold getCachedData, readFile, with_nodes. simpl.
    destruct (filter _ (nodes fs) !! filepath key) as [f |] eqn:E; [| done].
    apply map_lookup_filter_Some in E as [Hnode Hkept].
    unfold removed in Hkept. simpl in Hkept.
    by rewrite Hin, (Hall _ _ Hnode Hin) in Hkept.
  - intros path Hout. unfold DataManager.clearCache.
    destruct (listable fs); cbn [snd]; [| done].
    unfold with_nodes. simpl.
    destruct (nodes fs !! path) as [f |] eqn:Hnode.
    + apply map_lookup_filter_Some. split; [exact Hnode |].
      unfold removed. simpl. by rewrite Hout.
    + apply map_lookup_filter_None. left. exact Hnode.
Qed.

End ClearingFacts.

(** X2: [clearCache] resolves exactly when [readdir] lists the cache
    directory and every entry it lists can be unlinked; then every key
    whose file is in the directory reads as a miss.  Whether it resolves or
    rejects, the paths outside the directory are left as they were. *)
Theorem clearCache_leaves_only_misses `{js : Builtins} (fs : Store) :
  ((DataManager.clearCache fs).1 = Ok tt
   <-> listable fs = true
       /\ forall path f, nodes fs !! path = Some f ->
                         inCacheDir path = true -> unlinkable f = true)
  /\ ((DataManager.clearCache fs).1 = Ok tt ->
      forall key, inCacheDir (filepath key) = true ->
                  getCachedData (DataManager.clearCache fs).2 key = Ok CNull)
  /\ (forall path, inCacheDir path = false ->
                   nodes (DataManager.clearCache fs).2 !! path = nodes fs !! path).
Proof.
  split; [apply clearCache_resolves | apply clearCache_misses].
Qed.

(** ** Rate limiting and the prioritized fetch *)

Section FetchFrame.
Context (up : Upstream) {js : Builtins}.

Lemma with_clock_same (w : World) : with_clock (fun _ => clock w) w = w.
Proof. by destruct w. Qed.

Lemma sentAt_ge (w : World) (source : string) : clock w <= sentAt w source.
Proof.
  unfold sentAt. destruct (assoc_get source (wikiSources w)); lia.
Qed.

Lemma respectRateLimit_exact (source : string) (w : World) :
  respectRateLimit source w = (Ok tt, with_clock (fun _ => sentAt w source) w).
Proof.
  unfold respectRateLimit, sentAt, bind, get, sleep, modify, ret.
  destruct (assoc_get source (wikiSources w)) as [sourceConfig |].
  - destruct (0 <? _) eqn:E.
    + apply Z.ltb_lt in E. unfold with_clock. do 3 f_equal. lia.
    + apply Z.ltb_ge in E. rewrite Z.max_l by lia. by rewrite with_clock_same.
  - by rewrite with_clock_same.
Qed.

(** What is not nothing makes a batch of at least one record. *)
Lemma dataArray_not_nil (rawData : Value) :
  noData rawData = false -> dataArray rawData <> [].
Proof.
  unfold noData. intros Hno. apply orb_false_iff in Hno as [_ Hno].
  destruct rawData as [| | | | | | [| x l] | |]; done.
Qed.

(** One pass through the [try] block, in full. *)
Lemma fetchFrom_step (dataType : string) (fetchFn : string -> Call)
  (source : string) (w : World) :
  exists (r : Result (option Parsed)) (w' : World),
    fetchFrom up dataType fetchFn source w = (r, w')
    /\ untouched w w'
    /\ clock w' = sentAt w source + Z.of_nat (elapsed (respond up (fetchFn source)))
    /\ calls w' = calls w ++ [fetchFn source]
    /\ (forall s, s <> source -> lastRequestTime w' !! s = lastRequestTime w !! s)
    /\ match outcome (respond up (fetchFn source)) with
       | Ok _ => lastRequestTime w' !! source = Some (clock w')
       | Throw _ => lastRequestTime w' = lastRequestTime w
       end
    /\ match r with
       | Ok (Some parsedData) =>
           items parsedData <> []
           /\ WikiUpdater.source parsedData = source
           /\ fetchTime parsedData = clock w'
           /\ lastRequestTime w' !! source = Some (clock w')
       | _ => True
       end.
Proof.
  unfold fetchFrom, bind at 1. rewrite respectRateLimit_exact.
  unfold bind, invoke, Date_now, modify, parseData, get, ret, lift.
  destruct (outcome (respond up (fetchFn source))) as [rawData | e].
  - destruct (noData rawData) eqn:Hno.
    + eexists _, _. split; [reflexivity |]. simpl.
      repeat split; try done.
      * intros s Hs. by rewrite lookup_insert_ne.
      * by rewrite lookup_insert_eq.
    + unfold bind. simpl.
      destruct (mapM _ (dataArray rawData)) as [parsedData | e] eqn:Hparse.
      * eexists _, _. split; [reflexivity |]. simpl.
        repeat split; try done.
        -- intros s Hs. by rewrite lookup_insert_ne.
        -- by rewrite lookup_insert_eq.
        -- apply mapM_length in Hparse. intros ->.
           by apply (dataArray_not_nil rawData Hno), nil_length_inv.
        -- by rewrite lookup_insert_eq.
      * eexists _, _. split; [reflexivity |]. simpl.
        repeat split; try done.
        -- intros s Hs. by rewrite lookup_insert_ne.
        -- by rewrite lookup_insert_eq.
  - eexists _, _. split; [reflexivity |]. simpl. by repeat split.
Qed.

(** The loop over the sources, whatever the replies are. *)
Lemma trySources_frame (dataType : string) (fetchFn : string -> Call)
  (priorities : list string) :
  forall (lastError : option Error) (w : World),
  exists (r : Result Parsed) (w' : World) (n : nat),
    trySources up dataType fetchFn priorities lastError w = (r, w')
    /\ untouched w w'
    /\ clock w <= clock w'
    /\ calls w' = calls w ++ (fetchFn <$> take n priorities)
    /\ (forall s, s ∉ priorities -> lastRequestTime w' !! s = lastRequestTime w !! s)
    /\ match r with
       | Ok parsedData =>
           (0 < n <= length priorities)%nat
           /\ items parsedData <> []
           /\ priorities !! (n - 1)%nat = Some (WikiUpdater.source parsedData)
           /\ fetchTime parsedData = clock w'
           /\ lastRequestTime w' !! WikiUpdater.source parsedData = Some (clock w')
       | Throw _ => n = length priorities
       end.
Proof.
  induction priorities as [| source rest IH]; intros lastError w.
  - exists (Throw (exhausted dataType lastError)), w, 0%nat.
    split; [reflexivity |]. repeat split; try done; try lia.
    simpl. by rewrite app_nil_r.
  - destruct (fetchFrom_step dataType fetchFn source w)
      as (r1 & w1 & Hrun & (U1 & U2 & U3 & U4 & U5) & Hclock & Hcalls & Hlrt
          & _ & Hcase).
    pose proof (sentAt_ge w source) as Hsent.
    assert (Hmono : clock w <= clock w1) by lia.
    assert (Hcont : forall lastError',
      exists (r : Result Parsed) (w' : World) (n : nat),
        trySources up dataType fetchFn rest lastError' w1 = (r, w')
        /\ untouched w w'
        /\ clock w <= clock w'
        /\ calls w' = calls w ++ (fetchFn <$> take (S n) (source :: rest))
        /\ (forall s, s ∉ source :: rest ->
              lastRequestTime w' !! s = lastRequestTime w !! s)
        /\ match r with
           | Ok parsedData =>
               (0 < S n <= length (source :: rest))%nat
               /\ items parsedData <> []
               /\ (source :: rest) !! (S n - 1)%nat
                  = Some (WikiUpdater.source parsedData)
               /\ fetchTime parsedData = clock w'
               /\ lastRequestTime w' !! WikiUpdater.source parsedData
                  = Some (clock w')
           | Throw _ => S n = length (source :: rest)
           end).
    { intros lastError'.
      destruct (IH lastError' w1)
        as (r & w' & n & Hrest & (V1 & V2 & V3 & V4 & V5) & Hc & Hcs & Hl & Hr).
      exists r, w', n. split; [exact Hrest |].
      split; [unfold untouched; repeat split; congruence |].
      split; [lia |].
      split; [rewrite Hcs, Hcalls; simpl; by rewrite <- app_assoc |].
      split.
      - intros s Hs. apply not_elem_of_cons in Hs as [Hne Hs].
        rewrite Hl by done. by apply Hlrt.
      - destruct r as [parsedData | e]; [| simpl; lia].
        destruct Hr as ((Hn1 & Hn2) & Hitems & Hsrc & Hft & Hstamp).
        repeat split; try done; simpl; try lia.
        destruct n as [| n]; [lia |]. simpl in *.
        by rewrite Nat.sub_0_r in Hsrc. }
    cbn [trySources]. unfold bind at 1, attempt. rewrite Hrun.
    destruct r1 as [[parsedData |] | e].
    + exists (Ok parsedData), w1, 1%nat. split; [reflexivity |].
      destruct Hcase as (Hitems & Hsrc & Hft & Hstamp).
      repeat split; try done; simpl; try lia; try done;
        try (by rewrite Hsrc);
        try (intros s Hs; apply not_elem_of_cons in Hs as [Hne _]; by apply Hlrt).
    + destruct (Hcont lastError) as (r & w' & n & H). exists r, w', (S n). exact H.
    + destruct (Hcont (Some e)) as (r & w' & n & H). exists r, w', (S n). exact H.
Qed.

End FetchFrame.

(** X3: [respectRateLimit] only moves the clock, and never backwards: for
    a configured source it waits until [rateLimitMs] has passed since the
    time stored in [lastRequestTime] (or since 0 when there is none) and not
    longer; for a source without configuration it does not wait. *)
Theorem respectRateLimit_waits_just_enough (w : World) (source : string) :
  exists w' : World,
    respectRateLimit source w = (Ok tt, w')
    /\ w' = with_clock (fun _ => clock w') w
    /\ clock w <= clock w'
    /\ clock w'
       = match assoc_get source (wikiSources w) with
         | Some sourceConfig =>
             Z.max (clock w)
                   (default 0 (lastRequestTime w !! source) + rateLimitMs sourceConfig)
         | None => clock w
         end.
Proof.
  exists (with_clock (fun _ => sentAt w source) w).
  split; [apply respectRateLimit_exact |].
  split; [reflexivity |]. split; [apply sentAt_ge | reflexivity].
Qed.

(** X4: a request to a configured source leaves no earlier than
    [rateLimitMs] after the time stored for the source in [lastRequestTime];
    so when the reply is stamped, the new stamp is at least [rateLimitMs]
    plus the duration of the request after the old one. *)
Theorem requests_are_spaced (up : Upstream) `{js : Builtins} (w : World)
  (dataType : string) (fetchFn : string -> Call) (source : string)
  (sourceConfig : SourceConfig) :
  assoc_get source (wikiSources w) = Some sourceConfig ->
  let w' := (fetchFrom up dataType fetchFn source w).2 in
  let duration := Z.of_nat (elapsed (respond up (fetchFn source))) in
  let last := default 0 (lastRequestTime w !! source) in
  last + rateLimitMs sourceConfig <= clock w' - duration
  /\ forall rawData,
       outcome (respond up (fetchFn source)) = Ok rawData ->
       exists stamp,
         lastRequestTime w' !! source = Some stamp
         /\ last + rateLimitMs sourceConfig + duration <= stamp.
Proof.
  intros Hconfig w' duration last.
  destruct (fetchFrom_step up dataType fetchFn source w)
    as (r & w1 & Hrun & _ & Hclock & _ & _ & Hstamp & _).
  subst w'. rewrite Hrun. cbn [snd].
  assert (Hsent : last + rateLimitMs sourceConfig <= sentAt w source).
  { unfold sentAt. rewrite Hconfig. subst last. lia. }
  split; [subst duration; lia |].
  intros rawData Hok. exists (clock w1). split; [| subst duration; lia].
  by rewrite Hok in Hstamp.
Qed.

(** DokkanInfo answered at 4800 and is asked again at 5000: the request
    waits for the 1500 ms of the source, takes 60 ms, and is stamped at
    6360. *)
Lemma requests_are_spaced_witness :
  exists stamp,
    lastRequestTime
      (fetchFrom (js := Examples.demoBuiltins) Examples.fandomDown "cards"
         (via getLatestCards) "dokkanInfo" Examples.busyWorld).2 !! "dokkanInfo"
    = Some stamp
    /\ 4800 + 1500 + 60 <= stamp.
Proof.
  destruct (requests_are_spaced (js := Examples.demoBuiltins) Examples.fandomDown
              Examples.busyWorld "cards"
              (via getLatestCards) "dokkanInfo" (mkSource "https://dokkaninfo.com" 2 1500))
    as [_ Hstamp].
  - vm_compute. reflexivity.
  - destruct (Hstamp (VArr [VObj Examples.goku]) eq_refl) as (stamp & Hs & Hle).
    exists stamp. split; [exact Hs |].
    assert (Hlast : default 0 (lastRequestTime Examples.busyWorld !! "dokkanInfo") = 4800)
      by (vm_compute; reflexivity).
    rewrite Hlast in Hle. exact Hle.
Defined.

(** X26: what one attempt of the prioritized fetch does to
    [lastRequestTime]: an attempt whose fetch returns, with data or without,
    stores the time at which it returned under the source, whatever
    [parseData] then does; an attempt whose fetch throws leaves
    [lastRequestTime] as it was. *)
Theorem lastRequestTime_after_attempt (up : Upstream) `{js : Builtins} (w : World)
  (dataType : string) (fetchFn : string -> Call) (source : string) :
  let w' := (fetchFrom up dataType fetchFn source w).2 in
  match outcome (respond up (fetchFn source)) with
  | Ok _ =>
      lastRequestTime w'
      = <[source := clock w']> (lastRequestTime w)
  | Throw _ => lastRequestTime w' = lastRequestTime w
  end.
Proof.
  destruct (fetchFrom_run up dataType fetchFn source w) as [d Hrun].
  cbv zeta. rewrite Hrun.
  destruct (outcome (respond up (fetchFn source))) as [rawData | e].
  - cbv zeta. destruct (noData _); [reflexivity |]. by destruct (parsed _ _ _ _).
  - reflexivity.
Qed.

Section FetchFacts.
Context (up : Upstream) {js : Builtins}.

Lemma getDataFromPrioritizedSources_frame (dataType : string)
  (fetchFn : string -> Call) (w : World) :
  let priorities := default [] (sourcePriorities w !! dataType) in
  exists (r : Result Parsed) (w' : World) (n : nat),
    getDataFromPrioritizedSources up dataType fetchFn w = (r, w')
    /\ untouched w w'
    /\ clock w <= clock w'
    /\ calls w' = calls w ++ (fetchFn <$> take n priorities)
    /\ (forall s, s ∉ priorities -> lastRequestTime w' !! s = lastRequestTime w !! s)
    /\ match r with
       | Ok parsedData =>
           (0 < n <= length priorities)%nat
           /\ items parsedData <> []
           /\ priorities !! (n - 1)%nat = Some (WikiUpdater.source parsedData)
           /\ fetchTime parsedData = clock w'
           /\ lastRequestTime w' !! WikiUpdater.source parsedData = Some (clock w')
       | Throw _ => n = length priorities
       end.
Proof.
  unfold getDataFromPrioritizedSources, bind, get.
  destruct (sourcePriorities w !! dataType) as [[| s l] |]; cbn [default].
  - eexists _, w, 0%nat. split; [reflexivity |].
    repeat split; try done. simpl. by rewrite app_nil_r.
  - apply trySources_frame.
  - destruct (noPriorities _);
      (eexists _, w, 0%nat; split; [reflexivity |];
       repeat split; try done; simpl; by rewrite app_nil_r).
Qed.

End FetchFacts.

(** X6: whatever the adapters answer, [getDataFromPrioritizedSources]
    changes nothing but the clock, the call log and [lastRequestTime]: the
    priorities, the parsers, the cache and the configuration are as before.
    The clock does not go back; the calls it makes are those of the first
    [n] sources of the priority list, once each and in order; and
    [lastRequestTime] changes for sources of that list only. *)
Theorem fetch_keeps_to_its_sources (up : Upstream) `{js : Builtins} (w : World)
  (dataType : string) (fetchFn : string -> Call) :
  let priorities := default [] (sourcePriorities w !! dataType) in
  let w' := (getDataFromPrioritizedSources up dataType fetchFn w).2 in
  untouched w w'
  /\ clock w <= clock w'
  /\ (exists n : nat, calls w' = calls w ++ (fetchFn <$> take n priorities))
  /\ (forall s, s ∉ priorities -> lastRequestTime w' !! s = lastRequestTime w !! s).
Proof.
  destruct (getDataFromPrioritizedSources_frame up dataType fetchFn w)
    as (r & w' & n & Hrun & Hun & Hclock & Hcalls & Hlrt & _).
  cbv zeta. rewrite Hrun. cbn [snd]. eauto.
Qed.

(** X7: what [getDataFromPrioritizedSources] returns is never empty; it is
    tagged with a source of the priority list, whose [lastRequestTime] is
    the fetch time of the result, the time of return. *)
Theorem fetched_data_is_never_empty (up : Upstream) `{js : Builtins} (w w' : World)
  (dataType : string) (fetchFn : string -> Call) (parsedData : Parsed) :
  getDataFromPrioritizedSources up dataType fetchFn w = (Ok parsedData, w') ->
  items parsedData <> []
  /\ (exists priorities,
        sourcePriorities w !! dataType = Some priorities
        /\ WikiUpdater.source parsedData ∈ priorities)
  /\ fetchTime parsedData = clock w'
  /\ lastRequestTime w' !! WikiUpdater.source parsedData = Some (fetchTime parsedData).
Proof.
  intros Hrun.
  destruct (getDataFromPrioritizedSources_frame up dataType fetchFn w)
    as (r & w1 & n & Hrun' & _ & _ & _ & _ & Hcase).
  rewrite Hrun in Hrun'. injection Hrun' as <- <-.
  destruct Hcase as (Hn & Hitems & Hsrc & Hft & Hstamp).
  split; [exact Hitems |]. split; [| split; [exact Hft | by rewrite Hft]].
  destruct (sourcePriorities w !! dataType) as [priorities |]; [| done].
  exists priorities. split; [done |]. by eapply list_elem_of_lookup_2.
Qed.

Lemma fetched_data_is_never_empty_witness :
  exists (parsedData : Parsed) (w' : World),
    getDataFromPrioritizedSources (js := Examples.demoBuiltins) Examples.fandomDown
      "cards" (via getLatestCards) Examples.freshWorld = (Ok parsedData, w')
    /\ items parsedData <> []
    /\ fetchTime parsedData = clock w'.
Proof.
  assert (Hok : match (getDataFromPrioritizedSources (js := Examples.demoBuiltins)
                         Examples.fandomDown "cards"
                         (via getLatestCards) Examples.freshWorld).1 with
                | Ok _ => True
                | Throw _ => False
                end) by (vm_compute; exact I).
  destruct (getDataFromPrioritizedSources (js := Examples.demoBuiltins)
              Examples.fandomDown "cards"
              (via getLatestCards) Examples.freshWorld)
    as [[parsedData | e] w'] eqn:Hrun; [| contradiction Hok].
  exists parsedData, w'. split; [reflexivity |].
  destruct (fetched_data_is_never_empty (js := Examples.demoBuiltins)
              Examples.fandomDown Examples.freshWorld w'
              "cards" (via getLatestCards) parsedData Hrun) as (H1 & _ & H2 & _).
  by split.
Defined.

(** ** The update of one type and of a batch *)

Section UpdateFacts.
Context (up : Upstream) {js : Builtins}.

Lemma fetched_never_empty (dataType : string) (fetchFn : string -> Call)
  (w w' : World) (parsedData : Parsed) :
  getDataFromPrioritizedSources up dataType fetchFn w = (Ok parsedData, w') ->
  items parsedData <> [].
Proof.
  intros Hrun.
  destruct (getDataFromPrioritizedSources_frame up dataType fetchFn w)
    as (r & w1 & n & Hrun' & _ & _ & _ & _ & Hcase).
  rewrite Hrun in Hrun'. injection Hrun' as <- <-. by destruct Hcase as (_ & H & _).
Qed.

Lemma fetchFresh_never_empty (dataType : string) (w w' : World) (fresh : Parsed) :
  fetchFresh up dataType w = (Ok fresh, w') -> items fresh <> [].
Proof.
  unfold fetchFresh. intros H.
  repeat match type of H with
         | context [if String.eqb dataType ?s then _ else _] =>
             destruct (String.eqb dataType s)
         end;
    by apply fetched_never_empty in H.
Qed.

Lemma sourceOrUnknown_named (fresh : Parsed) : sourceOrUnknown fresh <> "".
Proof.
  unfold sourceOrUnknown.
  destruct (String.eqb (WikiUpdater.source fresh) "") eqn:E; [done |].
  by apply String.eqb_neq in E.
Qed.

(** The two ways in which the update of a type can return. *)
Lemma updateType_cases (dataType : string) (results results' : gmap string TypeResult)
  (w w' : World) :
  updateType up dataType results w = (Ok results', w') ->
  (exists e,
     getCachedData (files w) dataType = Ok (CEntry e)
     /\ clock w - timestamp e < cacheTtlOf w dataType
     /\ w' = w
     /\ results'
        = <[dataType := mkTypeResult (length (data e)) true None None]> results)
  \/ ((forall e, getCachedData (files w) dataType = Ok (CEntry e) ->
         cacheTtlOf w dataType <= clock w - timestamp e)
      /\ exists fresh wf,
           fetchFresh up dataType w = (Ok fresh, wf)
           /\ items fresh <> []
           /\ getCachedData (files w') dataType
              = Ok (CEntry (mkEntry (jsonElement <$> items fresh) (clock w')
                                    (sourceOrUnknown fresh)))
           /\ results'
              = <[dataType :=
                    mkTypeResult (length (items fresh)) false
                                 (Some (sourceOrUnknown fresh)) None]> results).
Proof.
  intros Hrun.
  unfold updateType, bind at 1, get in Hrun.
  unfold bind at 1, lift in Hrun.
  destruct (getCachedData (files w) dataType) as [cachedData | e0] eqn:Hcached;
    [| discriminate].
  unfold bind at 1, Date_now in Hrun.
  destruct (stillValid cachedData (clock w) (cacheTtlOf w dataType)) as [e |] eqn:Hvalid.
  { left. exists e. injection Hrun as <- <-.
    unfold stillValid in Hvalid. destruct cachedData as [| e']; [discriminate |].
    destruct (_ <? _) eqn:Hlt; [| discriminate]. injection Hvalid as ->.
    apply Z.ltb_lt in Hlt. auto. }
  right. split.
  { intros e He. injection He as ->. unfold stillValid in Hvalid.
    destruct (_ <? _) eqn:Hlt; [discriminate |]. by apply Z.ltb_ge in Hlt. }
  unfold bind at 1 in Hrun.
  destruct (fetchFresh up dataType w) as [[fresh | e0] wf] eqn:Hfetch; [| discriminate].
  pose proof (fetchFresh_never_empty _ _ _ _ Hfetch) as Hitems.
  exists fresh, wf. split; [reflexivity |]. split; [exact Hitems |].
  unfold storeFresh in Hrun.
  rewrite bool_decide_eq_true_2 in Hrun
    by (destruct (items fresh); [done | simpl; lia]).
  unfold bind, Date_now, store, ret in Hrun.
  destruct (cacheData (files wf) dataType _) as [[[] | e0] fs'] eqn:Hstore;
    [| discriminate].
  injection Hrun as <- <-. split; [| reflexivity].
  exact (cacheData_stored _ _ _ _ Hstore).
Qed.

(** What a loop of updates that returns has put in the results. *)
Lemma updates_loop (types : list string) :
  forall (results results' : gmap string TypeResult) (w w' : World),
    for_acc types (updateType up) results w = (Ok results', w') ->
    dom results' = dom results ∪ list_to_set types
    /\ forall T r, results' !! T = Some r ->
         results !! T = Some r \/ (T ∈ types /\ error r = None).
Proof.
  induction types as [| type rest IH]; intros results results' w w' Hrun.
  - injection Hrun as <- <-. simpl. split; [set_solver | auto].
  - cbn [for_acc] in Hrun. unfold bind at 1 in Hrun.
    destruct (updateType up type results w) as [[results1 | e] w1] eqn:Hone;
      [| discriminate].
    apply IH in Hrun as [Hdom Hentries].
    assert (Hins : exists r1, results1 = <[type := r1]> results /\ error r1 = None).
    { apply updateType_cases in Hone
        as [(e & _ & _ & _ & ->) | (_ & fresh & wf & _ & _ & _ & ->)]; eauto. }
    destruct Hins as (r1 & -> & Herr). split.
    + rewrite Hdom, dom_insert_L. simpl. set_solver.
    + intros T r Hr. apply Hentries in Hr as [Hr | [Hin Hr]].
      * destruct (decide (T = type)) as [-> | Hne].
        -- rewrite lookup_insert_eq in Hr. injection Hr as <-.
           right. split; [apply list_elem_of_here | done].
        -- rewrite lookup_insert_ne in Hr by done. by left.
      * right. split; [by apply list_elem_of_further | done].
Qed.

End UpdateFacts.

(** X8: when the update of a type returns, the results hold an entry for
    the type, the other entries are as they were, and the entry never
    carries an error: the ['No data found'] entry is out of reach, because a
    fetch that has nothing throws.  An entry that is not from the cache
    counts at least one record and names a source. *)
Theorem updateType_never_reports_an_error (up : Upstream) `{js : Builtins}
  (w w' : World)
  (dataType : string) (results results' : gmap string TypeResult) :
  updateType up dataType results w = (Ok results', w') ->
  exists r : TypeResult,
    results' = <[dataType := r]> results
    /\ error r = None
    /\ (fromCache r = false ->
        (0 < count r)%nat
        /\ exists name, result_source r = Some name /\ name <> "").
Proof.
  intros Hrun.
  apply updateType_cases in Hrun
    as [(e & _ & _ & _ & ->) | (_ & fresh & wf & _ & Hitems & _ & ->)].
  - eexists. split; [reflexivity |]. split; [reflexivity |]. discriminate.
  - eexists. split; [reflexivity |]. split; [reflexivity |]. intros _. simpl. split.
    + destruct (items fresh); [done | simpl; lia].
    + eexists. split; [reflexivity |]. apply sourceOrUnknown_named.
Qed.

Lemma updateType_never_reports_an_error_witness :
  exists (results' : gmap string TypeResult) (w' : World) (r : TypeResult),
    updateType (js := Examples.demoBuiltins) Examples.cardsDown "events" ∅ Examples.freshWorld = (Ok results', w')
    /\ results' = <["events" := r]> ∅
    /\ error r = None.
Proof.
  assert (Hok : match (updateType (js := Examples.demoBuiltins) Examples.cardsDown "events" ∅ Examples.freshWorld).1 with
                | Ok _ => True
                | Throw _ => False
                end) by (vm_compute; exact I).
  destruct (updateType (js := Examples.demoBuiltins) Examples.cardsDown "events" ∅ Examples.freshWorld)
    as [[results' | e] w'] eqn:Hrun; [| contradiction Hok].
  destruct (updateType_never_reports_an_error (js := Examples.demoBuiltins)
              Examples.cardsDown Examples.freshWorld
              w' "events" ∅ results' Hrun) as (r & Hres & Herr & _).
  exists results', w', r. split; [reflexivity |]. split; assumption.
Defined.

(** X9: the update of a type never serves a stale entry and never fetches
    over a valid one.  When it returns, the entry of the type is marked
    [fromCache] exactly when the cache held an entry younger than the TTL of
    the type; in that case the world is unchanged, and otherwise the cache
    now holds the fresh records, stamped with the time of return. *)
Theorem cache_is_used_exactly_when_valid (up : Upstream) `{js : Builtins}
  (w w' : World)
  (dataType : string) (results results' : gmap string TypeResult) (r : TypeResult) :
  updateType up dataType results w = (Ok results', w') ->
  results' !! dataType = Some r ->
  (fromCache r = true
   <-> exists e, getCachedData (files w) dataType = Ok (CEntry e)
                 /\ clock w - timestamp e < cacheTtlOf w dataType)
  /\ (fromCache r = true -> w' = w)
  /\ (fromCache r = false ->
      exists e, getCachedData (files w') dataType = Ok (CEntry e)
                /\ timestamp e = clock w' /\ length (data e) = count r).
Proof.
  intros Hrun Hr.
  apply updateType_cases in Hrun
    as [(e & Hcached & Hage & -> & ->)
       | (Hstale & fresh & wf & _ & _ & Hstored & ->)];
    rewrite lookup_insert_eq in Hr; injection Hr as <-; simpl.
  - split; [| split]; [| done | discriminate].
    split; [intros _; by exists e | done].
  - split; [| split]; [| discriminate |].
    + split; [discriminate |]. intros (e & Hcached & Hage).
      apply Hstale in Hcached. lia.
    + intros _. eexists. split; [exact Hstored |]. simpl.
      by rewrite length_fmap.
Qed.

Lemma cache_is_used_exactly_when_valid_witness :
  exists (results' : gmap string TypeResult) (w' : World) (r : TypeResult),
    updateType (js := Examples.demoBuiltins) Examples.cardsDown "events" ∅ Examples.freshWorld = (Ok results', w')
    /\ results' !! "events" = Some r
    /\ (fromCache r = true -> w' = Examples.freshWorld).
Proof.
  assert (Hok : match (updateType (js := Examples.demoBuiltins) Examples.cardsDown "events" ∅ Examples.freshWorld).1 with
                | Ok results' => is_Some (results' !! "events")
                | Throw _ => False
                end) by (vm_compute; eauto).
  destruct (updateType (js := Examples.demoBuiltins) Examples.cardsDown "events" ∅ Examples.freshWorld)
    as [[results' | e] w'] eqn:Hrun; [| contradiction Hok].
  destruct Hok as [r Hr].
  destruct (cache_is_used_exactly_when_valid (js := Examples.demoBuiltins)
              Examples.cardsDown Examples.freshWorld
              w' "events" ∅ results' r Hrun Hr) as (_ & Hsame & _).
  exists results', w', r. split; [reflexivity |]. split; assumption.
Defined.

(** X10: [updateFromWiki] never throws.  It returns either
    [success = true] with results that hold an entry for exactly the types
    asked for (all the types of [config.dataTypes] after discovery, when none
    are given), none of them carrying an error, or [success = false] with no
    results at all. *)
Theorem updateFromWiki_all_or_nothing (up : Upstream) `{js : Builtins} (w : World)
  (types : option (list string)) :
  let typesToUpdate :=
    default (keys (dataTypes (discoverAndCreateParsers up w).2)) types in
  exists (res : UpdateResult) (w' : World),
    updateFromWiki up types w = (Ok res, w')
    /\ match results res with
       | Some r =>
           success res = true
           /\ dom r = list_to_set typesToUpdate
           /\ forall T e, r !! T = Some e -> error e = None
       | None => success res = false
       end.
Proof.
  intros typesToUpdate. subst typesToUpdate.
  unfold updateFromWiki, try_catch, bind at 1.
  assert (Hdisc : exists l w1, discoverAndCreateParsers up w = (Ok l, w1)).
  { unfold discoverAndCreateParsers, try_catch.
    match goal with
    | |- context [match ?body w with _ => _ end] =>
        destruct (body w) as [[l | e] w1]
    end; eauto. }
  destruct Hdisc as (l & w1 & Hdisc). rewrite Hdisc. cbn [snd].
  unfold bind at 1, get. unfold bind at 1.
  destruct (for_acc (default (keys (dataTypes w1)) types) (updateType up) ∅ w1)
    as [[r | e] w2] eqn:Hloop.
  - eexists _, _. split; [reflexivity |]. simpl.
    apply updates_loop in Hloop as [Hdom Hentries].
    split; [done |]. split.
    + rewrite Hdom, dom_empty_L. set_solver.
    + intros T e He. apply Hentries in He as [He | [_ He]]; [| done].
      by rewrite lookup_empty in He.
  - eexists _, _. split; [reflexivity |]. reflexivity.
Qed.

(** ** Discovery *)

Section DiscoveryFacts.
Context (up : Upstream) {js : Builtins}.

Lemma assoc_get_set_ne {V : Type} (k k' : string) (v : V) (o : list (string * V)) :
  k' <> k -> assoc_get k' (assoc_set k v o) = assoc_get k' o.
Proof.
  intros Hne. induction o as [| [k0 v0] rest IH]; simpl.
  - by rewrite (proj2 (String.eqb_neq k k')).
  - destruct (String.eqb k0 k) eqn:E; simpl.
    + apply String.eqb_eq in E as ->.
      by rewrite (proj2 (String.eqb_neq k k')).
    + by rewrite IH.
Qed.

Lemma parsers_get_set_ne (T T' : string) (p : Parser) (ps : Parsers) :
  T' <> T -> parsers_get (parsers_set T p ps) T' = parsers_get ps T'.
Proof.
  intros Hne. unfold parsers_get, parsers_set.
  destruct (String.eqb T "default") eqn:E1, (String.eqb T' "default") eqn:E2;
    simpl; try done.
  - apply String.eqb_eq in E1, E2. congruence.
  - by rewrite lookup_insert_ne.
Qed.

Lemma unique_loop (l seen : list string) :
  NoDup seen ->
  NoDup (forEach (fun x seen => if bool_decide (x ∈ seen) then seen else seen ++ [x])
                 l seen).
Proof.
  revert seen. induction l as [| x l IH]; intros seen Hnd; [done |].
  cbn [forEach]. apply IH. case_bool_decide; [done |].
  apply NoDup_app. split; [done |]. split; [| apply NoDup_singleton].
  intros y Hy Hy'. apply list_elem_of_singleton in Hy' as ->. done.
Qed.

Lemma learnParser_frame (T : string) (sampleData : list Value) (w : World) :
  exists (r : Result Parser) (w' : World),
    learnParserForNewDataType T sampleData w = (r, w')
    /\ (w' = w \/ exists p', w' = with_parsers (parsers_set T p') w).
Proof.
  unfold learnParserForNewDataType, bind, get, lift.
  destruct sampleData as [| item rest]; [by eexists _, _; split; [| left] |].
  destruct (collectFields _) as [allFields | e];
    [| by eexists _, _; split; [| left]].
  destruct (countFields _ _) as [[cf ft] | e];
    [| by eexists _, _; split; [| left]].
  eexists _, _. split; [reflexivity |]. right. by eexists.
Qed.

(** Learning one discovered type: it cannot fail, it leaves the
    priorities and the cache alone, it touches no other type, it keeps a TTL
    that is configured, and it does nothing for a type without priorities. *)
Lemma learnNewType_frame (T : string) (w : World) :
  exists w' : World,
    learnNewType up T w = (Ok tt, w')
    /\ sourcePriorities w' = sourcePriorities w
    /\ files w' = files w
    /\ wikiSources w' = wikiSources w
    /\ (forall T', T' <> T ->
          parsers_get (parsers w') T' = parsers_get (parsers w) T'
          /\ assoc_get T' (dataTypes w') = assoc_get T' (dataTypes w))
    /\ (forall ttl, assoc_get T (dataTypes w) = Some ttl ->
          assoc_get T (dataTypes w') = Some ttl)
    /\ (sourcePriorities w !! T = None \/ sourcePriorities w !! T = Some [] ->
        parsers w' = parsers w /\ dataTypes w' = dataTypes w).
Proof.
  unfold learnNewType, try_catch, bind at 1.
  destruct (getDataFromPrioritizedSources_frame up T (via (getSample T 10)) w)
    as (r & w1 & n & Hrun & (U1 & U2 & U3 & U4 & U5) & _ & _ & _ & Hcase).
  rewrite Hrun.
  destruct r as [sampleData | e].
  - destruct Hcase as (Hn & _ & Hsrc & _).
    assert (Hconfigured :
      ~ (sourcePriorities w !! T = None \/ sourcePriorities w !! T = Some [])).
    { intros [H | H]; rewrite H in Hn; simpl in Hn; lia. }
    unfold bind at 1.
    destruct (learnParser_frame T (items sampleData) w1) as (r & w2 & Hlearn & Hw2).
    rewrite Hlearn.
    assert (Hp : forall T', T' <> T ->
              parsers_get (parsers w2) T' = parsers_get (parsers w) T').
    { intros T' Hne. destruct Hw2 as [-> | [p' ->]]; simpl; rewrite ?U2; [done |].
      by apply parsers_get_set_ne. }
    assert (Hrest : sourcePriorities w2 = sourcePriorities w
                    /\ files w2 = files w /\ wikiSources w2 = wikiSources w
                    /\ dataTypes w2 = dataTypes w).
    { destruct Hw2 as [-> | [p' ->]]; simpl; auto. }
    destruct Hrest as (R1 & R2 & R3 & R4).
    assert (Hkept : exists w' : World,
              (Ok tt, w2) = (Ok tt, w')
              /\ sourcePriorities w' = sourcePriorities w
              /\ files w' = files w
              /\ wikiSources w' = wikiSources w
              /\ (forall T', T' <> T ->
                    parsers_get (parsers w') T' = parsers_get (parsers w) T'
                    /\ assoc_get T' (dataTypes w') = assoc_get T' (dataTypes w))
              /\ (forall ttl, assoc_get T (dataTypes w) = Some ttl ->
                    assoc_get T (dataTypes w') = Some ttl)
              /\ (sourcePriorities w !! T = None \/ sourcePriorities w !! T = Some [] ->
                  parsers w' = parsers w /\ dataTypes w' = dataTypes w)).
    { exists w2. split; [reflexivity |].
      repeat split; try done.
      - by apply Hp.
      - by rewrite R4.
      - intros ttl' H. by rewrite R4. }
    destruct r as [p | e]; [| exact Hkept].
    unfold bind, get.
    destruct (assoc_get T (dataTypes w2)) as [ttl |] eqn:Httl; [exact Hkept |].
    destruct (inherited T); [exact Hkept |]. clear Hkept.
    eexists. split; [reflexivity |]. simpl. rewrite R4 in *.
    repeat split; try done.
    + by apply Hp.
    + by apply assoc_get_set_ne.
    + intros ttl' H. congruence.
  - exists w1. split; [reflexivity |]. repeat split; try done; congruence.
Qed.

Lemma learning_loop (newTypes : list string) :
  forall w : World,
  exists w' : World,
    for_of newTypes (learnNewType up) w = (Ok tt, w')
    /\ sourcePriorities w' = sourcePriorities w
    /\ files w' = files w
    /\ wikiSources w' = wikiSources w
    /\ (forall T, T ∉ newTypes ->
          parsers_get (parsers w') T = parsers_get (parsers w) T
          /\ assoc_get T (dataTypes w') = assoc_get T (dataTypes w))
    /\ (forall T ttl, assoc_get T (dataTypes w) = Some ttl ->
          assoc_get T (dataTypes w') = Some ttl)
    /\ (forall T,
          sourcePriorities w !! T = None \/ sourcePriorities w !! T = Some [] ->
          parsers_get (parsers w') T = parsers_get (parsers w) T
          /\ assoc_get T (dataTypes w') = assoc_get T (dataTypes w)).
Proof.
  induction newTypes as [| type rest IH]; intros w.
  - exists w. by repeat split.
  - destruct (learnNewType_frame type w)
      as (w1 & Hone & S1 & F1 & W1 & Hother1 & Httl1 & Hnone1).
    destruct (IH w1) as (w' & Hloop & S2 & F2 & W2 & Hother2 & Httl2 & Hnone2).
    exists w'. split; [cbn [for_of]; unfold bind; by rewrite Hone |].
    split; [congruence |]. split; [congruence |]. split; [congruence |].
    split; [| split].
    + intros T HT. apply not_elem_of_cons in HT as [Hne HT].
      destruct (Hother2 T HT) as [-> ->]. by apply Hother1.
    + intros T ttl H. destruct (decide (T = type)) as [-> | Hne].
      * by apply Httl2, Httl1.
      * apply Httl2. by rewrite (proj2 (Hother1 T Hne)).
    + intros T HT.
      assert (HT1 : sourcePriorities w1 !! T = None
                    \/ sourcePriorities w1 !! T = Some []) by (by rewrite S1).
      destruct (Hnone2 T HT1) as [-> ->].
      destruct (decide (T = type)) as [-> | Hne].
      * destruct (Hnone1 HT) as [-> ->]. done.
      * by apply Hother1.
Qed.

Lemma availableTypesOrNone_run (a : Adapter) (w : World) :
  availableTypesOrNone up a w
  = (Ok match availableDataTypes up a with
        | Ok types => types
        | Throw _ => []
        end,
     with_calls (fun cs => cs ++ [(a, getAvailableDataTypes)]) w).
Proof.
  unfold availableTypesOrNone, bind, modify.
  by destruct (availableDataTypes up a).
Qed.

(** Discovery is the two listings, then the learning loop over the types
    that have no parser. *)
Lemma discover_run (w : World) :
  exists (newTypes : list string) (w0 w' : World),
    discoverAndCreateParsers up w = (Ok newTypes, w')
    /\ for_of newTypes (learnNewType up) w0 = (Ok tt, w')
    /\ sourcePriorities w0 = sourcePriorities w
    /\ files w0 = files w
    /\ wikiSources w0 = wikiSources w
    /\ parsers w0 = parsers w
    /\ dataTypes w0 = dataTypes w
    /\ NoDup newTypes
    /\ forall T, T ∈ newTypes -> parsers_get (parsers w) T = None.
Proof.
  unfold discoverAndCreateParsers, try_catch, bind at 1.
  rewrite availableTypesOrNone_run. unfold bind at 1.
  rewrite availableTypesOrNone_run. unfold bind at 1, get. unfold bind at 1.
  match goal with
  | |- context [for_of ?l _ ?w0] =>
      destruct (learning_loop l w0) as (w' & Hloop & _); exists l, w0, w'
  end.
  split; [by rewrite Hloop |]. split; [exact Hloop |].
  do 5 (split; [reflexivity |]). split.
  - apply NoDup_filter, unique_loop, NoDup_nil_2.
  - intros T HT. by apply list_elem_of_filter in HT as [[HT _] _].
Qed.

End DiscoveryFacts.

(** X11: [discoverAndCreateParsers] never throws, and it only adds: the
    types it returns are distinct and had no parser, every parser that was
    registered is still registered as it was, every TTL that was configured
    is still the same, and the priorities and the cache are untouched. *)
Theorem discovery_only_adds (up : Upstream) `{js : Builtins} (w : World) :
  exists (newTypes : list string) (w' : World),
    discoverAndCreateParsers up w = (Ok newTypes, w')
    /\ NoDup newTypes
    /\ (forall T, T ∈ newTypes -> parsers_get (parsers w) T = None)
    /\ (forall T p, parsers_get (parsers w) T = Some p ->
          parsers_get (parsers w') T = Some p)
    /\ (forall T ttl, assoc_get T (dataTypes w) = Some ttl ->
          assoc_get T (dataTypes w') = Some ttl)
    /\ sourcePriorities w' = sourcePriorities w
    /\ files w' = files w.
Proof.
  destruct (discover_run up w)
    as (newTypes & w0 & w' & Hrun & Hloop & S0 & F0 & _ & P0 & D0 & Hnd & Hnew).
  destruct (learning_loop up newTypes w0)
    as (w1 & Hloop' & S1 & F1 & _ & Hother & Httl & _).
  rewrite Hloop in Hloop'. injection Hloop' as <-.
  exists newTypes, w'. split; [exact Hrun |]. split; [exact Hnd |].
  split; [exact Hnew |]. split; [| split; [| split; congruence]].
  - intros T p Hp.
    assert (HT : T ∉ newTypes) by (intros HT; apply Hnew in HT; congruence).
    destruct (Hother T HT) as [-> _]. by rewrite P0.
  - intros T ttl H. apply Httl. by rewrite D0.
Qed.

(** X12: discovery cannot learn a type that has no source priority list:
    whatever the adapters list and deliver, after discovery such a type has
    the parser and the TTL it had before, that is, in general, none. *)
Theorem discovery_needs_priorities (up : Upstream) `{js : Builtins} (w : World)
  (T : string) :
  sourcePriorities w !! T = None \/ sourcePriorities w !! T = Some [] ->
  let w' := (discoverAndCreateParsers up w).2 in
  parsers_get (parsers w') T = parsers_get (parsers w) T
  /\ assoc_get T (dataTypes w') = assoc_get T (dataTypes w).
Proof.
  intros HT.
  destruct (discover_run up w)
    as (newTypes & w0 & w' & Hrun & Hloop & S0 & F0 & _ & P0 & D0 & Hnd & Hnew).
  destruct (learning_loop up newTypes w0)
    as (w1 & Hloop' & _ & _ & _ & _ & _ & Hnone).
  rewrite Hloop in Hloop'. injection Hloop' as <-.
  cbv zeta. rewrite Hrun. cbn [snd]. rewrite <- P0, <- D0.
  apply Hnone. by rewrite S0.
Qed.

(** Both adapters list [banners] and would deliver samples of it, but the
    updater has no priority list for it: no parser is learned. *)
Lemma discovery_needs_priorities_witness :
  let w' := (discoverAndCreateParsers (js := Examples.demoBuiltins)
               Examples.bannersEverywhere Examples.freshWorld).2 in
  parsers_get (parsers w') "banners" = parsers_get (parsers Examples.freshWorld) "banners"
  /\ assoc_get "banners" (dataTypes w')
     = assoc_get "banners" (dataTypes Examples.freshWorld).
Proof.
  apply (discovery_needs_priorities (js := Examples.demoBuiltins)
           Examples.bannersEverywhere Examples.freshWorld "banners").
  left. vm_compute. reflexivity.
Defined.

(** ** What the re-ranking keeps and drops *)

Section RescoringFacts.
Context (up : Upstream) {js : Builtins}.

Lemma sampleFreshness_frame (dataType source : string) (w : World) :
  exists w' : World,
    sampleFreshness up dataType source w = (Ok (sampled up dataType source), w')
    /\ parsers w' = parsers w
    /\ files w' = files w
    /\ wikiSources w' = wikiSources w
    /\ calls w' = calls w ++ [via (getSample dataType 5) source].
Proof.
  destruct (respectRateLimit_run source w) as [d Hwait].
  unfold sampleFreshness, try_catch, bind at 1. rewrite Hwait.
  unfold bind, invoke, Date_now, modify, lift, ret, sampled.
  destruct (outcome (respond up (adapterFor source, getSample dataType 5)))
    as [sampleData | e].
  - destruct (calculateFreshnessScore sampleData) as [score | e];
      eexists; (split; [reflexivity | by repeat split]).
  - eexists. split; [reflexivity | by repeat split].
Qed.

Lemma freshness_loop_frame (dataType : string) (sources : list string) :
  forall (acc : list (string * Num)) (w : World),
  exists (table : list (string * Num)) (w' : World),
    for_acc sources
      (fun source freshness =>
         score <- sampleFreshness up dataType source ;;
         ret (assoc_set source score freshness))
      acc w
    = (Ok table, w')
    /\ parsers w' = parsers w
    /\ files w' = files w
    /\ wikiSources w' = wikiSources w
    /\ calls w' = calls w ++ (via (getSample dataType 5) <$> sources).
Proof.
  induction sources as [| source rest IH]; intros acc w.
  - exists acc, w. repeat split. by rewrite app_nil_r.
  - destruct (sampleFreshness_frame dataType source w)
      as (w1 & Hrun & P1 & F1 & S1 & C1).
    destruct (IH (assoc_set source (sampled up dataType source) acc) w1)
      as (table & w' & Hloop & P2 & F2 & S2 & C2).
    exists table, w'. split.
    { cbn [for_acc]. unfold bind at 1. unfold bind at 1.
      rewrite Hrun. unfold ret at 1. exact Hloop. }
    repeat split; try congruence.
    rewrite C2, C1, <- app_assoc. reflexivity.
Qed.

Lemma updatePrioritiesFor_frame (dataType : string) (w : World) :
  exists w' : World,
    updatePrioritiesFor up dataType w = (Ok tt, w')
    /\ parsers w' = parsers w
    /\ files w' = files w
    /\ wikiSources w' = wikiSources w
    /\ calls w' = calls w ++ (via (getSample dataType 5) <$> keys (wikiSources w)).
Proof.
  destruct (freshness_loop_frame dataType (keys (wikiSources w)) [] w)
    as (table & w1 & Hloop & P1 & F1 & S1 & C1).
  unfold updatePrioritiesFor, try_catch, bind at 1, get.
  unfold bind at 1. rewrite Hloop.
  destruct (bool_decide _); eexists; (split; [reflexivity | by repeat split]).
Qed.

Lemma updatePriorities_loop_frame (types : list string) :
  forall w : World,
  exists w' : World,
    for_of types (updatePrioritiesFor up) w = (Ok tt, w')
    /\ parsers w' = parsers w
    /\ files w' = files w
    /\ wikiSources w' = wikiSources w
    /\ calls w'
       = calls w
         ++ flat_map (fun dataType =>
                        via (getSample dataType 5) <$> keys (wikiSources w))
                     types.
Proof.
  induction types as [| type rest IH]; intros w.
  - exists w. repeat split. by rewrite app_nil_r.
  - destruct (updatePrioritiesFor_frame type w) as (w1 & Hrun & P1 & F1 & S1 & C1).
    destruct (IH w1) as (w' & Hloop & P2 & F2 & S2 & C2).
    exists w'. split; [cbn [for_of]; unfold bind; by rewrite Hrun |].
    repeat split; try congruence.
    rewrite C2, C1, S1, <- app_assoc. reflexivity.
Qed.

(** The new list of a type is made of the configured sources with a usable
    score, each once. *)
Lemma ranked_spec (sources : list string) (dataType : string) :
  NoDup sources ->
  NoDup (ranked up sources dataType)
  /\ forall s, s ∈ ranked up sources dataType
               <-> s ∈ sources /\ nge0 (sampled up dataType s) = true.
Proof.
  intros Hnd. unfold ranked. rewrite rankSources_table by done.
  split.
  - rewrite Array_sort_perm. by apply NoDup_filter.
  - intros s. rewrite Array_sort_perm, list_elem_of_filter. unfold usable. tauto.
Qed.

End RescoringFacts.

(** X15: a sample that is empty or falsy scores 0, and 0 passes the
    filter: unlike in the prioritized fetch, a source that has nothing to
    show is not passed over by the re-ranking, it is in the new priority
    list of the type. *)
Theorem empty_sample_keeps_the_source (up : Upstream) `{js : Builtins} (w : World)
  (dataType source : string) (sampleData : Raw) :
  NoDup (keys (wikiSources w)) ->
  dataType ∈ keys (dataTypes w) ->
  source ∈ keys (wikiSources w) ->
  outcome (respond up (adapterFor source, getSample dataType 5)) = Ok sampleData ->
  noData sampleData = true ->
  exists newPriorities,
    sourcePriorities (updateSourcePriorities up w).2 !! dataType = Some newPriorities
    /\ source ∈ newPriorities.
Proof.
  intros Hnd Htype Hsource Hsample Hempty.
  destruct (updatePriorities_loop up (keys (dataTypes w)) w)
    as (w' & Hrun & _ & Hprio).
  unfold updateSourcePriorities, bind, get. rewrite Hrun. cbn [snd].
  assert (Hin : source ∈ ranked up (keys (wikiSources w)) dataType).
  { apply ranked_spec; [done |]. split; [done |].
    unfold sampled. rewrite Hsample. unfold calculateFreshnessScore.
    unfold noData in Hempty. apply orb_true_iff in Hempty as [Hfalsy | Hnil].
    - by rewrite Hfalsy.
    - destruct sampleData as [| | | | | | [| x l] | |]; try discriminate Hnil.
      reflexivity. }
  rewrite Hprio. rewrite bool_decide_eq_true_2 by done.
  destruct (ranked up (keys (wikiSources w)) dataType) as [| s l] eqn:E.
  - by apply elem_of_nil in Hin.
  - by exists (s :: l).
Qed.

Lemma empty_sample_keeps_the_source_witness :
  exists newPriorities,
    sourcePriorities
      (updateSourcePriorities (js := Examples.demoBuiltins)
         Examples.staleFandom Examples.freshWorld).2 !! "events" = Some newPriorities
    /\ "dokkanInfo" ∈ newPriorities.
Proof.
  apply (empty_sample_keeps_the_source (js := Examples.demoBuiltins)
           Examples.staleFandom Examples.freshWorld "events" "dokkanInfo"
           (VArr [])).
  - vm_compute. repeat constructor; rewrite ?elem_of_cons, ?elem_of_nil;
      intuition discriminate.
  - vm_compute. apply list_elem_of_further, list_elem_of_here.
  - vm_compute. apply list_elem_of_further, list_elem_of_here.
  - reflexivity.
  - reflexivity.
Defined.

(** X16: a sample that is a single record instead of an array, and has no
    [length] field (and no function for a field [filter]), makes the scoring
    throw: the source gets -1 like one whose fetch failed, and is in no list
    the re-ranking writes. *)
Theorem single_record_sample_drops_the_source (up : Upstream) `{js : Builtins}
  (w : World) (dataType source : string) (item : Item) :
  NoDup (keys (wikiSources w)) ->
  outcome (respond up (adapterFor source, getSample dataType 5))
  = Ok (VObj item) ->
  item !! "length" = None ->
  (forall name, item !! "filter" <> Some (VNative name)) ->
  let w' := (updateSourcePriorities up w).2 in
  sampled up dataType source = num_of_Z (-1)
  /\ (sourcePriorities w' !! dataType = sourcePriorities w !! dataType
      \/ exists newPriorities,
           sourcePriorities w' !! dataType = Some newPriorities
           /\ source ∉ newPriorities).
Proof.
  intros Hnd Hsample Hlength Hfilter.
  assert (Hscore : sampled up dataType source = num_of_Z (-1)).
  { unfold sampled. rewrite Hsample.
    unfold calculateFreshnessScore, lengthIsZero, prop. cbn [truthy negb].
    rewrite Hlength. cbn.
    destruct (item !! "filter") as [[] |] eqn:E; try reflexivity.
    by destruct (Hfilter name). }
  split; [exact Hscore |].
  destruct (updatePriorities_loop up (keys (dataTypes w)) w)
    as (w' & Hrun & _ & Hprio).
  unfold updateSourcePriorities, bind, get. rewrite Hrun. cbn [snd].
  rewrite Hprio. destruct (bool_decide _); [| by left].
  destruct (ranked up (keys (wikiSources w)) dataType) as [| s l] eqn:E; [by left |].
  right. exists (s :: l). split; [done |]. rewrite <- E.
  intros Hin. apply ranked_spec in Hin as [_ Hin]; [| done].
  rewrite Hscore in Hin. discriminate Hin.
Qed.

Lemma single_record_sample_drops_the_source_witness :
  let w' := (updateSourcePriorities (js := Examples.demoBuiltins)
               Examples.wrappedSamples Examples.freshWorld).2 in
  sampled (js := Examples.demoBuiltins) Examples.wrappedSamples "cards" "dokkanInfo"
  = num_of_Z (-1)
  /\ (sourcePriorities w' !! "cards" = sourcePriorities Examples.freshWorld !! "cards"
      \/ exists newPriorities,
           sourcePriorities w' !! "cards" = Some newPriorities
           /\ "dokkanInfo" ∉ newPriorities).
Proof.
  apply (single_record_sample_drops_the_source (js := Examples.demoBuiltins)
           Examples.wrappedSamples Examples.freshWorld "cards" "dokkanInfo"
           Examples.goku).
  - vm_compute. repeat constructor; rewrite ?elem_of_cons, ?elem_of_nil;
      intuition discriminate.
  - reflexivity.
  - reflexivity.
  - intros name. vm_compute. discriminate.
Defined.

(** X17: re-ranking writes priority lists and nothing else of the setup: it
    returns normally whatever the sources answer, leaves the parsers, the
    cache files and the source table as they are, and keeps the list of
    every type that is not a configured data type. *)
Theorem rescoring_touches_only_priorities (up : Upstream) `{js : Builtins}
  (w : World) :
  exists w' : World,
    updateSourcePriorities up w = (Ok tt, w')
    /\ parsers w' = parsers w
    /\ files w' = files w
    /\ wikiSources w' = wikiSources w
    /\ forall dataType,
         dataType ∉ keys (dataTypes w) ->
         sourcePriorities w' !! dataType = sourcePriorities w !! dataType.
Proof.
  destruct (updatePriorities_loop_frame up (keys (dataTypes w)) w)
    as (w' & Hrun & P & F & S & _).
  destruct (updatePriorities_loop up (keys (dataTypes w)) w)
    as (w'' & Hrun' & _ & Hprio).
  rewrite Hrun in Hrun'. injection Hrun' as <-.
  exists w'. unfold updateSourcePriorities, bind, get.
  repeat split; try done.
  intros dataType Hout. rewrite Hprio. by rewrite bool_decide_eq_false_2.
Qed.

(** X18: re-ranking asks every configured source for a sample of five of
    every configured data type, type by type and source by source, one
    request each, whether the requests fail or not. *)
Theorem rescoring_samples_every_source (up : Upstream) `{js : Builtins}
  (w : World) :
  calls (updateSourcePriorities up w).2
  = calls w
    ++ flat_map (fun dataType =>
                   via (getSample dataType 5) <$> keys (wikiSources w))
                (keys (dataTypes w)).
Proof.
  destruct (updatePriorities_loop_frame up (keys (dataTypes w)) w)
    as (w' & Hrun & _ & _ & _ & Hcalls).
  unfold updateSourcePriorities, bind, get. by rewrite Hrun.
Qed.

(** ** The handlers of the server and the cache *)

Section ServerFacts.
Context (up : Upstream) {js : Builtins}.

Lemma getCachedData_ok (fs : Store) (key : string) :
  exists c : Cached, getCachedData fs key = Ok c.
Proof.
  unfold getCachedData, readFile.
  destruct (nodes fs !! filepath key) as [[[[| v] |] ? ?] |]; eexists; reflexivity.
Qed.

(** What [cacheData] does to the file system: it touches the file of the
    key only; when it resolves the entry reads back, and it rejects only for
    a file that cannot be written. *)
Lemma cacheData_frame (fs fs' : Store) (key : string) (e : CacheEntry)
  (r : Result unit) :
  cacheData fs key e = (r, fs') ->
  (forall path, path <> filepath key -> nodes fs' !! path = nodes fs !! path)
  /\ match r with
     | Ok _ =>
         getCachedData fs' key
         = Ok (CEntry (mkEntry (jsonElement <$> data e) (timestamp e)
                               (DataManager.source e)))
     | Throw _ =>
         onWrite (default (created fs (filepath key)) (nodes fs !! filepath key))
         <> Stored
     end.
Proof.
  intros Hwrite. split.
  - unfold cacheData, writeFile in Hwrite.
    destruct (onWrite _); injection Hwrite as _ <-; intros path Hne;
      unfold with_nodes; simpl; by rewrite ?lookup_insert_ne.
  - destruct r as [[] | err]; [exact (cacheData_stored fs fs' key e Hwrite) |].
    unfold cacheData, writeFile in Hwrite.
    by destruct (onWrite _).
Qed.

(** Each handler is the shared body at its key, age and fetch, and its
    fetch is the one [updateFromWiki] uses for the key. *)
Lemma endpoint_unfold (ep : Endpoint) :
  ep ∈ cachedHandlers up ->
  handle ep
  = Server.cachedOr (cacheKey ep) (maxAge ep)
      (getDataFromPrioritizedSources up (cacheKey ep) (via (method ep)))
  /\ fetchFresh up (cacheKey ep)
     = getDataFromPrioritizedSources up (cacheKey ep) (via (method ep)).
Proof.
  unfold cachedHandlers. intros H.
  repeat (apply elem_of_cons in H as [-> | H]; [by split |]).
  by apply elem_of_nil in H.
Qed.

Lemma cachedOr_hit (key : string) (ttl : Z) (fetch : M Parsed) (w : World)
  (e : CacheEntry) :
  getCachedData (files w) key = Ok (CEntry e) ->
  clock w - timestamp e < ttl ->
  Server.cachedOr key ttl fetch w = (Ok (data e), w).
Proof.
  intros Hcached Hfresh.
  unfold Server.cachedOr, bind, get, lift, Date_now. rewrite Hcached.
  unfold stillValid. apply Z.ltb_lt in Hfresh. by rewrite Hfresh.
Qed.

(** The two ways through a handler: the entry is served and nothing
    changes, or the sources are asked and the cache is written. *)
Lemma cachedOr_run (key : string) (ttl : Z) (fetchFn : string -> Call) (w : World) :
  (exists e,
     getCachedData (files w) key = Ok (CEntry e)
     /\ clock w - timestamp e < ttl
     /\ Server.cachedOr key ttl (getDataFromPrioritizedSources up key fetchFn) w
        = (Ok (data e), w))
  \/ ((forall e, getCachedData (files w) key = Ok (CEntry e) ->
         ttl <= clock w - timestamp e)
      /\ exists (r : Result (list Value)) (w' : World) (n : nat),
           Server.cachedOr key ttl (getDataFromPrioritizedSources up key fetchFn) w
           = (r, w')
           /\ calls w'
              = calls w ++ (fetchFn <$> take n (default [] (sourcePriorities w !! key)))
           /\ (default [] (sourcePriorities w !! key) <> [] -> (0 < n)%nat)
           /\ (forall path, path <> filepath key ->
                 nodes (files w') !! path = nodes (files w) !! path)
           /\ dataTypes w' = dataTypes w
           /\ match r with
              | Ok cards =>
                  cards <> []
                  /\ getCachedData (files w') key
                     = Ok (CEntry (mkEntry (jsonElement <$> cards) (clock w') ""))
              | Throw _ =>
                  files w' = files w
                  \/ onWrite (default (created (files w) (filepath key))
                                      (nodes (files w) !! filepath key))
                     <> Stored
              end).
Proof.
  destruct (getCachedData_ok (files w) key) as [c Hc].
  destruct (stillValid c (clock w) ttl) as [e |] eqn:Hvalid.
  { left. exists e. unfold stillValid in Hvalid.
    destruct c as [| e']; [discriminate Hvalid |].
    destruct (_ <? _) eqn:Hlt; [| discriminate Hvalid].
    injection Hvalid as ->. apply Z.ltb_lt in Hlt.
    split; [done |]. split; [done |]. by apply cachedOr_hit. }
  right. split.
  { intros e He. rewrite Hc in He. injection He as ->.
    unfold stillValid in Hvalid.
    destruct (_ <? _) eqn:Hlt; [discriminate Hvalid |]. by apply Z.ltb_ge in Hlt. }
  destruct (getDataFromPrioritizedSources_frame up key fetchFn w)
    as (r & wf & n & Hrun & Hun & _ & Hcalls & _ & Hr).
  destruct Hun as (_ & _ & Hfiles & Htypes & _).
  unfold Server.cachedOr, bind at 1, get. unfold bind at 1, lift. rewrite Hc.
  unfold bind at 1, Date_now. rewrite Hvalid. unfold bind at 1. rewrite Hrun.
  destruct r as [fresh | err].
  - destruct Hr as (Hn & Hitems & _).
    unfold bind, Date_now, store, ret.
    destruct (cacheData (files wf) key (mkEntry (items fresh) (clock wf) ""))
      as [rw fs'] eqn:Hstore.
    destruct (cacheData_frame _ _ _ _ _ Hstore) as [Hother Hown].
    rewrite Hfiles in Hother, Hown.
    destruct rw as [[] | err].
    + eexists _, _, n. split; [reflexivity |].
      split; [exact Hcalls |]. split; [intros _; lia |].
      split; [exact Hother |]. split; [exact Htypes |].
      split; [exact Hitems | exact Hown].
    + eexists _, _, n. split; [reflexivity |].
      split; [exact Hcalls |]. split; [intros _; lia |].
      split; [exact Hother |]. split; [exact Htypes |]. by right.
  - eexists _, _, n. split; [reflexivity |].
    split; [exact Hcalls |].
    split; [subst n; destruct (default [] _); [done | simpl; lia] |].
    split; [intros path _; by rewrite Hfiles |]. split; [exact Htypes |].
    by left.
Qed.

Lemma storeFresh_calls (dataType : string) (fresh : Parsed)
  (results : gmap string TypeResult) (w : World) :
  calls (storeFresh dataType fresh results w).2 = calls w.
Proof.
  unfold storeFresh. destruct (bool_decide _); [| reflexivity].
  unfold bind, Date_now, store, ret.
  by destruct (cacheData _ _ _) as [[[] | err] fs'].
Qed.

(** Without a valid entry [updateFromWiki] fetches. *)
Lemma updateType_miss (dataType : string) (results : gmap string TypeResult)
  (w : World) :
  (forall e, getCachedData (files w) dataType = Ok (CEntry e) ->
     cacheTtlOf w dataType <= clock w - timestamp e) ->
  updateType up dataType results w
  = (fresh <- fetchFresh up dataType ;; storeFresh dataType fresh results) w.
Proof.
  intros Hold.
  destruct (getCachedData_ok (files w) dataType) as [c Hc].
  unfold updateType, bind at 1, get. unfold bind at 1, lift. rewrite Hc.
  unfold bind at 1, Date_now.
  destruct c as [| e]; [reflexivity |].
  unfold stillValid. specialize (Hold e Hc). apply Z.ltb_ge in Hold.
  by rewrite Hold.
Qed.

End ServerFacts.

(** X19: what [updateFromWiki] fetched and cached for a type, the handler
    of that type serves from the cache without a request, for as long as
    the handler's own age limit allows: it serves the records as they read
    back from the JSON file (a Date as its ISO string), not the records as
    they were fetched. *)
Theorem handlers_serve_what_the_updater_cached (up : Upstream) `{js : Builtins}
  (ep : Endpoint) (w w1 : World) (results results1 : gmap string TypeResult)
  (r : TypeResult) (later : Z) :
  ep ∈ cachedHandlers up ->
  updateType up (cacheKey ep) results w = (Ok results1, w1) ->
  results1 !! cacheKey ep = Some r ->
  fromCache r = false ->
  later < maxAge ep ->
  let w2 := with_clock (fun t => t + later) w1 in
  exists (fresh : Parsed) (wf : World),
    getDataFromPrioritizedSources up (cacheKey ep) (via (method ep)) w = (Ok fresh, wf)
    /\ length (items fresh) = count r
    /\ handle ep w2 = (Ok (jsonElement <$> items fresh), w2).
Proof.
  intros Hep Hrun Hr Hfrom Hlater w2.
  destruct (endpoint_unfold up ep Hep) as [Hbody Hfetch].
  apply updateType_cases in Hrun
    as [(e & _ & _ & _ & ->) | (_ & fresh & wf & Hfresh & _ & Hcached & ->)];
    rewrite lookup_insert_eq in Hr; injection Hr as <-; [discriminate Hfrom |].
  rewrite Hfetch in Hfresh.
  exists fresh, wf. split; [exact Hfresh |]. split; [reflexivity |].
  rewrite Hbody.
  rewrite (cachedOr_hit (cacheKey ep) (maxAge ep)
             (getDataFromPrioritizedSources up (cacheKey ep) (via (method ep))) w2
             _ Hcached); [reflexivity |].
  unfold w2. simpl. lia.
Qed.

(** DokkanInfo delivers one event with a start date; [updateFromWiki]
    caches it, and 50 minutes later the handler serves it with the date as
    a string. *)
Lemma handlers_serve_what_the_updater_cached_witness :
  exists (w1 : World),
    let w2 := with_clock (fun t => t + 3000000) w1 in
    (updateType (js := Examples.demoBuiltins) Examples.datedEvents "events" ∅
       Examples.freshWorld).2 = w1
    /\ Server.getEvents (js := Examples.demoBuiltins) Examples.datedEvents w2
       = (Ok [VObj {[ "title" := VStr "Goku's Birthday";
                      "startDate" := VStr "date:86400000";
                      "endDate" := VStr "date:5060" ]}], w2).
Proof.
  assert (Hr : match (updateType (js := Examples.demoBuiltins) Examples.datedEvents
                        "events" ∅ Examples.freshWorld).1 with
               | Ok results1 => results1 !! "events"
               | Throw _ => None
               end = Some (mkTypeResult 1 false (Some "dokkanInfo") None)).
  { vm_compute. reflexivity. }
  destruct (updateType (js := Examples.demoBuiltins) Examples.datedEvents
              "events" ∅ Examples.freshWorld)
    as [[results1 | e] w1] eqn:Hfirst; [| discriminate Hr].
  destruct (handlers_serve_what_the_updater_cached (js := Examples.demoBuiltins)
              Examples.datedEvents
              (mkEndpoint "events" 3600000 getEvents
                 (Server.getEvents (js := Examples.demoBuiltins) Examples.datedEvents))
              Examples.freshWorld w1 ∅ results1
              (mkTypeResult 1 false (Some "dokkanInfo") None) 3000000
              (list_elem_of_further _ _ _ (list_elem_of_here _ _))
              Hfirst Hr eq_refl eq_refl)
    as (fresh & wf & Hfresh & _ & Hserved).
  exists w1. split; [reflexivity |].
  cbn [handle] in Hserved. rewrite Hserved. f_equal. f_equal.
  assert (Hitems :
    match (getDataFromPrioritizedSources (js := Examples.demoBuiltins)
             Examples.datedEvents "events" (via getEvents) Examples.freshWorld).1 with
    | Ok fresh => jsonElement (js := Examples.demoBuiltins) <$> items fresh
    | Throw _ => []
    end
    = [VObj {[ "title" := VStr "Goku's Birthday";
               "startDate" := VStr "date:86400000";
               "endDate" := VStr "date:5060" ]}]).
  { vm_compute. reflexivity. }
  cbn [cacheKey method] in Hfresh. rewrite Hfresh in Hitems. exact Hitems.
Defined.

(** X20: and the other way round: what a handler fetched and cached, a
    later [updateFromWiki] of that type reports as served from the cache,
    with the same number of records, for as long as the type's configured
    TTL allows. *)
Theorem updater_serves_what_a_handler_cached (up : Upstream) `{js : Builtins}
  (ep : Endpoint) (w w1 : World) (cards : list Value)
  (results : gmap string TypeResult) (later : Z) :
  ep ∈ cachedHandlers up ->
  handle ep w = (Ok cards, w1) ->
  (length (calls w) < length (calls w1))%nat ->
  later < cacheTtlOf w1 (cacheKey ep) ->
  let w2 := with_clock (fun t => t + later) w1 in
  updateType up (cacheKey ep) results w2
  = (Ok (<[cacheKey ep := mkTypeResult (length cards) true None None]> results), w2).
Proof.
  intros Hep Hrun Hcalls Hlater w2.
  destruct (endpoint_unfold up ep Hep) as [Hbody _]. rewrite Hbody in Hrun.
  destruct (cachedOr_run up (cacheKey ep) (maxAge ep) (via (method ep)) w)
    as [(e & _ & _ & Hhit) | (_ & r & w' & n & Hmiss & _ & _ & _ & _ & Hr)].
  { rewrite Hhit in Hrun. injection Hrun as _ <-. lia. }
  rewrite Hmiss in Hrun. injection Hrun as -> ->.
  destruct Hr as [_ Hcached].
  rewrite (updateType_hit up w2 (cacheKey ep) results _ Hcached);
    [simpl; by rewrite length_fmap |].
  unfold w2. simpl.
  change (cacheTtlOf (with_clock (fun t => t + later) w1) (cacheKey ep))
    with (cacheTtlOf w1 (cacheKey ep)).
  lia.
Qed.

Lemma updater_serves_what_a_handler_cached_witness :
  exists (cards : list Value) (w1 : World),
    Server.getEvents (js := Examples.demoBuiltins) Examples.cardsDown
      Examples.freshWorld = (Ok cards, w1)
    /\ let w2 := with_clock (fun t => t + 1740000) w1 in
       updateType (js := Examples.demoBuiltins) Examples.cardsDown "events" ∅ w2
       = (Ok (<["events" := mkTypeResult (length cards) true None None]> ∅), w2).
Proof.
  assert (Hok : match (Server.getEvents (js := Examples.demoBuiltins)
                         Examples.cardsDown Examples.freshWorld).1 with
                | Ok _ => True
                | Throw _ => False
                end) by (vm_compute; exact I).
  assert (Hcalls : (length (calls Examples.freshWorld)
                    < length (calls (Server.getEvents (js := Examples.demoBuiltins)
                                       Examples.cardsDown Examples.freshWorld).2))%nat).
  { vm_compute. lia. }
  assert (Hlater : 1740000
                   < cacheTtlOf
                       (Server.getEvents (js := Examples.demoBuiltins)
                          Examples.cardsDown Examples.freshWorld).2
                       "events").
  { vm_compute. reflexivity. }
  destruct (Server.getEvents (js := Examples.demoBuiltins) Examples.cardsDown
              Examples.freshWorld)
    as [[cards | e] w1] eqn:Hrun; [| contradiction Hok].
  exists cards, w1. split; [reflexivity |].
  apply (updater_serves_what_a_handler_cached (js := Examples.demoBuiltins)
           Examples.cardsDown
           (mkEndpoint "events" 3600000 getEvents
              (Server.getEvents (js := Examples.demoBuiltins) Examples.cardsDown))
           Examples.freshWorld w1 cards ∅ 1740000).
  - unfold cachedHandlers. apply list_elem_of_further, list_elem_of_here.
  - exact Hrun.
  - exact Hcalls.
  - exact Hlater.
Defined.

(** X21: the two age limits of the events differ.  With the configured TTL
    of 30 minutes, an entry between 30 and 60 minutes old is still served by
    the [getEvents] handler, with no request and no change, while
    [updateFromWiki] no longer trusts it and goes to the sources. *)
Theorem events_outlive_their_ttl_in_the_handler (up : Upstream) `{js : Builtins}
  (w : World) (e : CacheEntry) :
  getCachedData (files w) "events" = Ok (CEntry e) ->
  assoc_get "events" (dataTypes w) = Some 1800000 ->
  1800000 <= clock w - timestamp e < 3600000 ->
  let priorities := default [] (sourcePriorities w !! "events") in
  Server.getEvents up w = (Ok (data e), w)
  /\ forall results : gmap string TypeResult,
       (exists n : nat,
          calls (updateType up "events" results w).2
          = calls w ++ (via getEvents <$> take n priorities)
          /\ (priorities <> [] -> (0 < n)%nat))
       /\ forall results' r,
            (updateType up "events" results w).1 = Ok results' ->
            results' !! "events" = Some r ->
            fromCache r = false.
Proof.
  intros Hcached Httl Hage priorities.
  assert (Hconf : cacheTtlOf w "events" = 1800000).
  { unfold cacheTtlOf. by rewrite Httl. }
  assert (Hold : forall e', getCachedData (files w) "events" = Ok (CEntry e') ->
                   cacheTtlOf w "events" <= clock w - timestamp e').
  { intros e' He'. rewrite Hcached in He'. injection He' as <-. lia. }
  split.
  { apply (cachedOr_hit "events" 3600000 _ w e); [exact Hcached | lia]. }
  intros results. split.
  - rewrite (updateType_miss up "events" results w Hold).
    destruct (getDataFromPrioritizedSources_frame up "events" (via getEvents) w)
      as (r & wf & n & Hrun & _ & _ & Hcalls & _ & Hr).
    exists n. unfold bind.
    change (fetchFresh up "events")
      with (getDataFromPrioritizedSources up "events" (via getEvents)).
    rewrite Hrun. destruct r as [fresh | err].
    + rewrite storeFresh_calls. split; [exact Hcalls |]. intros _. lia.
    + split; [exact Hcalls |]. subst n. unfold priorities.
      destruct (default [] _); [done | simpl; lia].
  - intros results' r Hrun Hr.
    destruct (updateType up "events" results w) as [r0 w'] eqn:Hupdate.
    simpl in Hrun. subst r0.
    destruct (updateType_cases up "events" results results' w w' Hupdate)
      as [(e' & He' & Hfresh & _) | (_ & fresh & wf & _ & _ & _ & ->)].
    + specialize (Hold e' He'). lia.
    + rewrite lookup_insert_eq in Hr. by injection Hr as <-.
Qed.

Lemma events_outlive_their_ttl_in_the_handler_witness :
  Server.getEvents (js := Examples.demoBuiltins) Examples.cardsDown Examples.agedEvents
  = (Ok [VObj Examples.goku], Examples.agedEvents)
  /\ exists n : nat,
       calls (updateType (js := Examples.demoBuiltins) Examples.cardsDown "events" ∅
                Examples.agedEvents).2
       = calls Examples.agedEvents
         ++ (via getEvents <$> take n ["dokkanInfo"; "fandom"])
       /\ (0 < n)%nat.
Proof.
  destruct (events_outlive_their_ttl_in_the_handler (js := Examples.demoBuiltins)
              Examples.cardsDown
              Examples.agedEvents (mkEntry [VObj Examples.goku] 1000 "dokkanInfo"))
    as [Hserved Hupdate].
  - reflexivity.
  - reflexivity.
  - change (1800000 <= 2501000 - 1000 < 3600000). lia.
  - split; [exact Hserved |].
    destruct (Hupdate ∅) as [(n & Hcalls & Hn) _].
    exists n. split; [exact Hcalls |]. apply Hn. discriminate.
Defined.

(** X22: once the server's [clearCache] has resolved, a handler whose cache
    file is in the cache directory finds no entry: it goes to the sources
    of its type, in priority order, with its own adapter method. *)
Theorem cleared_cache_makes_handlers_fetch (up : Upstream) `{js : Builtins}
  (ep : Endpoint) (w w0 : World) :
  ep ∈ cachedHandlers up ->
  Server.clearCache w = (Ok tt, w0) ->
  inCacheDir (filepath (cacheKey ep)) = true ->
  let priorities := default [] (sourcePriorities w !! cacheKey ep) in
  exists n : nat,
    calls (handle ep w0).2 = calls w ++ (via (method ep) <$> take n priorities)
    /\ (priorities <> [] -> (0 < n)%nat).
Proof.
  intros Hep Hclear Hin priorities.
  destruct (endpoint_unfold up ep Hep) as [-> _].
  unfold Server.clearCache in Hclear.
  destruct (DataManager.clearCache (files w)) as [rc fs0] eqn:Hdm.
  injection Hclear as -> <-.
  assert (Hmiss : getCachedData fs0 (cacheKey ep) = Ok CNull).
  { destruct (clearCache_misses (files w)) as [Hok _].
    rewrite Hdm in Hok. by apply Hok. }
  destruct (cachedOr_run up (cacheKey ep) (maxAge ep) (via (method ep))
              (with_files (fun _ => fs0) w))
    as [(e & He & _) | (_ & r & w' & n & Hrun & Hcalls & Hn & _)].
  { simpl in He. rewrite Hmiss in He. discriminate He. }
  exists n. rewrite Hrun. split; [exact Hcalls | exact Hn].
Qed.

Lemma cleared_cache_makes_handlers_fetch_witness :
  exists (w0 : World) (n : nat),
    Server.clearCache (js := Examples.demoBuiltins) Examples.agedEvents = (Ok tt, w0)
    /\ nodes (files w0) = ∅
    /\ calls (Server.getEvents (js := Examples.demoBuiltins) Examples.cardsDown w0).2
       = calls Examples.agedEvents
         ++ (via getEvents
               <$> take n (default [] (sourcePriorities Examples.agedEvents !! "events")))
    /\ (0 < n)%nat.
Proof.
  assert (Hok : (Server.clearCache (js := Examples.demoBuiltins) Examples.agedEvents).1
                = Ok tt) by (vm_compute; reflexivity).
  assert (Hnodes : nodes (files (Server.clearCache (js := Examples.demoBuiltins)
                                   Examples.agedEvents).2) = ∅)
    by (vm_compute; reflexivity).
  destruct (Server.clearCache (js := Examples.demoBuiltins) Examples.agedEvents)
    as [rc w0] eqn:Hclear.
  simpl in Hok, Hnodes. subst rc.
  destruct (cleared_cache_makes_handlers_fetch (js := Examples.demoBuiltins)
              Examples.cardsDown
              (mkEndpoint "events" 3600000 getEvents
                 (Server.getEvents (js := Examples.demoBuiltins) Examples.cardsDown))
              Examples.agedEvents w0
              (list_elem_of_further _ _ _ (list_elem_of_here _ _))
              Hclear eq_refl)
    as (n & Hcalls & Hn).
  exists w0, n. split; [reflexivity |]. split; [exact Hnodes |].
  split; [exact Hcalls |]. apply Hn. discriminate.
Defined.

(** X23: a handler touches no file but the cache file of its own key.
    When it returns, the cache holds under the key an entry whose data is
    what was returned, or, when the records were just fetched, what they
    read back as from JSON.  When it throws and the file of the key is one
    that [writeFile] can store, the fetch is what threw and the file system
    is as it was. *)
Theorem handler_writes_only_its_own_entry (up : Upstream) `{js : Builtins}
  (ep : Endpoint) (w w' : World) (r : Result (list Value)) :
  ep ∈ cachedHandlers up ->
  handle ep w = (r, w') ->
  (forall path, path <> filepath (cacheKey ep) ->
     nodes (files w') !! path = nodes (files w) !! path)
  /\ match r with
     | Ok cards =>
         exists e, getCachedData (files w') (cacheKey ep) = Ok (CEntry e)
                   /\ (data e = cards \/ data e = jsonElement <$> cards)
     | Throw _ =>
         onWrite (default (created (files w) (filepath (cacheKey ep)))
                          (nodes (files w) !! filepath (cacheKey ep)))
         = Stored ->
         files w' = files w
     end.
Proof.
  intros Hep Hrun.
  destruct (endpoint_unfold up ep Hep) as [Hbody _]. rewrite Hbody in Hrun.
  destruct (cachedOr_run up (cacheKey ep) (maxAge ep) (via (method ep)) w)
    as [(e & He & _ & Hhit) | (_ & r1 & w1 & n & Hmiss & _ & _ & Hkeys & _ & Hr)].
  - rewrite Hhit in Hrun. injection Hrun as <- <-.
    split; [done |]. exists e. split; [exact He | by left].
  - rewrite Hmiss in Hrun. injection Hrun as -> ->.
    split; [exact Hkeys |].
    destruct r as [cards | err].
    + destruct Hr as [_ Hcached]. eexists. split; [exact Hcached | by right].
    + intros Hstored. by destruct Hr as [Hsame | Hrefused].
Qed.

Lemma handler_writes_only_its_own_entry_witness :
  exists (w' : World) (err : Error),
    Server.getLatestCards (js := Examples.demoBuiltins) Examples.unreachable
      Examples.agedEvents = (Throw err, w')
    /\ files w' = files Examples.agedEvents.
Proof.
  assert (Hfail : match (Server.getLatestCards (js := Examples.demoBuiltins)
                           Examples.unreachable Examples.agedEvents).1 with
                  | Ok _ => False
                  | Throw _ => True
                  end) by (vm_compute; exact I).
  destruct (Server.getLatestCards (js := Examples.demoBuiltins) Examples.unreachable
              Examples.agedEvents)
    as [[cards | err] w'] eqn:Hrun; [contradiction Hfail |].
  exists w', err. split; [reflexivity |].
  apply (proj2 (handler_writes_only_its_own_entry (js := Examples.demoBuiltins)
                  Examples.unreachable
                  (mkEndpoint "cards" 3600000 getLatestCards
                     (Server.getLatestCards (js := Examples.demoBuiltins)
                        Examples.unreachable))
                  Examples.agedEvents w' (Throw err)
                  (list_elem_of_here _ _) Hrun)).
  reflexivity.
Defined.

(** ** The defaults of required fields *)

(** X24: in what [parseData] returns for a record that is a plain object,
    a required field that has no transformation is never [undefined]: it
    has the record's value or a default, and no default is [undefined]. *)
Theorem required_fields_are_defined `{js : Builtins} (w w' : World)
  (dataType : string) (rawData : Value) (source : string) (out : list Value)
  (i : nat) (item : Item) (f : string) :
  let p := parserConfigFor (parsers w) dataType in
  parseData dataType rawData source w = (Ok out, w') ->
  dataArray rawData !! i = Some (VObj item) ->
  transformations p !! "__proto__" = None ->
  f ∈ requiredFields p ->
  transformations p !! f = None ->
  exists item' : Item,
    out !! i = Some (VObj item')
    /\ isUndefined (prop item' f) = false.
Proof.
  intros p Hrun Hi Hproto Hreq Hnone.
  unfold parseData, bind, get, lift in Hrun. fold p in Hrun.
  destruct (mapM (parseItem (clock w) p) (dataArray rawData)) as [out' | e] eqn:Hout;
    [| discriminate Hrun].
  injection Hrun as <- _.
  destruct (mapM_lookup _ _ _ i _ Hout Hi) as (y & Hy & Hyi).
  destruct (parseItem_obj (clock w) p item Hproto) as (item' & Hparse & Hlook).
  rewrite Hparse in Hy. injection Hy as <-.
  exists item'. split; [exact Hyi |].
  cbv zeta in Hlook. unfold prop at 1. rewrite Hlook, Hnone.
  rewrite filled_lookup.
  rewrite bool_decide_eq_true_2 by exact Hreq. simpl andb.
  destruct (isUndefined (prop item f)) eqn:E.
  - exact (getDefaultValueForField_defined (clock w) f).
  - exact E.
Qed.

Lemma required_fields_are_defined_witness :
  exists (out : list Value) (item' : Item),
    (parseData (js := Examples.demoBuiltins) "cards" (VArr [VObj Examples.goku])
       "fandom" Examples.freshWorld).1 = Ok out
    /\ out !! 0%nat = Some (VObj item')
    /\ isUndefined (prop item' "type") = false.
Proof.
  assert (Hok : match (parseData (js := Examples.demoBuiltins) "cards"
                         (VArr [VObj Examples.goku]) "fandom"
                         Examples.freshWorld).1 with
                | Ok _ => True
                | Throw _ => False
                end) by (vm_compute; exact I).
  destruct (parseData (js := Examples.demoBuiltins) "cards"
              (VArr [VObj Examples.goku]) "fandom" Examples.freshWorld)
    as [[out | e] w'] eqn:Hrun; [| contradiction Hok].
  destruct (required_fields_are_defined (js := Examples.demoBuiltins)
              Examples.freshWorld w' "cards"
              (VArr [VObj Examples.goku]) "fandom" out 0 Examples.goku "type"
              Hrun eq_refl)
    as (item' & Hitem & Hdefined).
  - vm_compute. reflexivity.
  - vm_compute. apply list_elem_of_further, list_elem_of_further, list_elem_of_here.
  - vm_compute. reflexivity.
  - exists out, item'. split; [reflexivity |]. split; [exact Hitem | exact Hdefined].
Defined.

(** ** Batches of plain records *)


(** X25: a batch of plain objects is parsed without an exception and
    without touching the world, whatever the parser registered for the type
    (as long as it does not transform [__proto__]): one output record per
    input record and in the same order.  In each output record every
    required field is an own property, unless plain objects inherit it (a
    missing one holds its default), every own property of the input is
    still one, a field whose transformation throws keeps its raw value, a
    field whose transformation returns holds the returned value, and a field
    without transformation that needed no default is unchanged. *)
Theorem plain_records_are_parsed `{js : Builtins} (w : World) (dataType : string)
  (rawData : Value) (source : string) :
  let p := parserConfigFor (parsers w) dataType in
  Forall (fun record => exists item : Item, record = VObj item) (dataArray rawData) ->
  transformations p !! "__proto__" = None ->
  exists out : list Value,
    parseData dataType rawData source w = (Ok out, w)
    /\ length out = length (dataArray rawData)
    /\ forall (i : nat) (item : Item),
         dataArray rawData !! i = Some (VObj item) ->
         exists item' : Item,
           out !! i = Some (VObj item')
           /\ (forall f, f ∈ requiredFields p -> inherited f = false ->
                 is_Some (item' !! f))
           /\ (forall f, f ∈ requiredFields p ->
                 isUndefined (prop item f) = true ->
                 transformations p !! f = None ->
                 item' !! f = Some (getDefaultValueForField (clock w) f))
           /\ (forall f, is_Some (item !! f) -> is_Some (item' !! f))
           /\ (forall f v t e,
                 item !! f = Some v -> isUndefined v = false ->
                 transformations p !! f = Some t ->
                 t (clock w) v = Throw e ->
                 item' !! f = Some v)
           /\ (forall f v t v',
                 item !! f = Some v -> isUndefined v = false ->
                 transformations p !! f = Some t ->
                 t (clock w) v = Ok v' ->
                 item' !! f = Some v')
           /\ (forall f,
                 transformations p !! f = None ->
                 isUndefined (prop item f) = false ->
                 item' !! f = item !! f).
Proof.
  intros p Hplain Hproto.
  destruct (mapM_Ok (parseItem (clock w) p) (dataArray rawData)) as [out Hout].
  { eapply Forall_impl; [exact Hplain |]. intros record [item ->].
    destruct (parseItem_obj (clock w) p item Hproto) as (item' & Hrun & _). eauto. }
  exists out. split.
  { unfold parseData, bind, get, lift. fold p. by rewrite Hout. }
  split; [by apply (mapM_length _ _ _ Hout) |].
  intros i item Hi.
  destruct (mapM_lookup _ _ _ i _ Hout Hi) as (y & Hy & Hyi).
  destruct (parseItem_obj (clock w) p item Hproto) as (item' & Hrun & Hlook).
  rewrite Hrun in Hy. injection Hy as <-.
  exists item'. split; [exact Hyi |]. cbv zeta in Hlook.
  assert (Hfilled : forall f v, item !! f = Some v -> isUndefined v = false ->
            filled (clock w) (requiredFields p) item !! f = Some v).
  { intros f v Hf Hv. rewrite filled_lookup.
    unfold prop. rewrite Hf. rewrite Hv. by rewrite andb_false_r. }
  repeat split.
  - intros f Hreq Hown. rewrite Hlook.
    assert (is_Some (filled (clock w) (requiredFields p) item !! f)) as Hs.
    { rewrite filled_lookup. rewrite bool_decide_eq_true_2 by done. simpl.
      destruct (isUndefined (prop item f)) eqn:E; [eauto |].
      unfold prop, Object_prototype in E. rewrite Hown in E.
      destruct (item !! f) as [v |]; [eauto | discriminate E]. }
    destruct (transformations p !! f); [by apply transformed_is_Some | done].
  - intros f Hreq Hu Hnone. rewrite Hlook, Hnone.
    rewrite filled_lookup, Hu. by rewrite bool_decide_eq_true_2.
  - intros f Hs. rewrite Hlook.
    assert (is_Some (filled (clock w) (requiredFields p) item !! f)) as Hs'.
    { rewrite filled_lookup. destruct (_ && _); eauto. }
    destruct (transformations p !! f); [by apply transformed_is_Some | done].
  - intros f v t e Hf Hv Ht Hthrow. rewrite Hlook, Ht.
    unfold transformed, prop. rewrite (Hfilled f v Hf Hv).
    rewrite Hv. simpl. rewrite Hthrow. by apply Hfilled.
  - intros f v t v' Hf Hv Ht Hok. rewrite Hlook, Ht.
    unfold transformed, prop. rewrite (Hfilled f v Hf Hv).
    rewrite Hv. simpl. rewrite Hok. by rewrite lookup_insert_eq.
  - intros f Hnone Hdef. rewrite Hlook, Hnone.
    rewrite filled_lookup, Hdef. by rewrite andb_false_r.
Qed.

(** The record [goku] goes through a parser whose transformation of [name]
    throws: [name] keeps its raw value, the missing [id] gets its default
    and the unknown field [power] is kept. *)
Lemma plain_records_are_parsed_witness :
  exists item' : Item,
    (parseData (js := Examples.demoBuiltins) "heroes" (VArr [VObj Examples.goku])
       "fandom" Examples.strictWorld).1
    = Ok [VObj item']
    /\ item' !! "name" = Some (VStr "Goku")
    /\ item' !! "id" = Some (VStr "0")
    /\ item' !! "power" = Some (VNum (num_of_Z 9001)).
Proof.
  destruct (plain_records_are_parsed (js := Examples.demoBuiltins)
              Examples.strictWorld "heroes" (VArr [VObj Examples.goku]) "fandom")
    as (out & Hrun & Hlen & Hitems).
  - apply Forall_cons_2; [by eexists | apply Forall_nil_2].
  - vm_compute. reflexivity.
  - destruct (Hitems 0%nat Examples.goku eq_refl)
      as (item' & Hout & Hreq & Hdefault & _ & Hthrow & _ & Hsame).
    exists item'. split.
    + rewrite Hrun. cbn [fst dataArray length] in *.
      destruct out as [| x [| y rest]]; [discriminate Hlen | | discriminate Hlen].
      injection Hout as ->. reflexivity.
    + split; [| split].
      * apply (Hthrow "name" (VStr "Goku") Examples.failing
                 (mkError "cannot transform")); vm_compute; reflexivity.
      * rewrite (Hdefault "id"); [vm_compute; reflexivity | | vm_compute; reflexivity ..].
        apply list_elem_of_In. vm_compute. tauto.
      * rewrite (Hsame "power"); vm_compute; reflexivity.
Defined.
